(** * batch_ocr_pipeline: a shallow embedding of the batch OCR script

    The script splits a PDF into page chunks, classifies every chunk as
    text-bearing or scanned, extracts the text of the former directly and
    sends the latter through a remote batch OCR service, then merges all
    the text into one output file.

    The embedding follows [batch_ocr_pipeline.py] function by function.
    Python values are an inductive type, strings are lists of code points,
    the file system is a finite map, and every effect (HTTP call, sleep,
    console message, file write) is recorded in a chronological trace.
    The libraries the script calls (PyPDF2, pdfminer, requests, json) and
    the codec of the locale are oracles collected in one record.

    Modelling choices: the disk itself does not fail (no full disk, no
    missing permission), while the text-mode write of the final output
    can: it raises when the text cannot be encoded; paths are joined
    as on POSIX; the progress bars of tqdm are left out; console messages
    are recorded by kind, not by their text; the only unbounded loop, the
    status poll, is given a fuel argument, and running out of fuel is a
    third outcome next to returning and raising. *)

From Stdlib Require Import ZArith List Lia Bool Ascii String.
From Stdlib Require Import DecimalString DecimalZ.
From Stdlib Require Import SpecFloat.
From stdpp Require Import gmap list.

Set Warnings "-register-all".
Local Open Scope Z_scope.

(** ** Strings

    A Python [str] is a sequence of Unicode code points. *)

Abbreviation str := (list N).

(** An ASCII literal of the source. *)
Definition lit (s : string) : str :=
  List.map N_of_ascii (list_ascii_of_string s).

(** [str(n)] for an int, as used by the f-strings [f"chunk_{i+1}"]. *)
Definition dec (z : Z) : str :=
  lit (NilZero.string_of_int (Z.to_int z)).

(** [ch.isspace()], the table of CPython's [_PyUnicode_IsWhitespace]. *)
Definition isspace (c : N) : bool :=
  ((9 <=? c) && (c <=? 13) || (28 <=? c) && (c <=? 32)
   || (c =? 133) || (c =? 160) || (c =? 5760)
   || (8192 <=? c) && (c <=? 8202)
   || (c =? 8232) || (c =? 8233) || (c =? 8239) || (c =? 8287)
   || (c =? 12288))%N.

Fixpoint lstrip (s : str) : str :=
  match s with
  | c :: s' => if isspace c then lstrip s' else s
  | [] => []
  end.

Definition rstrip (s : str) : str := rev (lstrip (rev s)).

(** [s.strip()] *)
Definition strip (s : str) : str := rstrip (lstrip s).

Definition newline : str := [10%N].

(** [sep.join(parts)] *)
Fixpoint str_join (sep : str) (parts : list str) : str :=
  match parts with
  | [] => []
  | [p] => p
  | p :: ps => p ++ sep ++ str_join sep ps
  end.

(** [os.path.join(a, b)] on POSIX, for a second component that does not
    start with a slash (here always [chunk_<n>.pdf]). *)
Definition path_join (a b : str) : str :=
  match List.last a 0%N with
  | 47%N => a ++ b
  | _ => if decide (a = []) then b else a ++ lit "/" ++ b
  end.

(** ** Python values (what [json.loads] and [response.json()] return) *)

Inductive pyval :=
| VNone
| VBool (b : bool)
| VInt (n : Z)
| VFloat (f : spec_float)
| VStr (s : str)
| VList (l : list pyval)
| VDict (d : list (str * pyval)).

(** Truth value testing, [bool(v)]. *)
Definition truthy (v : pyval) : bool :=
  match v with
  | VNone => false
  | VBool b => b
  | VInt n => negb (n =? 0)
  | VFloat (S754_zero _) => false
  | VFloat _ => true
  | VStr s => negb (bool_decide (s = []))
  | VList l => match l with [] => false | _ => true end
  | VDict d => match d with [] => false | _ => true end
  end.

(** [a or b] *)
Definition py_or (a b : pyval) : pyval := if truthy a then a else b.

(** Lookup in a dict with string keys. *)
Fixpoint dict_lookup (d : list (str * pyval)) (k : str) : option pyval :=
  match d with
  | [] => None
  | (k', v) :: d' => if decide (k' = k) then Some v else dict_lookup d' k
  end.

(** ** Exceptions

    The instances of [Exception] the script can meet; these are what
    [except Exception] catches. *)

Inductive exn :=
| HTTPError (status : Z)          (* raised by [raise_for_status] *)
| KeyError (key : pyval)
| IndexError
| TypeError
| AttributeError
| ZeroDivisionError
| OverflowError
| ValueError
| FileNotFoundError (path : str)
| LibraryError (code : N).        (* raised inside PyPDF2, pdfminer, json, requests, codecs *)

Inductive result (A : Type) :=
| Ok (a : A)
| Err (e : exn).
Arguments Ok {A} a.
Arguments Err {A} e.

(** [d.get(k, default)]; on a value that is not a dict the attribute
    [get] does not exist. *)
Definition py_get (v : pyval) (k : str) (default : pyval) : result pyval :=
  match v with
  | VDict d => Ok (match dict_lookup d k with Some x => x | None => default end)
  | _ => Err AttributeError
  end.

(** [v[k]] for a string key. *)
Definition py_getitem_str (v : pyval) (k : str) : result pyval :=
  match v with
  | VDict d => match dict_lookup d k with
               | Some x => Ok x
               | None => Err (KeyError (VStr k))
               end
  | _ => Err TypeError
  end.

(** [l[i]] on a Python list, negative indices counting from the end. *)
Definition list_index {A} (l : list A) (i : Z) : option A :=
  let n := Z.of_nat (length l) in
  if i <? 0 then (if 0 <=? n + i then l !! Z.to_nat (n + i) else None)
  else l !! Z.to_nat i.

(** [v[0]] *)
Definition py_getitem_0 (v : pyval) : result pyval :=
  match v with
  | VList l => match l with x :: _ => Ok x | [] => Err IndexError end
  | VStr s => match s with c :: _ => Ok (VStr [c]) | [] => Err IndexError end
  | VDict _ => Err (KeyError (VInt 0))
  | _ => Err TypeError
  end.

(** [s.strip()] on a value: only a [str] has the method used here. *)
Definition py_strip (v : pyval) : result str :=
  match v with
  | VStr s => Ok (strip s)
  | _ => Err AttributeError
  end.

(** ** Floating point: [a / b] on ints and [math.ceil]

    [total_pages / chunk_size] is Python's true division of two ints: the
    correctly rounded (round-half-to-even) binary64 quotient, 0.0 on
    underflow, [OverflowError] when the quotient exceeds the float range,
    [ZeroDivisionError] on a zero divisor. *)

Definition prec : Z := 53.
Definition emax : Z := 1024.

Definition py_truediv (a b : Z) : result spec_float :=
  if b =? 0 then Err ZeroDivisionError
  else
    let sgn := xorb (a <? 0) (b <? 0) in
    if a =? 0 then Ok (S754_zero (b <? 0))
    else
      let '(q, e, l) := SFdiv_core_binary prec emax (Z.abs a) 0 (Z.abs b) 0 in
      match binary_round_aux prec emax sgn q e l with
      | S754_infinity _ => Err OverflowError
      | f => Ok f
      end.

(** [math.ceil(x)] returns an int. *)
Definition math_ceil (x : spec_float) : result Z :=
  match x with
  | S754_zero _ => Ok 0
  | S754_finite s m e =>
      let v := cond_Zopp s (Zpos m) in
      Ok (if 0 <=? e then v * 2 ^ e else - ((- v) / 2 ^ (- e)))
  | S754_infinity _ => Err OverflowError
  | S754_nan => Err ValueError
  end.

(** [range(n)] and [range(a, b)] *)
Definition range (n : Z) : list Z :=
  List.map Z.of_nat (seq 0 (Z.to_nat n)).

Definition range2 (a b : Z) : list Z :=
  List.map (fun k => a + Z.of_nat k) (seq 0 (Z.to_nat (b - a))).

(** Iterating a file opened in text mode: universal newlines, every line
    keeps its terminator, translated to a line feed. *)
Fixpoint readlines_from (cur : str) (s : str) : list str :=
  match s with
  | [] => match cur with [] => [] | _ => [cur] end
  | c :: s' =>
      if (c =? 10)%N then (cur ++ newline) :: readlines_from [] s'
      else if (c =? 13)%N then
        match s' with
        | c' :: s'' =>
            if (c' =? 10)%N then (cur ++ newline) :: readlines_from [] s''
            else (cur ++ newline) :: readlines_from [] s'
        | [] => [cur ++ newline]
        end
      else readlines_from (cur ++ [c]) s'
  end.

Definition readlines (s : str) : list str := readlines_from [] s.

(** ** JSON serialisation, [json.dumps] with its defaults

    Separators are [", "] and [": "], and [ensure_ascii] escapes every
    character outside the printable ASCII range. *)

Definition hex_digit (n : N) : N :=
  (if n <? 10 then 48 + n else 87 + n)%N.

Definition u_escape (c : N) : str :=
  [92; 117; hex_digit (c / 4096 mod 16); hex_digit (c / 256 mod 16);
   hex_digit (c / 16 mod 16); hex_digit (c mod 16)]%N.

Definition json_escape_char (c : N) : str :=
  (if c =? 34 then [92; 34]
   else if c =? 92 then [92; 92]
   else if c =? 10 then [92; 110]
   else if c =? 13 then [92; 114]
   else if c =? 9 then [92; 116]
   else if c =? 8 then [92; 98]
   else if c =? 12 then [92; 102]
   else if (32 <=? c) && (c <=? 126) then [c]
   else if c <? 65536 then u_escape c
   else u_escape (55296 + (c - 65536) / 1024)
        ++ u_escape (56320 + (c - 65536) mod 1024))%N.

Definition json_string (s : str) : str :=
  [34%N] ++ List.concat (List.map json_escape_char s) ++ [34%N].

Section JsonDumps.
(** [float.__repr__], left to the interpreter. *)
Variable float_repr : spec_float -> str.

Fixpoint json_dumps (v : pyval) : str :=
  match v with
  | VNone => lit "null"
  | VBool true => lit "true"
  | VBool false => lit "false"
  | VInt n => dec n
  | VFloat f => float_repr f
  | VStr s => json_string s
  | VList l => lit "[" ++ str_join (lit ", ") (List.map json_dumps l) ++ lit "]"
  | VDict d =>
      lit "{"
      ++ str_join (lit ", ")
           (List.map (fun kv => json_string (fst kv) ++ lit ": " ++ json_dumps (snd kv)) d)
      ++ lit "}"
  end.
End JsonDumps.

(** ** Files, requests and the event trace *)

(** A page object of a parsed PDF, identified by its object number. *)
Inductive page := PageObj (n : N).

Inductive content :=
| PdfData (pages : list page)     (* what [PdfWriter.write] stores *)
| TextData (s : str)              (* a file written in text mode *)
| RawData (b : list N).           (* a file written in binary mode *)

Inductive request :=
| PostFiles (path : str) (file : content) (purpose : str)
                                   (* POST {API_URL}/files, multipart *)
| PostBatchJobs (body : str)       (* POST {API_URL}/batch/jobs *)
| GetBatchJob (job_id : pyval)     (* GET {API_URL}/batch/jobs/{job_id} *)
| GetFileContent (file_id : pyval). (* GET {API_URL}/files/{id}/content *)

Record response := {
  status_code : Z;
  resp_json : result pyval;        (* [response.json()] *)
  resp_content : list N            (* [response.content] *)
}.

(** Console messages, one constructor per [print] of the source. *)
Inductive msg :=
| MsgStart (input_pdf : str)
| MsgSplit (n chunk_size : Z)
| MsgDetecting
| MsgTextOnly (n : Z)
| MsgScanned (n : Z)
| MsgUploading
| MsgNdjson (n : Z)
| MsgJobCreated (job_id : pyval)
| MsgWaiting
| MsgStatus (status : pyval)
| MsgDownloaded (path : str)
| MsgNoOutput
| MsgDone
| MsgSaved.

Inductive event :=
| EvMkdir (path : str)
| EvWrite (path : str) (data : content)
| EvHttp (req : request) (resp : result response)
| EvSleep (secs : Z)
| EvPrint (m : msg).

Record state := {
  fs : gmap str content;
  trace : list event                (* oldest event first *)
}.

(** The requests sent so far, oldest first. *)
Fixpoint http_calls (t : list event) : list request :=
  match t with
  | [] => []
  | EvHttp req _ :: t' => req :: http_calls t'
  | _ :: t' => http_calls t'
  end.

(** The libraries and the remote service.  The [n]-th HTTP call of a run
    (counting from 0) is answered by [http n]. *)
Record library := {
  pypdf_pages : content -> result (list page);   (* [PdfReader(f).pages] *)
  pdfminer : content -> option Z -> result str;  (* [extract_text(f, maxpages)] *)
  http : nat -> request -> result response;
  locale_decode : list N -> result str;                (* text-mode read, locale encoding *)
  locale_encode : str -> result (list N);              (* text-mode write, locale encoding *)
  json_loads : str -> result pyval;
  float_repr : spec_float -> str
}.

(** ** The monad of the script: state, exceptions, and fuel for the one
    unbounded loop *)

Inductive outcome (A : Type) :=
| Ret (a : A)
| Raise (e : exn)
| OutOfFuel.
Arguments Ret {A} a.
Arguments Raise {A} e.
Arguments OutOfFuel {A}.

Definition M (A : Type) := state -> outcome A * state.

Definition ret {A} (a : A) : M A := fun s => (Ret a, s).

Definition bind {A B} (m : M A) (k : A -> M B) : M B :=
  fun s =>
    match m s with
    | (Ret a, s') => k a s'
    | (Raise e, s') => (Raise e, s')
    | (OutOfFuel, s') => (OutOfFuel, s')
    end.

Definition raise {A} (e : exn) : M A := fun s => (Raise e, s).

Definition lift {A} (r : result A) : M A :=
  match r with
  | Ok a => ret a
  | Err e => raise e
  end.

(** [try: m  except Exception: h] *)
Definition try_except {A} (m : M A) (h : exn -> M A) : M A :=
  fun s =>
    match m s with
    | (Raise e, s') => h e s'
    | r => r
    end.

Definition rbind {A B} (r : result A) (k : A -> result B) : result B :=
  match r with
  | Ok a => k a
  | Err e => Err e
  end.

Notation "'let*' x := c 'in' k" := (bind c (fun x => k))
  (at level 10, x name, c at level 100, k at level 200).
Notation "'run' c 'in' k" := (bind c (fun _ => k))
  (at level 10, c at level 100, k at level 200).
Notation "'let?' x := c 'in' k" := (rbind c (fun x => k))
  (at level 10, x name, c at level 100, k at level 200).

(** [for x in xs: acc = body(acc, x)] *)
Fixpoint for_fold {A B} (xs : list A) (acc : B) (body : B -> A -> M B) : M B :=
  match xs with
  | [] => ret acc
  | x :: xs' => let* acc' := body acc x in for_fold xs' acc' body
  end.

Definition emit (e : event) : M unit :=
  fun s => (Ret tt, {| fs := fs s; trace := trace s ++ [e] |}).

Definition print (m : msg) : M unit := emit (EvPrint m).
Definition sleep (secs : Z) : M unit := emit (EvSleep secs).
Definition makedirs (path : str) : M unit := emit (EvMkdir path).

(** [with open(path, "wb") as f: f.write(data)]: the file is replaced.
    The manifest, written in text mode, is stored with it as well: its
    text is what [json.dumps] emits, printable ASCII only, which the
    encodings in use as locale encodings (UTF-8, the ISO-8859 and
    Windows code pages) all encode.  Text that comes from the documents
    goes through [write_text] below. *)
Definition write_file (path : str) (data : content) : M unit :=
  fun s => (Ret tt, {| fs := <[path := data]> (fs s);
                       trace := trace s ++ [EvWrite path data] |}).

(** [open(path, "rb")] *)
Definition open_read (path : str) : M content :=
  fun s =>
    match fs s !! path with
    | Some data => (Ret data, s)
    | None => (Raise (FileNotFoundError path), s)
    end.

(** ** The script *)

Section Script.
Variable L : library.

(** [requests.get] / [requests.post]: the next answer of the service. *)
Definition requests (req : request) : M response :=
  fun s =>
    let r := http L (length (http_calls (trace s))) req in
    let s' := {| fs := fs s; trace := trace s ++ [EvHttp req r] |} in
    match r with
    | Ok resp => (Ret resp, s')
    | Err e => (Raise e, s')
    end.

(** [response.raise_for_status()] *)
Definition raise_for_status (r : response) : M unit :=
  if (400 <=? status_code r) && (status_code r <? 600)
  then raise (HTTPError (status_code r))
  else ret tt.

(** [with open(path, "w") as f: f.write(text)].  [open] truncates the
    file; [f.write] encodes the whole text with the locale's encoding
    first and raises when a character has no encoding, before anything
    is written: the file is then left empty. *)
Definition write_text (path : str) (text : str) : M unit :=
  fun s =>
    match locale_encode L text with
    | Ok _ => write_file path (TextData text) s
    | Err e => (Raise e, snd (write_file path (TextData []) s))
    end.

(** [extract_text(path, maxpages=...)] of pdfminer *)
Definition extract_text (path : str) (maxpages : option Z) : M str :=
  let* data := open_read path in
  lift (pdfminer L data maxpages).

(** [is_text_page], lines 19-25 *)
Definition is_text_page (pdf_path : str) : M bool :=
  try_except
    (let* text := extract_text pdf_path (Some 1) in
     ret (truthy (VStr (strip text))))
    (fun _ => ret false).

(** [split_pdf], lines 31-50 *)
Definition split_pdf (input_pdf : str) (chunk_size : Z) (output_dir : str)
  : M (list str) :=
  run makedirs output_dir in
  let* file := open_read input_pdf in
  let* pages := lift (pypdf_pages L file) in
  let total_pages := Z.of_nat (length pages) in
  let* quotient := lift (py_truediv total_pages chunk_size) in
  let* chunks := lift (math_ceil quotient) in
  let* file_paths :=
    for_fold (range chunks) [] (fun file_paths i =>
      let start := i * chunk_size in
      let end_ := Z.min (start + chunk_size) total_pages in
      let* writer :=
        for_fold (range2 start end_) [] (fun writer j =>
          match list_index pages j with
          | Some p => ret (writer ++ [p])
          | None => raise IndexError
          end) in
      let path := path_join output_dir (lit "chunk_" ++ dec (i + 1) ++ lit ".pdf") in
      run write_file path (PdfData writer) in
      ret (file_paths ++ [path])) in
  run print (MsgSplit (Z.of_nat (length file_paths)) chunk_size) in
  ret file_paths.

(** [upload_file], lines 56-65 *)
Definition upload_file (filepath : str) : M pyval :=
  let* f := open_read filepath in
  let* response := requests (PostFiles filepath f (lit "batch")) in
  run raise_for_status response in
  let* body := lift (resp_json response) in
  lift (py_getitem_str body (lit "id")).

(** The record written for the [i]-th file id (0-based [i]). *)
Definition ndjson_line (i : Z) (fid : pyval) : pyval :=
  VDict [(lit "custom_id", VStr (lit "chunk_" ++ dec (i + 1)));
         (lit "body", VDict [(lit "model", VStr (lit "mistral-ocr"));
                             (lit "input", fid)])].

(** [enumerate(xs)] *)
Definition enumerate {A} (xs : list A) : list (Z * A) :=
  imap (fun i x => (Z.of_nat i, x)) xs.

(** [create_ndjson], lines 71-80 *)
Definition create_ndjson (scanned_file_ids : list pyval) (output_path : str)
  : M str :=
  let* written :=
    for_fold (enumerate scanned_file_ids) [] (fun f ix =>
      let line := ndjson_line (fst ix) (snd ix) in
      ret (f ++ json_dumps (float_repr L) line ++ newline)) in
  run write_file output_path (TextData written) in
  run print (MsgNdjson (Z.of_nat (length scanned_file_ids))) in
  ret output_path.

(** [upload_batch_file], lines 86-95 *)
Definition upload_batch_file (ndjson_path : str) : M pyval :=
  let* f := open_read ndjson_path in
  let* response := requests (PostFiles ndjson_path f (lit "batch")) in
  run raise_for_status response in
  let* body := lift (resp_json response) in
  lift (py_getitem_str body (lit "id")).

(** [create_batch_job], lines 101-115 *)
Definition create_batch_job (batch_file_id : pyval) : M pyval :=
  let payload :=
    VDict [(lit "input_files", VList [batch_file_id]);
           (lit "endpoint", VStr (lit "/v1/ocr"));
           (lit "model", VStr (lit "mistral-ocr"))] in
  let* response := requests (PostBatchJobs (json_dumps (float_repr L) payload)) in
  run raise_for_status response in
  let* job := lift (resp_json response) in
  let* id := lift (py_getitem_str job (lit "id")) in
  run print (MsgJobCreated id) in
  lift (py_getitem_str job (lit "id")).

(** [status in ["completed", "failed", "cancelled"]] *)
Definition terminal_statuses : list str :=
  [lit "completed"; lit "failed"; lit "cancelled"].

Definition is_terminal (status : pyval) : bool :=
  match status with
  | VStr s => bool_decide (s ∈ terminal_statuses)
  | _ => false
  end.

(** The [while True] loop of [wait_for_job]; [fuel] bounds the number
    of iterations the model is allowed to unfold. *)
Fixpoint poll_loop (fuel : nat) (job_id : pyval) (interval : Z) : M pyval :=
  match fuel with
  | O => fun s => (OutOfFuel, s)
  | S fuel' =>
      let* resp := requests (GetBatchJob job_id) in
      let* data := lift (resp_json resp) in
      let* status := lift (py_getitem_str data (lit "status")) in
      run print (MsgStatus status) in
      if is_terminal status then ret data
      else run sleep interval in poll_loop fuel' job_id interval
  end.

(** [wait_for_job], lines 121-131 *)
Definition wait_for_job (fuel : nat) (job_id : pyval) (interval : Z) : M pyval :=
  run print MsgWaiting in
  poll_loop fuel job_id interval.

(** The body of the loop of [download_results], lines 147-153: the text
    of one result line. *)
Definition result_text (line : str) : result str :=
  let? result := json_loads L line in
  let? response := py_get result (lit "response") (VDict []) in
  let? output_text := py_get response (lit "output_text") VNone in
  let? chosen :=
    (if truthy output_text then Ok output_text
     else
       let? response' := py_get result (lit "response") (VDict []) in
       let? text := py_get response' (lit "text") VNone in
       Ok (py_or text (VStr []))) in
  py_strip chosen.

(** [open(path, "r")] read to the end: the bytes are decoded with the
    locale's encoding. *)
Definition read_text (path : str) : M str :=
  let* data := open_read path in
  match data with
  | TextData s => ret s
  | RawData b => lift (locale_decode L b)
  | PdfData _ => raise (LibraryError 0)
  end.

(** [download_results], lines 137-155 *)
Definition download_results (output_file_id : pyval) (save_path : str)
  : M (list str) :=
  let* r := requests (GetFileContent output_file_id) in
  run raise_for_status r in
  run write_file save_path (RawData (resp_content r)) in
  run print (MsgDownloaded save_path) in
  let* f := read_text save_path in
  for_fold (readlines f) [] (fun texts line =>
    let* t := lift (result_text line) in
    ret (texts ++ [t])).

(** The two lists built by the classification loop, lines 171-175. *)
Definition classify (chunk_files : list str) : M (list str * list str) :=
  for_fold chunk_files ([], []) (fun acc path =>
    let* is_text := is_text_page path in
    if is_text then ret (fst acc ++ [path], snd acc)
    else ret (fst acc, snd acc ++ [path])).

(** Direct extraction, lines 181-184. *)
Definition extract_all (text_pages : list str) : M (list str) :=
  for_fold text_pages [] (fun merged_text path =>
    let* text := extract_text path None in
    ret (merged_text ++ [strip text])).

(** [[upload_file(p) for p in scanned_pages]], line 189 *)
Definition upload_all (scanned_pages : list str) : M (list pyval) :=
  for_fold scanned_pages [] (fun ids p =>
    let* id := upload_file p in
    ret (ids ++ [id])).

(** Submission of the batch job, lines 188-193; returns [job_info]. *)
Definition ocr_submit (fuel : nat) (scanned_pages : list str) : M pyval :=
  run print MsgUploading in
  let* scanned_ids := upload_all scanned_pages in
  let* ndjson_path := create_ndjson scanned_ids (lit "ocr_batch.ndjson") in
  let* batch_file_id := upload_batch_file ndjson_path in
  let* job_id := create_batch_job batch_file_id in
  wait_for_job fuel job_id 15.

(** Collection of the OCR output, lines 195-200; returns the extended
    [merged_text]. *)
Definition ocr_collect (job_info : pyval) (merged_text : list str)
  : M (list str) :=
  let* output_files := lift (py_get job_info (lit "output_files") VNone) in
  if truthy output_files then
    let* files := lift (py_getitem_str job_info (lit "output_files")) in
    let* output_file_id := lift (py_getitem_0 files) in
    let* ocr_texts := download_results output_file_id (lit "ocr_results.ndjson") in
    ret (merged_text ++ ocr_texts)
  else
    run print MsgNoOutput in
    ret merged_text.

Definition input_path : str := lit "Chatbot Proposal V1.1.pdf".
Definition chunk_dir : str := lit "split_chunks".
Definition final_path : str := lit "final_smart_ocr_output.txt".

(** Splitting, classification and direct extraction, lines 162-184;
    returns [scanned_pages] and [merged_text]. *)
Definition prepare : M (list str * list str) :=
  let input_pdf := input_path in
  run print (MsgStart input_pdf) in
  let* chunk_files := split_pdf input_pdf 5 chunk_dir in
  run print MsgDetecting in
  let* lists := classify chunk_files in
  let text_pages := fst lists in
  let scanned_pages := snd lists in
  run print (MsgTextOnly (Z.of_nat (length text_pages))) in
  run print (MsgScanned (Z.of_nat (length scanned_pages))) in
  let* merged_text := extract_all text_pages in
  ret (scanned_pages, merged_text).

(** The merge, lines 203-208. *)
Definition finish (merged_text : list str) : M unit :=
  let final_output := str_join (newline ++ newline) merged_text in
  run write_text final_path final_output in
  run print MsgDone in
  print MsgSaved.

(** [main], lines 161-208 *)
Definition main (fuel : nat) : M unit :=
  let* prepared := prepare in
  let scanned_pages := fst prepared in
  let merged_text := snd prepared in
  let* merged_text :=
    match scanned_pages with
    | _ :: _ =>
        let* job_info := ocr_submit fuel scanned_pages in
        ocr_collect job_info merged_text
    | [] => ret merged_text
    end in
  finish merged_text.

End Script.

(** ** Vocabulary of the statements *)

(** The polls and sleeps of a trace, oldest first: a request or a number
    of seconds. *)
Fixpoint schedule (t : list event) : list (request + Z) :=
  match t with
  | [] => []
  | EvHttp req _ :: t' => inl req :: schedule t'
  | EvSleep secs :: t' => inr secs :: schedule t'
  | _ :: t' => schedule t'
  end.

(** What the [i]-th HTTP call answers to a status poll: the job object and
    its status, when the body is JSON with a ["status"] entry. *)
Definition poll_answer (L : library) (job_id : pyval) (i : nat)
  : result (pyval * pyval) :=
  let? resp := http L i (GetBatchJob job_id) in
  let? data := resp_json resp in
  let? status := py_getitem_str data (lit "status") in
  Ok (data, status).

Definition poll_pending (L : library) (job_id : pyval) (i : nat) : Prop :=
  exists data status,
    poll_answer L job_id i = Ok (data, status) /\ is_terminal status = false.

Definition poll_done (L : library) (job_id : pyval) (i : nat) (data : pyval) : Prop :=
  exists status,
    poll_answer L job_id i = Ok (data, status) /\ is_terminal status = true.

(** A field of the ["response"] object of a result record. *)
Definition response_field (record : list (str * pyval)) (name : str)
  : option pyval :=
  match dict_lookup record (lit "response") with
  | Some (VDict r) => dict_lookup r name
  | _ => None
  end.

(** The text a field holds; an absent field, a null and any other empty
    value hold no text. *)
Definition field_text (field : option pyval) : str :=
  match field with
  | Some (VStr t) => t
  | _ => []
  end.

(** The text of a record as the specification words it: the first
    non-empty of [response.output_text] and [response.text], the empty
    string when there is neither, with surrounding whitespace removed. *)
Definition record_text (record : list (str * pyval)) : str :=
  strip (match field_text (response_field record (lit "output_text")) with
         | [] => field_text (response_field record (lit "text"))
         | t => t
         end).

(** A result record: its ["response"], when present, is an object, and
    each of the two text fields, when present, is a string or an empty
    value such as null. *)
Definition field_ok (field : option pyval) : bool :=
  match field with
  | None | Some (VStr _) => true
  | Some v => negb (truthy v)
  end.

Definition well_formed_record (record : list (str * pyval)) : bool :=
  match dict_lookup record (lit "response") with
  | None | Some (VDict _) => true
  | Some _ => false
  end
  && field_ok (response_field record (lit "output_text"))
  && field_ok (response_field record (lit "text")).

(** The path of the chunk with 0-based index [i], and the pages it
    holds: the [i]-th block of [chunk_size] consecutive pages. *)
Definition chunk_path (output_dir : str) (i : nat) : str :=
  path_join output_dir (lit "chunk_" ++ dec (Z.of_nat i + 1) ++ lit ".pdf").

Definition chunk_pages (pages : list page) (chunk_size : nat) (i : nat)
  : list page :=
  take chunk_size (drop (i * chunk_size) pages).

Definition chunk_write (output_dir : str) (pages : list page)
    (chunk_size : nat) (i : nat) : event :=
  EvWrite (chunk_path output_dir i) (PdfData (chunk_pages pages chunk_size i)).

(** The state after the chunks with the indices [indices] are written. *)
Definition store_chunks (output_dir : str) (pages : list page)
    (chunk_size : nat) (indices : list nat) (s : state) : state :=
  {| fs := foldl (fun m i => <[chunk_path output_dir i
                               := PdfData (chunk_pages pages chunk_size i)]> m)
                 (fs s) indices;
     trace := trace s ++ List.map (chunk_write output_dir pages chunk_size) indices |}.

(** The classifier as a function of the files on disk. *)
Definition has_text (L : library) (files : gmap str content) (path : str) : bool :=
  match files !! path with
  | Some data =>
      match pdfminer L data (Some 1) with
      | Ok text => truthy (VStr (strip text))
      | Err _ => false
      end
  | None => false
  end.

(** The value of [job_info.get("output_files")]. *)
Definition output_files (job_info : pyval) : pyval :=
  match job_info with
  | VDict d => match dict_lookup d (lit "output_files") with
               | Some v => v
               | None => VNone
               end
  | _ => VNone
  end.

(** The request [upload_file] sends for a file. *)
Definition upload_request (files : gmap str content) (path : str) : option request :=
  match files !! path with
  | Some data => Some (PostFiles path data (lit "batch"))
  | None => None
  end.

(** The id the service returns in an answer to an upload. *)
Definition uploaded_id (answer : result response) : result pyval :=
  let? resp := answer in
  let? body := resp_json resp in
  py_getitem_str body (lit "id").

(** The text of the manifest for a list of file ids. *)
Definition manifest_text (L : library) (ids : list pyval) : str :=
  List.concat
    (List.map (fun ix => json_dumps (float_repr L) (ndjson_line (fst ix) (snd ix)) ++ newline)
       (enumerate ids)).

(** The ceiling of the exact quotient [a / b]: [Z.div] rounds down. *)
Definition ceil_div (a b : Z) : Z := - ((- a) / b).

(** The integer [math.ceil] returns on a positive finite float
    [m * 2 ^ e]. *)
Definition scaled_ceil (m e : Z) : Z :=
  if 0 <=? e then m * 2 ^ e else - ((- m) / 2 ^ (- e)).

(** Printable ASCII, the only characters [json.dumps] emits. *)
Definition printable (c : N) : bool := ((32 <=? c) && (c <=? 126))%N.

(** ** A sample library and sample services, for the concrete runs *)

(** Pages with an odd object number carry text, the others are scans. *)
Definition page_text (p : page) : str :=
  match p with
  | PageObj n =>
      if N.even n then [] else lit "page " ++ dec (Z.of_N n) ++ newline
  end.

Definition sample_pypdf (data : content) : result (list page) :=
  match data with
  | PdfData pages => Ok pages
  | _ => Err (LibraryError 1)
  end.

Definition sample_pdfminer (data : content) (maxpages : option Z) : result str :=
  match data with
  | PdfData pages =>
      let read := match maxpages with
                  | Some k => take (Z.to_nat k) pages
                  | None => pages
                  end in
      Ok (List.concat (List.map page_text read))
  | _ => Err (LibraryError 2)
  end.

(** Result records: one with [output_text], one with neither text field,
    one with an empty [output_text] and a [text], and one whose response
    is null. *)
Definition record_a : list (str * pyval) :=
  [(lit "response", VDict [(lit "output_text", VStr (lit " first "))])].
Definition record_b : list (str * pyval) :=
  [(lit "custom_id", VStr (lit "chunk_2"))].
Definition record_c : list (str * pyval) :=
  [(lit "response", VDict [(lit "output_text", VStr []);
                           (lit "text", VStr (lit "third" ++ newline))])].

Definition record_null : list (str * pyval) :=
  [(lit "custom_id", VStr (lit "chunk_2"));
   (lit "response", VNone);
   (lit "error", VDict [(lit "message", VStr (lit "expired"))])].

Definition sample_json_loads (line : str) : result pyval :=
  if decide (line = lit "A" ++ newline) then Ok (VDict record_a)
  else if decide (line = lit "N" ++ newline) then Ok (VDict record_null)
  else if decide (line = lit "B" ++ newline) then Ok (VDict record_b)
  else if decide (line = lit "C" ++ newline) then Ok (VDict record_c)
  else Err (LibraryError 3).

(** ISO-8859-1 as the encoding of the locale: every byte decodes to the
    character with its number, and a text can be encoded when all its
    characters are below 256. *)
Definition latin1_encode (text : str) : result (list N) :=
  if forallb (fun c => (c <? 256)%N) text then Ok text else Err (LibraryError 5).

Definition sample_library (service : nat -> request -> result response)
  : library :=
  {| pypdf_pages := sample_pypdf;
     pdfminer := sample_pdfminer;
     http := service;
     locale_decode := fun b => Ok b;
     locale_encode := latin1_encode;
     json_loads := sample_json_loads;
     float_repr := fun _ => lit "0.0" |}.

(** The sample library with another text extractor. *)
Definition library_reading (miner : content -> option Z -> result str)
    (service : nat -> request -> result response) : library :=
  {| pypdf_pages := sample_pypdf;
     pdfminer := miner;
     http := service;
     locale_decode := fun b => Ok b;
     locale_encode := latin1_encode;
     json_loads := sample_json_loads;
     float_repr := fun _ => lit "0.0" |}.

(** An extractor that cannot read the page object 0 and raises when it
    meets it. *)
Definition fragile_pdfminer (data : content) (maxpages : option Z) : result str :=
  match data with
  | PdfData pages =>
      let read := match maxpages with
                  | Some k => take (Z.to_nat k) pages
                  | None => pages
                  end in
      if existsb (fun p => match p with PageObj n => (n =? 0)%N end) read
      then Err (LibraryError 2)
      else Ok (List.concat (List.map page_text read))
  | _ => Err (LibraryError 2)
  end.

(** An extractor for a document typeset with ligatures: the text of a
    page with an odd object number starts with U+FB01, the ligature fi. *)
Definition ligature_text (p : page) : str :=
  match p with
  | PageObj n =>
      if N.even n then []
      else [64257%N] ++ lit "gure " ++ dec (Z.of_N n) ++ newline
  end.

Definition ligature_pdfminer (data : content) (maxpages : option Z) : result str :=
  match data with
  | PdfData pages =>
      let read := match maxpages with
                  | Some k => take (Z.to_nat k) pages
                  | None => pages
                  end in
      Ok (List.concat (List.map ligature_text read))
  | _ => Err (LibraryError 2)
  end.

Definition answer (code : Z) (body : pyval) (data : list N) : result response :=
  Ok {| status_code := code; resp_json := Ok body; resp_content := data |}.

(** A service that is never reached. *)
Definition offline : nat -> request -> result response :=
  fun _ _ => Err (LibraryError 4).

(** A service that accepts everything; the job is running until the call
    number [ready] and then has the status [final] and the output files
    [outputs]. *)
Definition ocr_service (ready : nat) (final : str) (outputs : list (str * pyval))
  : nat -> request -> result response :=
  fun n req =>
    match req with
    | PostFiles _ _ _ =>
        answer 200 (VDict [(lit "id", VStr (lit "file-" ++ dec (Z.of_nat n)))]) []
    | PostBatchJobs _ => answer 200 (VDict [(lit "id", VStr (lit "job-1"))]) []
    | GetBatchJob _ =>
        if (n <? ready)%nat
        then answer 200 (VDict [(lit "status", VStr (lit "running"))]) []
        else answer 200 (VDict ((lit "status", VStr final) :: outputs)) []
    | GetFileContent _ =>
        answer 200 VNone (lit "A" ++ newline ++ lit "B" ++ newline ++ lit "C" ++ newline)
    end.

(** A service whose first answer is a 503 with the JSON error body of a
    gateway, and whose later answers are successes. *)
Definition flaky_service : nat -> request -> result response :=
  fun n req =>
    match n with
    | O => answer 503 (VDict [(lit "status", VInt 503);
                              (lit "message", VStr (lit "Service Unavailable"))]) []
    | _ => answer 200 (VDict [(lit "status", VStr (lit "completed"))]) []
    end.

(** A service whose result file has a record with a null response, as
    for a request that produced an error instead of an output. *)
Definition null_response_service : nat -> request -> result response :=
  fun _ _ => answer 200 VNone (lit "A" ++ newline ++ lit "N" ++ newline).

(** A service whose job has failed and lists one output file, in which
    the second record has a null response. *)
Definition failed_job_service : nat -> request -> result response :=
  fun n req =>
    match req with
    | GetFileContent _ => null_response_service n req
    | _ => ocr_service 5 (lit "failed")
             [(lit "output_files", VList [VStr (lit "out-1")])] n req
    end.

(** A service whose job never leaves the running state. *)
Definition pending_service : nat -> request -> result response :=
  fun _ _ => answer 200 (VDict [(lit "status", VStr (lit "running"))]) [].

(** A disk that holds the input document only. *)
Definition disk (file : content) : state :=
  {| fs := {[ input_path := file ]}; trace := [] |}.

Definition pages_of (numbers : list N) : list page := List.map PageObj numbers.

(** ** Footprints: what a stretch of a run may do *)

(** The files on disk after the writes of a trace. *)
Fixpoint replay (t : list event) (files : gmap str content) : gmap str content :=
  match t with
  | [] => files
  | EvWrite p d :: t' => replay t' (<[p := d]> files)
  | _ :: t' => replay t' files
  end.

(** An event that writes only to a path in [W] and touches the network
    (a request or a sleep between polls) only when [net] holds. *)
Definition within (W : str -> Prop) (net : Prop) (e : event) : Prop :=
  match e with
  | EvWrite p _ => W p
  | EvHttp _ _ | EvSleep _ => net
  | _ => True
  end.

(** [s'] is [s] after more events, all satisfying [P]; the disk changes
    by the writes among them only. *)
Definition extends (P : event -> Prop) (s s' : state) : Prop :=
  exists t, trace s' = trace s ++ t /\ fs s' = replay t (fs s) /\ Forall P t.

(** Whatever its outcome, [m] only adds events satisfying [P]. *)
Definition emits {A} (P : event -> Prop) (m : M A) : Prop :=
  forall s, extends P s (snd (m s)).

(** The paths [split_pdf] can write under [output_dir]. *)
Definition is_chunk_file (output_dir : str) (p : str) : Prop :=
  exists i : Z, p = path_join output_dir (lit "chunk_" ++ dec (i + 1) ++ lit ".pdf").

(** A service that answers the request number [bad] with a 500 and
    accepts every other request, returning a fresh id. *)
Definition failing_service (bad : nat) : nat -> request -> result response :=
  fun n req =>
    if (n =? bad)%nat
    then answer 500 (VDict [(lit "message", VStr (lit "internal error"))]) []
    else answer 200 (VDict [(lit "id", VStr (lit "file-" ++ dec (Z.of_nat n)))]) [].

(** A record whose [output_text] is blank and whose [text] is not. *)
Definition record_blank : list (str * pyval) :=
  [(lit "response", VDict [(lit "output_text", VStr (lit "  "));
                           (lit "text", VStr (lit "real text"))])].

(** The sample library with a JSON parser that returns [v] for every
    line. *)
Definition library_parsing_as (v : pyval) : library :=
  {| pypdf_pages := sample_pypdf;
     pdfminer := sample_pdfminer;
     http := offline;
     locale_decode := fun b => Ok b;
     locale_encode := latin1_encode;
     json_loads := fun _ => Ok v;
     float_repr := fun _ => lit "0.0" |}.


(** A service that reports a running job for the first [good] requests
    and then drops the connection. *)
Definition dropping_service (good : nat) : nat -> request -> result response :=
  fun n req => if (n <? good)%nat then pending_service n req else offline n req.

(** * Properties *)

(** ** Generic facts about the monad *)

Lemma bind_Ret {A B} (m : M A) (k : A -> M B) s a s' :
  m s = (Ret a, s') -> bind m k s = k a s'.
Proof. intros H. unfold bind. now rewrite H. Qed.

(** ** The chunk count: [math.ceil] of a binary64 quotient *)

Lemma ceil_unique (x y c : Z) :
  0 < y -> (c - 1) * y < x <= c * y -> - ((- x) / y) = c.
Proof.
  intros Hy [H1 H2].
  assert (- x / y = - c); [|lia].
  symmetry. apply Z.div_unique with (r := c * y - x); lia.
Qed.

Lemma digits2_pos_bounds (p : positive) :
  2 ^ (Zpos (digits2_pos p) - 1) <= Zpos p < 2 ^ Zpos (digits2_pos p).
Proof.
  induction p as [p IH|p IH|]; cbn [digits2_pos].
  - rewrite Pos2Z.inj_succ.
    replace (Z.succ (Zpos (digits2_pos p)) - 1) with (Z.succ (Zpos (digits2_pos p) - 1)) by lia.
    rewrite !Z.pow_succ_r by lia. lia.
  - rewrite Pos2Z.inj_succ.
    replace (Z.succ (Zpos (digits2_pos p)) - 1) with (Z.succ (Zpos (digits2_pos p) - 1)) by lia.
    rewrite !Z.pow_succ_r by lia. lia.
  - simpl. lia.
Qed.

Lemma Zdigits2_bounds (m : Z) :
  0 < m -> 2 ^ (Zdigits2 m - 1) <= m < 2 ^ Zdigits2 m /\ 0 < Zdigits2 m.
Proof.
  destruct m as [|p|p]; try lia. intros _. cbn [Zdigits2].
  split; [apply digits2_pos_bounds|lia].
Qed.

Lemma Zdigits2_eq (m d : Z) :
  0 < d -> 2 ^ (d - 1) <= m < 2 ^ d -> Zdigits2 m = d.
Proof.
  intros Hd [H1 H2].
  assert (Hm : 0 < m) by (pose proof (Z.pow_pos_nonneg 2 (d - 1)); lia).
  destruct (Zdigits2_bounds m Hm) as [[H3 H4] H5].
  set (d' := Zdigits2 m) in *.
  assert (d - 1 < d').
  { apply (Z.pow_lt_mono_r_iff 2); lia. }
  assert (d' - 1 < d).
  { apply (Z.pow_lt_mono_r_iff 2); lia. }
  lia.
Qed.

Lemma shr_fexp_keep (m e : Z) (l : location) :
  Zdigits2 m = 53 -> -1074 <= e ->
  shr_fexp prec emax m e l = (shr_record_of_loc m l, e).
Proof.
  intros Hd He. unfold shr_fexp, fexp, emin, prec, emax. rewrite Hd.
  replace (Z.max (53 + e - 53) (3 - 1024 - 53) - e) with 0 by lia.
  reflexivity.
Qed.

Lemma shr_fexp_shift (m e : Z) (l : location) :
  Zdigits2 m = 54 -> -1075 <= e ->
  shr_fexp prec emax m e l = (shr_1 (shr_record_of_loc m l), e + 1).
Proof.
  intros Hd He. unfold shr_fexp, fexp, emin, prec, emax. rewrite Hd.
  replace (Z.max (54 + e - 53) (3 - 1024 - 53) - e) with 1 by lia.
  reflexivity.
Qed.

(** The mantissa and the two rounding bits after one shift. *)
Lemma shr_1_spec (m : Z) (l : location) :
  0 < m ->
  shr_m (shr_1 (shr_record_of_loc m l)) = m / 2
  /\ shr_r (shr_1 (shr_record_of_loc m l)) = Z.odd m
  /\ shr_s (shr_1 (shr_record_of_loc m l))
     = match l with loc_Exact => false | _ => true end.
Proof.
  intros Hm. destruct m as [|p|p]; try lia.
  destruct l as [|[]]; destruct p as [p|p|]; cbn [shr_record_of_loc shr_1 shr_m shr_r shr_s orb];
    repeat split;
    try reflexivity;
    try (apply (Z.div_unique _ 2 _ 1); lia);
    try (apply (Z.div_unique _ 2 _ 0); lia).
Qed.

Lemma round_nearest_even_range (m : Z) (l : location) :
  m <= round_nearest_even m l <= m + 1.
Proof.
  destruct l as [|[]]; cbn; try lia. destruct (Z.even m); lia.
Qed.

(** The second normalisation of [binary_round_aux] on a rounded mantissa
    of 53 or 54 bits. *)
Lemma normalise_rounded (Q e : Z) :
  2 ^ 52 <= Q <= 2 ^ 53 -> -1074 <= e ->
  let '(mrs, e') := shr_fexp prec emax Q e loc_Exact in
  (Q < 2 ^ 53 /\ shr_m mrs = Q /\ e' = e)
  \/ (Q = 2 ^ 53 /\ shr_m mrs = 2 ^ 52 /\ e' = e + 1).
Proof.
  intros HQ He.
  destruct (Z.eq_dec Q (2 ^ 53)) as [->|Hne].
  - rewrite shr_fexp_shift by (try reflexivity; lia). right. now cbn.
  - rewrite shr_fexp_keep; [left; cbn; lia| |lia].
    apply Zdigits2_eq; lia.
Qed.

Lemma scaled_ceil_nonpos (m e : Z) :
  e <= 0 -> scaled_ceil m e = - ((- m) / 2 ^ (- e)).
Proof.
  intros He. unfold scaled_ceil. destruct (Z.leb_spec 0 e); [|reflexivity].
  replace e with 0 by lia. cbn [Z.opp]. rewrite Z.pow_0_r, Z.div_1_r. lia.
Qed.

Lemma normalise_ceil (Q e : Z) :
  2 ^ 52 <= Q <= 2 ^ 53 -> -1074 <= e <= 0 ->
  exists m,
    shr_m (fst (shr_fexp prec emax Q e loc_Exact)) = Zpos m
    /\ snd (shr_fexp prec emax Q e loc_Exact) <= 1
    /\ scaled_ceil (Zpos m) (snd (shr_fexp prec emax Q e loc_Exact))
       = - ((- Q) / 2 ^ (- e)).
Proof.
  intros HQ He.
  pose proof (normalise_rounded Q e HQ ltac:(lia)) as H.
  destruct (shr_fexp prec emax Q e loc_Exact) as [mrs e'].
  cbn [fst snd]. destruct H as [(H1 & H2 & ->)|(-> & H2 & ->)].
  - destruct Q as [|m|m]; try lia. exists m. rewrite H2.
    split; [reflexivity|]. split; [lia|]. now apply scaled_ceil_nonpos.
  - rewrite H2. exists (Z.to_pos (2 ^ 52)). split; [reflexivity|]. split; [lia|].
    change (Zpos (Z.to_pos (2 ^ 52))) with (2 ^ 52).
    assert (e = 0 \/ e < 0) as [->|Hneg] by lia; [reflexivity|].
    rewrite scaled_ceil_nonpos by lia.
    replace (- (e + 1)) with (- e - 1) by lia.
    replace (2 ^ (- e)) with (2 * 2 ^ (- e - 1)).
    + change (- 2 ^ 53) with (2 * - 2 ^ 52).
      rewrite Z.div_mul_cancel_l; [reflexivity| |lia].
      apply Z.pow_nonzero; lia.
    + rewrite <- Z.pow_succ_r by lia. f_equal. lia.
Qed.

Lemma binary_round_aux_ceil (q e : Z) (loc : location) :
  2 ^ 52 <= q < 2 ^ 54 -> -1074 <= e <= -1 ->
  exists m ef Q t,
    binary_round_aux prec emax false q e loc = S754_finite false m ef
    /\ 0 <= t
    /\ scaled_ceil (Zpos m) ef = - ((- Q) / 2 ^ t)
    /\ ((q < 2 ^ 53 /\ t = - e /\ q <= Q <= q + 1 /\ (loc = loc_Exact -> Q = q))
        \/ (2 ^ 53 <= q /\ t = - e - 1 /\ q / 2 <= Q <= q / 2 + 1
            /\ (Z.odd q = false -> Q = q / 2)
            /\ (Z.odd q = true -> loc <> loc_Exact -> Q = q / 2 + 1))).
Proof.
  intros Hq He. unfold binary_round_aux.
  destruct (Z.lt_ge_cases q (2 ^ 53)) as [Hlt|Hge].
  - rewrite shr_fexp_keep by (try (apply Zdigits2_eq); lia).
    set (Q := round_nearest_even (shr_m (shr_record_of_loc q loc))
                (loc_of_shr_record (shr_record_of_loc q loc))).
    assert (HQ : Q = round_nearest_even q loc)
      by (unfold Q; now destruct loc as [|[]]).
    pose proof (round_nearest_even_range q loc) as HR. rewrite <- HQ in HR.
    destruct (normalise_ceil Q e) as (m & H1 & H2 & H3); [lia|lia|].
    destruct (shr_fexp prec emax Q e loc_Exact) as [mrs e'']. cbn [fst snd] in *.
    rewrite H1. exists m, e'', Q, (- e).
    replace (e'' <=? emax - prec) with true
      by (symmetry; apply Z.leb_le; unfold emax, prec; lia).
    split; [reflexivity|]. split; [lia|]. split; [exact H3|].
    left. repeat split; try lia. intros ->. now rewrite HQ.
  - rewrite shr_fexp_shift by (try (apply Zdigits2_eq); lia).
    destruct (shr_1_spec q loc ltac:(lia)) as (Hm & Hr & Hs).
    set (mrs := shr_1 (shr_record_of_loc q loc)) in *.
    set (Q := round_nearest_even (shr_m mrs) (loc_of_shr_record mrs)).
    assert (Hhalf : 2 ^ 52 <= q / 2 < 2 ^ 53).
    { split.
      - apply Z.div_le_lower_bound; lia.
      - apply Z.div_lt_upper_bound; lia. }
    pose proof (round_nearest_even_range (shr_m mrs) (loc_of_shr_record mrs)) as HR.
    fold Q in HR. rewrite Hm in HR.
    destruct (normalise_ceil Q (e + 1)) as (m & H1 & H2 & H3); [lia|lia|].
    destruct (shr_fexp prec emax Q (e + 1) loc_Exact) as [mrs'' e'']. cbn [fst snd] in *.
    rewrite H1. exists m, e'', Q, (- e - 1).
    replace (e'' <=? emax - prec) with true
      by (symmetry; apply Z.leb_le; unfold emax, prec; lia).
    split; [reflexivity|]. split; [lia|].
    split; [rewrite H3; do 3 f_equal; lia|].
    right. repeat split; try lia.
    + intros Hodd. unfold Q. destruct mrs as [mm [|] ss]; cbn in *; try congruence.
      destruct ss; cbn; congruence.
    + intros Hodd Hloc. unfold Q. destruct mrs as [mm rr ss]; cbn in *. subst.
      rewrite Hodd. destruct loc as [|[]]; try congruence; reflexivity.
Qed.

Lemma ceil_div_spec (a b : Z) :
  0 < b -> (ceil_div a b - 1) * b < a <= ceil_div a b * b.
Proof.
  intros Hb. unfold ceil_div.
  pose proof (Z.div_mod (- a) b ltac:(lia)) as H.
  pose proof (Z.mod_pos_bound (- a) b Hb) as H'.
  nia.
Qed.

Lemma new_location_exact (b r : Z) :
  new_location b r = loc_Exact <-> r = 0.
Proof.
  unfold new_location, new_location_even, new_location_odd.
  destruct (Z.even b); destruct (Z.eqb_spec r 0); split; intros H;
    try reflexivity; try assumption; try discriminate; try contradiction.
Qed.

(** The rounded mantissa of a quotient with a 53-bit quotient digit
    string has the ceiling of the exact quotient. *)
Lemma ceil_core_53 (a b T q r Q c : Z) :
  0 < b -> b < T ->
  a * T = b * q + r -> 0 <= r < b ->
  (c - 1) * b < a <= c * b ->
  q <= Q <= q + 1 -> (r = 0 -> Q = q) ->
  (c - 1) * T < Q <= c * T.
Proof.
  intros Hb HT Hdiv Hr Hc HQ Hex. split.
  - assert (b * ((c - 1) * T) < b * q); [nia|].
    assert ((c - 1) * T < q) by (apply (Z.mul_lt_mono_pos_l b); lia). lia.
  - destruct (Z.eq_dec r 0) as [Hr0|Hr0].
    + rewrite (Hex Hr0). assert (b * q <= b * (c * T)) by nia.
      apply (Z.mul_le_mono_pos_l _ _ b); lia.
    + assert (b * q < b * (c * T)) by nia.
      assert (q < c * T) by (apply (Z.mul_lt_mono_pos_l b); lia). lia.
Qed.

Lemma ceil_core_54 (a b T' q r Q c : Z) :
  0 < b -> b < 2 * T' ->
  a * (2 * T') = b * q + r -> 0 <= r < b ->
  (c - 1) * b < a <= c * b ->
  q / 2 <= Q <= q / 2 + 1 ->
  (Z.odd q = false -> Q = q / 2) ->
  (Z.odd q = true -> r <> 0 -> Q = q / 2 + 1) ->
  (c - 1) * T' < Q <= c * T'.
Proof.
  intros Hb HT Hdiv Hr Hc HQ Heven Hodd.
  pose proof (Z.div_mod q 2 ltac:(lia)) as Hq2.
  rewrite Zmod_odd in Hq2.
  assert (Hlow : (c - 1) * (2 * T') < q).
  { apply (Z.mul_lt_mono_pos_l b); [lia|]. nia. }
  assert (Hup : q <= c * (2 * T')).
  { apply (Z.mul_le_mono_pos_l _ _ b); [lia|]. nia. }
  destruct (Z.odd q) eqn:Hpar.
  - destruct (Z.eq_dec r 0) as [Hr0|Hr0].
    + assert (q <> (c - 1) * (2 * T') + 1) by nia. lia.
    + rewrite (Hodd eq_refl Hr0). lia.
  - rewrite (Heven eq_refl). lia.
Qed.

Lemma Zdigits2_le_53 (m : Z) : 0 < m < 2 ^ 53 -> 1 <= Zdigits2 m <= 53.
Proof.
  intros Hm. destruct (Zdigits2_bounds m ltac:(lia)) as [[H1 H2] H3].
  split; [lia|].
  assert (Zdigits2 m - 1 < 53); [|lia].
  apply (Z.pow_lt_mono_r_iff 2); lia.
Qed.

(** On operands that binary64 represents exactly, the ceiling of the
    rounded quotient is the ceiling of the exact quotient. *)
Lemma ceil_truediv (a b : Z) :
  0 < a < 2 ^ 53 -> 0 < b < 2 ^ 53 ->
  exists f, py_truediv a b = Ok f /\ math_ceil f = Ok (ceil_div a b).
Proof.
  intros Ha Hb. unfold py_truediv.
  destruct (Z.eqb_spec b 0); [lia|]. destruct (Z.eqb_spec a 0); [lia|].
  destruct (Z.ltb_spec a 0); [lia|]. destruct (Z.ltb_spec b 0); [lia|].
  rewrite !Z.abs_eq by lia. cbn [xorb].
  pose proof (Zdigits2_le_53 a Ha) as Hd1.
  pose proof (Zdigits2_le_53 b Hb) as Hd2.
  destruct (Zdigits2_bounds a ltac:(lia)) as [Ha2 _].
  destruct (Zdigits2_bounds b ltac:(lia)) as [Hb2 _].
  unfold SFdiv_core_binary.
  set (d1 := Zdigits2 a) in *. set (d2 := Zdigits2 b) in *.
  set (t := 53 + d2 - d1).
  replace (Z.min (fexp prec emax (d1 + 0 - (d2 + 0))) (0 - 0)) with (- t)
    by (unfold fexp, emin, prec, emax, t; lia).
  replace (0 - 0 - - t) with t by lia.
  assert (Ht : 1 <= t <= 105) by (unfold t; lia).
  replace (match t with 0 => a | Z.pos _ => Z.shiftl a t | Z.neg _ => 0 end)
    with (a * 2 ^ t)
    by (rewrite <- Z.shiftl_mul_pow2 by lia; destruct t; try lia; reflexivity).
  pose proof (Z_div_mod (a * 2 ^ t) b ltac:(lia)) as Hdiv.
  destruct (Z.div_eucl (a * 2 ^ t) b) as [q r]. destruct Hdiv as [Hdiv Hr].
  set (T := 2 ^ t) in *.
  assert (HT : 0 < T) by (apply Z.pow_pos_nonneg; lia).
  (* relations between the powers of two *)
  set (A1 := 2 ^ (d1 - 1)) in *. set (B1 := 2 ^ (d2 - 1)) in *.
  assert (HA1 : 0 < A1) by (apply Z.pow_pos_nonneg; lia).
  assert (HB1 : 0 < B1) by (apply Z.pow_pos_nonneg; lia).
  assert (Ha3 : a < 2 * A1).
  { unfold A1. rewrite <- Z.pow_succ_r by lia. now replace (Z.succ (d1 - 1)) with d1 by lia. }
  assert (Hb3 : b < 2 * B1).
  { unfold B1. rewrite <- Z.pow_succ_r by lia. now replace (Z.succ (d2 - 1)) with d2 by lia. }
  assert (HTA : T * A1 = 2 ^ 53 * B1).
  { unfold T, A1, B1. rewrite <- !Z.pow_add_r by lia. f_equal. unfold t. lia. }
  assert (HA52 : A1 <= 2 ^ 52).
  { unfold A1. apply Z.pow_le_mono_r; lia. }
  assert (HbT : b < T) by nia.
  assert (Hq : 2 ^ 52 <= q < 2 ^ 54).
  { split.
    - assert (2 ^ 52 * b < (q + 1) * b); [nia|].
      assert (2 ^ 52 < q + 1) by (apply (Z.mul_lt_mono_pos_r b); lia). lia.
    - assert (q * b < 2 ^ 54 * b); [nia|].
      apply (Z.mul_lt_mono_pos_r b); lia. }
  destruct (binary_round_aux_ceil q (- t) (new_location b r) Hq ltac:(lia))
    as (m & ef & Q & t' & Hround & Ht' & Hceil & Hcases).
  rewrite Hround. eexists. split; [reflexivity|].
  cbn [math_ceil cond_Zopp]. fold (scaled_ceil (Zpos m) ef). rewrite Hceil.
  f_equal. pose proof (ceil_div_spec a b ltac:(lia)) as Hc.
  apply ceil_unique; [apply Z.pow_pos_nonneg; lia|].
  destruct Hcases as [(Hq53 & -> & HQ & Hex)|(Hq54 & -> & HQ & Heven & Hodd)].
  - replace (- - t) with t by lia. fold T.
    apply (ceil_core_53 a b T q r Q); try assumption; try lia.
    intros Hr0. apply Hex. now apply new_location_exact.
  - replace (- - t - 1) with (t - 1) by lia.
    assert (HT2 : T = 2 * 2 ^ (t - 1)).
    { unfold T. rewrite <- Z.pow_succ_r by lia. f_equal. lia. }
    apply (ceil_core_54 a b (2 ^ (t - 1)) q r Q); try assumption; try lia;
      try (rewrite <- HT2; assumption).
    intros Hq_odd Hr0. apply Hodd; [exact Hq_odd|].
      intros Hloc. apply new_location_exact in Hloc. contradiction.
Qed.

(** ** Splitting (C1, C8) *)

Lemma chunks_count (total chunk_size : Z) :
  0 <= total < 2 ^ 53 -> 0 < chunk_size < 2 ^ 53 ->
  exists f, py_truediv total chunk_size = Ok f
            /\ math_ceil f = Ok (ceil_div total chunk_size).
Proof.
  intros Ht Hc. destruct (Z.eq_dec total 0) as [->|Hne].
  - unfold py_truediv. destruct (Z.eqb_spec chunk_size 0); [lia|].
    cbn. eexists. split; [reflexivity|]. cbn. unfold ceil_div. cbn.
    now rewrite Z.div_0_l by lia.
  - apply ceil_truediv; lia.
Qed.

Lemma ceil_div_nonneg (a b : Z) : 0 <= a -> 0 < b -> 0 <= ceil_div a b.
Proof.
  intros Ha Hb. pose proof (ceil_div_spec a b Hb). nia.
Qed.

Lemma range2_cons (a b : Z) : a < b -> range2 a b = a :: range2 (a + 1) b.
Proof.
  intros H. unfold range2.
  replace (Z.to_nat (b - a)) with (S (Z.to_nat (b - (a + 1)))) by lia.
  cbn [seq List.map]. f_equal; [lia|].
  rewrite <- seq_shift, List.map_map. apply List.map_ext. intros k. lia.
Qed.

Lemma range2_nil (a b : Z) : b <= a -> range2 a b = [].
Proof. intros H. unfold range2. now replace (Z.to_nat (b - a)) with 0%nat by lia. Qed.

(** The inner loop copies the pages [a .. b-1] to the writer. *)
Lemma copy_pages (pages : list page) (n : nat) : forall (a b : Z) (w : list page) s,
  Z.to_nat (b - a) = n -> 0 <= a -> b <= Z.of_nat (length pages) ->
  for_fold (range2 a b) w
    (fun writer j =>
       match list_index pages j with
       | Some p => ret (writer ++ [p])
       | None => raise IndexError
       end) s
  = (Ret (w ++ take n (drop (Z.to_nat a) pages)), s).
Proof.
  induction n as [|n IH]; intros a b w s Hn Ha Hb.
  - rewrite range2_nil by lia. cbn. now rewrite app_nil_r.
  - rewrite range2_cons by lia. cbn [for_fold].
    destruct (lookup_lt_is_Some_2 pages (Z.to_nat a)) as [p Hp]; [lia|].
    unfold list_index. destruct (Z.ltb_spec a 0); [lia|]. rewrite Hp.
    unfold bind, ret at 1. rewrite (IH (a + 1) b) by lia.
    rewrite (drop_S _ _ _ Hp). cbn [take].
    replace (Z.to_nat (a + 1)) with (S (Z.to_nat a)) by lia.
    now rewrite <- app_assoc.
Qed.

Lemma chunk_take (pages : list page) (start chunk_size : Z) :
  0 <= start -> 0 < chunk_size ->
  take (Z.to_nat (Z.min (start + chunk_size) (Z.of_nat (length pages)) - start))
       (drop (Z.to_nat start) pages)
  = take (Z.to_nat chunk_size) (drop (Z.to_nat start) pages).
Proof.
  intros Hs Hc.
  destruct (Z.le_gt_cases (start + chunk_size) (Z.of_nat (length pages))) as [H|H].
  - rewrite Z.min_l by lia. f_equal. lia.
  - rewrite Z.min_r by lia.
    rewrite !take_ge; [reflexivity| |]; rewrite length_drop; lia.
Qed.

(** The body of the outer loop of [split_pdf], for the chunk index [i]:
    it writes the [i]-th chunk and appends its path. *)
Lemma split_loop (L : library) (output_dir : str) (pages : list page)
    (chunk_size : Z) (indices : list nat) :
  0 < chunk_size ->
  forall (acc : list str) s,
    for_fold (List.map Z.of_nat indices) acc
      (fun file_paths i =>
         let start := i * chunk_size in
         let end_ := Z.min (start + chunk_size) (Z.of_nat (length pages)) in
         let* writer :=
           for_fold (range2 start end_) [] (fun writer j =>
             match list_index pages j with
             | Some p => ret (writer ++ [p])
             | None => raise IndexError
             end) in
         let path := path_join output_dir (lit "chunk_" ++ dec (i + 1) ++ lit ".pdf") in
         run write_file path (PdfData writer) in
         ret (file_paths ++ [path])) s
    = (Ret (acc ++ List.map (chunk_path output_dir) indices),
       store_chunks output_dir pages (Z.to_nat chunk_size) indices s).
Proof.
  intros Hc.
  match goal with
  | |- forall acc s, for_fold _ acc ?f s = _ => set (body := f)
  end.
  assert (Hbody : forall acc i s,
             body acc (Z.of_nat i) s
             = (Ret (acc ++ [chunk_path output_dir i]),
                store_chunks output_dir pages (Z.to_nat chunk_size) [i] s)).
  { intros acc i s. unfold body. cbv zeta. unfold bind at 1.
    rewrite (copy_pages pages _ _ _ [] s eq_refl) by lia.
    cbn [app]. unfold bind, write_file, ret, store_chunks.
    cbn [fs trace foldl List.map]. rewrite chunk_take by lia.
    replace (Z.to_nat (Z.of_nat i * chunk_size)) with (i * Z.to_nat chunk_size)%nat by lia.
    reflexivity. }
  clearbody body.
  induction indices as [|i indices IH]; intros acc s.
  - cbn. rewrite app_nil_r. destruct s. unfold store_chunks. cbn.
    now rewrite app_nil_r.
  - cbn [List.map for_fold]. unfold bind. rewrite Hbody, IH.
    f_equal; [now rewrite <- app_assoc|].
    unfold store_chunks. cbn [fs trace foldl List.map]. now rewrite <- app_assoc.
Qed.

Lemma chunks_concat (pages : list page) (chunk_size n : nat) :
  List.concat (List.map (chunk_pages pages chunk_size) (seq 0 n))
  = take (n * chunk_size) pages.
Proof.
  induction n as [|n IH].
  - reflexivity.
  - rewrite seq_S, List.map_app, concat_app, IH. cbn [List.map List.concat].
    rewrite app_nil_r. unfold chunk_pages. rewrite take_take_drop.
    f_equal. lia.
Qed.

Lemma chunk_pages_length (pages : list page) (chunk_size i : nat) :
  length (chunk_pages pages chunk_size i)
  = Nat.min chunk_size (length pages - i * chunk_size).
Proof. unfold chunk_pages. now rewrite length_take, length_drop. Qed.

(** Distinct chunk indices give distinct chunk paths. *)
Lemma lit_inj (a b : string) : lit a = lit b -> a = b.
Proof.
  unfold lit. intros H.
  rewrite <- (string_of_list_ascii_of_string a), <- (string_of_list_ascii_of_string b).
  f_equal. revert H. generalize (list_ascii_of_string a) (list_ascii_of_string b).
  induction l as [|x l IH]; intros [|y l']; cbn; try discriminate; [reflexivity|].
  intros [= Hxy Hl]. f_equal; [|now apply IH].
  rewrite <- (ascii_N_embedding x), <- (ascii_N_embedding y). now rewrite Hxy.
Qed.

Lemma dec_inj (z1 z2 : Z) : dec z1 = dec z2 -> z1 = z2.
Proof.
  unfold dec. intros H. apply lit_inj in H.
  assert (Hnn : forall z, Z.to_int z <> Decimal.Pos Decimal.Nil
                          /\ Z.to_int z <> Decimal.Neg Decimal.Nil).
  { intros [|p|p]; cbn; split; try discriminate; intros [= Hp];
      now apply (DecimalPos.Unsigned.to_uint_nonnil p). }
  apply DecimalZ.to_int_inj.
  assert (Some (Z.to_int z1) = Some (Z.to_int z2)) as [= ->]; [|reflexivity].
  rewrite <- (NilZero.isi (Z.to_int z1)) by apply Hnn.
  rewrite <- (NilZero.isi (Z.to_int z2)) by apply Hnn.
  now rewrite H.
Qed.

Lemma path_join_inj (a b b' : str) : path_join a b = path_join a b' -> b = b'.
Proof.
  unfold path_join.
  destruct (List.last a 0%N) as [|p]; destruct (decide (a = [])) as [->|];
    try (intros H; exact H);
    try (intros H; apply app_inv_head in H; now apply app_inv_head in H).
  all: repeat (destruct p as [p|p|]; try (intros H; exact H);
               try (intros H; apply app_inv_head in H; try exact H;
                    now apply app_inv_head in H)).
Qed.

Lemma chunk_path_inj (output_dir : str) (i j : nat) :
  chunk_path output_dir i = chunk_path output_dir j -> i = j.
Proof.
  unfold chunk_path. intros H. apply path_join_inj in H.
  apply app_inv_head in H. apply app_inv_tail in H. apply dec_inj in H. lia.
Qed.

Lemma store_chunks_lookup (output_dir : str) (pages : list page)
    (chunk_size : nat) (indices : list nat) (s : state) (i : nat) :
  In i indices ->
  fs (store_chunks output_dir pages chunk_size indices s) !! chunk_path output_dir i
  = Some (PdfData (chunk_pages pages chunk_size i)).
Proof.
  unfold store_chunks. cbn [fs]. generalize (fs s) as m.
  induction indices as [|j indices IH] using rev_ind; intros m Hi; [destruct Hi|].
  rewrite foldl_app. cbn [foldl].
  destruct (Nat.eq_dec j i) as [->|Hne].
  - apply lookup_insert_eq.
  - rewrite lookup_insert_ne.
    + apply IH. apply in_app_or in Hi as [Hi|[Hi|[]]]; [exact Hi|contradiction].
    + intros Heq. apply chunk_path_inj in Heq. contradiction.
Qed.

Lemma split_pdf_run (L : library) (input_pdf output_dir : str) (chunk_size : Z)
    (s : state) (file : content) (pages : list page) :
  fs s !! input_pdf = Some file ->
  pypdf_pages L file = Ok pages ->
  0 < chunk_size < 2 ^ 53 ->
  Z.of_nat (length pages) < 2 ^ 53 ->
  let n := Z.to_nat (ceil_div (Z.of_nat (length pages)) chunk_size) in
  let s1 := store_chunks output_dir pages (Z.to_nat chunk_size) (seq 0 n)
              {| fs := fs s; trace := trace s ++ [EvMkdir output_dir] |} in
  split_pdf L input_pdf chunk_size output_dir s
  = (Ret (List.map (chunk_path output_dir) (seq 0 n)),
     {| fs := fs s1;
        trace := trace s1 ++ [EvPrint (MsgSplit (Z.of_nat n) chunk_size)] |}).
Proof.
  intros Hfile Hparse Hc Hlen n s1.
  destruct (chunks_count (Z.of_nat (length pages)) chunk_size) as (f & Hdiv & Hceil);
    [lia|lia|].
  unfold split_pdf.
  unfold bind at 1, makedirs, emit.
  unfold bind at 1, open_read. cbn [fs trace]. rewrite Hfile.
  unfold bind at 1. rewrite Hparse. cbn [lift ret].
  unfold bind at 1. rewrite Hdiv. cbn [lift ret].
  unfold bind at 1. rewrite Hceil. cbn [lift ret].
  unfold bind at 1. unfold range.
  rewrite (split_loop L output_dir pages chunk_size (seq 0 _) ltac:(lia) []).
  fold n. cbn [app]. unfold bind, print, emit, ret. fold s1.
  now rewrite length_map, length_seq.
Qed.

(** C1 (amended): for a chunk size and a page count in the range where
    binary64 represents integers exactly, [split_pdf] writes exactly
    [ceil(total_pages / chunk_size)] chunk files (none for an empty
    document) and returns their paths in order; every chunk holds between
    one and [chunk_size] pages, every chunk but the last holds exactly
    [chunk_size], and the chunks, concatenated in order, are the original
    page sequence. *)
Theorem split_pdf_chunks (L : library) (input_pdf output_dir : str)
    (chunk_size : Z) (s : state) (file : content) (pages : list page) :
  fs s !! input_pdf = Some file ->
  pypdf_pages L file = Ok pages ->
  1 <= chunk_size < 2 ^ 53 ->
  Z.of_nat (length pages) < 2 ^ 53 ->
  let size := Z.to_nat chunk_size in
  let n := Z.to_nat (ceil_div (Z.of_nat (length pages)) chunk_size) in
  exists s',
    split_pdf L input_pdf chunk_size output_dir s
    = (Ret (List.map (chunk_path output_dir) (seq 0 n)), s')
    /\ Z.of_nat n = ceil_div (Z.of_nat (length pages)) chunk_size
    /\ (pages = [] -> n = 0%nat)
    /\ trace s'
       = trace s ++ [EvMkdir output_dir]
         ++ List.map (chunk_write output_dir pages size) (seq 0 n)
         ++ [EvPrint (MsgSplit (Z.of_nat n) chunk_size)]
    /\ (forall i, (i < n)%nat ->
          fs s' !! chunk_path output_dir i = Some (PdfData (chunk_pages pages size i))
          /\ (1 <= length (chunk_pages pages size i) <= size)%nat
          /\ ((i + 1 < n)%nat -> length (chunk_pages pages size i) = size))
    /\ List.concat (List.map (chunk_pages pages size) (seq 0 n)) = pages.
Proof.
  intros Hfile Hparse Hc Hlen size n.
  pose proof (ceil_div_spec (Z.of_nat (length pages)) chunk_size ltac:(lia)) as Hceil.
  pose proof (ceil_div_nonneg (Z.of_nat (length pages)) chunk_size ltac:(lia) ltac:(lia))
    as Hnn.
  assert (Hn : Z.of_nat n = ceil_div (Z.of_nat (length pages)) chunk_size)
    by (unfold n; lia).
  assert (Hsize : Z.of_nat size = chunk_size) by (unfold size; lia).
  rewrite <- Hn, <- Hsize in Hceil.
  eexists. split; [|split; [|split; [|split; [|split]]]].
  - apply (split_pdf_run L input_pdf output_dir chunk_size s file pages);
      try assumption; lia.
  - exact Hn.
  - intros ->. cbn [length] in Hceil. nia.
  - cbn [trace store_chunks]. fold n size. now rewrite <- !app_assoc.
  - intros i Hi. cbn [fs]. fold n size. split; [|split].
    + apply store_chunks_lookup. apply in_seq. lia.
    + rewrite chunk_pages_length. nia.
    + intros Hi'. rewrite chunk_pages_length. nia.
  - rewrite chunks_concat. apply take_ge. nia.
Qed.

(** ** The classifier (C2) *)

(** C2: [is_text_page] always returns normally, leaves the state alone,
    and answers [True] exactly when the extraction limited to the first
    page succeeds with a text that is not empty after [strip]; in every
    other case, an extraction error included, it answers [False]. *)
Theorem is_text_page_spec (L : library) (path : str) (s : state) :
  exists b : bool,
    is_text_page L path s = (Ret b, s)
    /\ (b = true <->
        exists text, fst (extract_text L path (Some 1) s) = Ret text
                     /\ strip text <> []).
Proof.
  unfold is_text_page, try_except, extract_text, bind, open_read.
  destruct (fs s !! path) as [data|]; simpl.
  - destruct (pdfminer L data (Some 1)) as [text|e]; simpl.
    + exists (negb (bool_decide (strip text = []))). split; [reflexivity|].
      split.
      * intros Hb. exists text. split; [reflexivity|].
        intros Heq. rewrite bool_decide_eq_true_2 in Hb by exact Heq.
        discriminate.
      * intros (t & Ht & Hne). injection Ht as <-.
        now rewrite bool_decide_eq_false_2.
    + exists false. split; [reflexivity|]. split; [discriminate|].
      intros (t & Ht & _). discriminate.
  - exists false. split; [reflexivity|]. split; [discriminate|].
    intros (t & Ht & _). discriminate.
Qed.

(** ** The manifest (C5) *)

Lemma printable_app (a b : str) :
  Forall (fun c => printable c = true) a ->
  Forall (fun c => printable c = true) b ->
  Forall (fun c => printable c = true) (a ++ b).
Proof. intros Ha Hb. apply Forall_app. now split. Qed.

Lemma uint_printable (d : Decimal.uint) :
  Forall (fun c => printable c = true) (lit (NilEmpty.string_of_uint d)).
Proof. induction d; simpl; constructor; auto. Qed.

Lemma dec_printable (z : Z) : Forall (fun c => printable c = true) (dec z).
Proof.
  unfold dec, NilZero.string_of_int, NilZero.string_of_uint.
  destruct (Z.to_int z) as [d|d]; destruct d;
    try (repeat constructor; fail);
    try (apply (uint_printable (_ _)));
    try (change (lit (String "-" ?x)) with (45%N :: lit x)).
  all: constructor; [reflexivity|]; apply (uint_printable (_ _)).
Qed.

Lemma hex_digit_printable (n : N) : (n < 16)%N -> printable (hex_digit n) = true.
Proof.
  intros H. unfold hex_digit, printable.
  destruct (N.ltb_spec n 10); apply andb_true_iff; split; apply N.leb_le; lia.
Qed.

Lemma u_escape_printable (c : N) : Forall (fun c => printable c = true) (u_escape c).
Proof.
  unfold u_escape.
  repeat constructor; apply hex_digit_printable; apply N.mod_lt; lia.
Qed.

Lemma json_escape_char_printable (c : N) :
  Forall (fun c => printable c = true) (json_escape_char c).
Proof.
  unfold json_escape_char.
  repeat match goal with
         | |- context [if ?b then _ else _] =>
             let E := fresh "E" in destruct b eqn:E
         end;
    try (repeat constructor; fail);
    try (constructor; [assumption|constructor]; fail);
    try (apply u_escape_printable; fail).
  apply printable_app; apply u_escape_printable.
Qed.

Lemma json_string_printable (s : str) :
  Forall (fun c => printable c = true) (json_string s).
Proof.
  unfold json_string. constructor; [reflexivity|].
  apply printable_app; [|repeat constructor].
  induction s as [|c s IH]; simpl; [constructor|].
  apply printable_app; [apply json_escape_char_printable|exact IH].
Qed.

Lemma join_printable (sep : str) (parts : list str) :
  Forall (fun c => printable c = true) sep ->
  Forall (Forall (fun c => printable c = true)) parts ->
  Forall (fun c => printable c = true) (str_join sep parts).
Proof.
  intros Hsep Hparts. induction Hparts as [|p ps Hp Hps IH]; [constructor|].
  destruct ps as [|p' ps']; [exact Hp|].
  change (str_join sep (p :: p' :: ps')) with (p ++ sep ++ str_join sep (p' :: ps')).
  apply printable_app; [exact Hp|]. apply printable_app; [exact Hsep|exact IH].
Qed.

(** Induction on Python values, through the lists and dicts they nest. *)
Lemma pyval_nested_ind (P : pyval -> Prop) :
  P VNone ->
  (forall b, P (VBool b)) ->
  (forall n, P (VInt n)) ->
  (forall f, P (VFloat f)) ->
  (forall s, P (VStr s)) ->
  (forall l, Forall P l -> P (VList l)) ->
  (forall d, Forall (fun kv => P (snd kv)) d -> P (VDict d)) ->
  forall v, P v.
Proof.
  intros HNone HBool HInt HFloat HStr HList HDict.
  fix IH 1. intros [ |b|n|f|s|l|d].
  - exact HNone.
  - apply HBool.
  - apply HInt.
  - apply HFloat.
  - apply HStr.
  - apply HList. induction l as [|x l IHl]; constructor; [apply IH|exact IHl].
  - apply HDict. induction d as [|[k x] d IHd]; constructor; [apply IH|exact IHd].
Qed.

Lemma lit_printable (a : string) :
  forallb printable (lit a) = true ->
  Forall (fun c => printable c = true) (lit a).
Proof.
  intros H. apply List.Forall_forall. intros c Hc.
  now apply (proj1 (forallb_forall printable (lit a)) H).
Qed.

Lemma json_dumps_printable (float_repr : spec_float -> str) :
  (forall f, Forall (fun c => printable c = true) (float_repr f)) ->
  forall v, Forall (fun c => printable c = true) (json_dumps float_repr v).
Proof.
  intros Hf. induction v using pyval_nested_ind; cbn [json_dumps].
  - now apply lit_printable.
  - destruct b; now apply lit_printable.
  - apply dec_printable.
  - apply Hf.
  - apply json_string_printable.
  - apply printable_app; [now apply lit_printable|].
    apply printable_app; [|now apply lit_printable].
    apply join_printable; [now apply lit_printable|].
    induction H as [|x l Hx Hl IHl]; cbn [List.map]; constructor; auto.
  - apply printable_app; [now apply lit_printable|].
    apply printable_app; [|now apply lit_printable].
    apply join_printable; [now apply lit_printable|].
    induction H as [|[k x] l Hx Hl IHl]; cbn [List.map]; constructor; auto.
    apply printable_app; [apply json_string_printable|].
    apply printable_app; [now apply lit_printable|exact Hx].
Qed.

(** A text made of lines without line terminators reads back as these
    lines. *)
Lemma readlines_from_line (cur l rest : str) :
  Forall (fun c => printable c = true) l ->
  readlines_from cur (l ++ newline ++ rest)
  = (cur ++ l ++ newline) :: readlines_from [] rest.
Proof.
  intros Hl. revert cur. induction Hl as [|c l Hc Hl IH]; intros cur; simpl.
  - reflexivity.
  - unfold printable in Hc. apply andb_true_iff in Hc as [H1 H2].
    apply N.leb_le in H1. apply N.leb_le in H2.
    destruct (N.eqb_spec c 10); [lia|]. destruct (N.eqb_spec c 13); [lia|].
    rewrite IH. now rewrite <- app_assoc.
Qed.

Lemma readlines_lines (ls : list str) :
  Forall (Forall (fun c => printable c = true)) ls ->
  readlines (List.concat (List.map (fun l => l ++ newline) ls))
  = List.map (fun l => l ++ newline) ls.
Proof.
  unfold readlines. induction 1 as [|l ls Hl Hls IH]; simpl; [reflexivity|].
  rewrite <- app_assoc, readlines_from_line by exact Hl. now rewrite IH.
Qed.

Lemma for_fold_concat {A} (g : A -> str) (xs : list A) (acc : str) s :
  for_fold xs acc (fun f x => ret (f ++ g x)) s
  = (Ret (acc ++ List.concat (List.map g xs)), s).
Proof.
  revert acc. induction xs as [|x xs IH]; intros acc; simpl.
  - now rewrite app_nil_r.
  - unfold bind, ret at 1. rewrite IH. now rewrite <- app_assoc.
Qed.

(** C5: [create_ndjson] writes one record per file id, in the order of
    the ids; the record at 0-based position [k] has the correlation id
    [chunk_<k+1>] and a body with the model name and the [k]-th id as
    input; each record is one line of the manifest. *)
Theorem create_ndjson_spec (L : library) (ids : list pyval)
    (output_path : str) (s : state) :
  (forall f, Forall (fun c => printable c = true) (float_repr L f)) ->
  exists (records : list pyval) (text : str) (s' : state),
    create_ndjson L ids output_path s = (Ret output_path, s')
    /\ length records = length ids
    /\ (forall (k : nat) (fid : pyval),
          ids !! k = Some fid ->
          records !! k
          = Some (VDict [(lit "custom_id", VStr (lit "chunk_" ++ dec (Z.of_nat k + 1)));
                         (lit "body", VDict [(lit "model", VStr (lit "mistral-ocr"));
                                             (lit "input", fid)])]))
    /\ fs s' !! output_path = Some (TextData text)
    /\ text = List.concat
                (List.map (fun r => json_dumps (float_repr L) r ++ newline) records)
    /\ readlines text
       = List.map (fun r => json_dumps (float_repr L) r ++ newline) records.
Proof.
  intros Hf.
  set (records := List.map (fun ix => ndjson_line (fst ix) (snd ix)) (enumerate ids)).
  set (text := List.concat
                 (List.map (fun r => json_dumps (float_repr L) r ++ newline) records)).
  exists records, text.
  eexists. split; [|split; [|split; [|split; [|split]]]].
  - unfold create_ndjson.
    erewrite bind_Ret; [|apply (for_fold_concat
      (fun ix => json_dumps (float_repr L) (ndjson_line (fst ix) (snd ix)) ++ newline))].
    reflexivity.
  - unfold records, enumerate. now rewrite length_map, length_imap.
  - intros k fid Hk. unfold records, enumerate.
    change (List.map ?f ?l) with (f <$> l).
    now rewrite list_lookup_fmap, list_lookup_imap, Hk.
  - simpl. rewrite lookup_insert_eq. do 2 f_equal.
    unfold text, records. now rewrite List.map_map.
  - reflexivity.
  - unfold text. rewrite <- (List.map_map (json_dumps (float_repr L)) (fun l => l ++ newline)).
    apply readlines_lines.
    apply List.Forall_forall. intros l Hl. apply in_map_iff in Hl as (r & <- & _).
    now apply json_dumps_printable.
Qed.

(** ** Polling (C6) *)

Lemma http_calls_app (t1 t2 : list event) :
  http_calls (t1 ++ t2) = http_calls t1 ++ http_calls t2.
Proof.
  induction t1 as [|[] t1 IH]; simpl; auto. now rewrite IH.
Qed.

Lemma schedule_app (t1 t2 : list event) :
  schedule (t1 ++ t2) = schedule t1 ++ schedule t2.
Proof.
  induction t1 as [|[] t1 IH]; simpl; auto; now rewrite IH.
Qed.

Section Polling.
Variable L : library.
Variable job_id : pyval.
Variable interval : Z.

Let base (s : state) : nat := length (http_calls (trace s)).
Let round : list (request + Z) := [inl (GetBatchJob job_id); inr interval].

Lemma poll_answer_inv i data status :
  poll_answer L job_id i = Ok (data, status) ->
  exists resp, http L i (GetBatchJob job_id) = Ok resp
               /\ resp_json resp = Ok data
               /\ py_getitem_str data (lit "status") = Ok status.
Proof.
  unfold poll_answer, rbind.
  destruct (http L i (GetBatchJob job_id)) as [resp|]; [|discriminate].
  destruct (resp_json resp) as [d|] eqn:Hd; [|discriminate].
  destruct (py_getitem_str d (lit "status")) as [st|] eqn:Hst; [|discriminate].
  intros [= <- <-]. now exists resp.
Qed.

(** One iteration on a pending job: poll, print, sleep, loop again. *)
Lemma poll_loop_pending fuel s :
  poll_pending L job_id (base s) ->
  exists s1,
    poll_loop L (S fuel) job_id interval s = poll_loop L fuel job_id interval s1
    /\ fs s1 = fs s
    /\ base s1 = S (base s)
    /\ schedule (trace s1) = schedule (trace s) ++ round.
Proof.
  intros (data & status & Hans & Hterm).
  apply poll_answer_inv in Hans as (resp & Hhttp & Hjson & Hst).
  eexists. split; [|split; [|split]].
  - cbn [poll_loop]. unfold bind at 1, requests. fold (base s). rewrite Hhttp.
    unfold bind at 1. rewrite Hjson. cbn [lift ret].
    unfold bind at 1. rewrite Hst. cbn [lift ret].
    unfold bind at 1, print, emit. rewrite Hterm.
    unfold bind, sleep, emit. reflexivity.
  - reflexivity.
  - unfold base. cbn [trace]. rewrite !http_calls_app, !length_app. simpl. lia.
  - cbn [trace]. rewrite !schedule_app. simpl. now rewrite <- !app_assoc.
Qed.

(** The iteration that sees a terminal status returns the job object. *)
Lemma poll_loop_done fuel s data :
  poll_done L job_id (base s) data ->
  exists s1,
    poll_loop L (S fuel) job_id interval s = (Ret data, s1)
    /\ fs s1 = fs s
    /\ schedule (trace s1) = schedule (trace s) ++ [inl (GetBatchJob job_id)].
Proof.
  intros (status & Hans & Hterm).
  apply poll_answer_inv in Hans as (resp & Hhttp & Hjson & Hst).
  eexists. split; [|split].
  - cbn [poll_loop]. unfold bind at 1, requests. fold (base s). rewrite Hhttp.
    unfold bind at 1. rewrite Hjson. cbn [lift ret].
    unfold bind at 1. rewrite Hst. cbn [lift ret].
    unfold bind at 1, print, emit. rewrite Hterm. reflexivity.
  - reflexivity.
  - cbn [trace]. rewrite !schedule_app. simpl. now rewrite <- !app_assoc.
Qed.

Lemma poll_loop_returns n : forall fuel s data,
  (forall k, (k < n)%nat -> poll_pending L job_id (base s + k)) ->
  poll_done L job_id (base s + n) data ->
  (n < fuel)%nat ->
  exists s',
    poll_loop L fuel job_id interval s = (Ret data, s')
    /\ fs s' = fs s
    /\ schedule (trace s')
       = schedule (trace s) ++ List.concat (replicate n round)
         ++ [inl (GetBatchJob job_id)].
Proof.
  induction n as [|n IH]; intros fuel s data Hpend Hdone Hfuel.
  - destruct fuel as [|fuel]; [lia|].
    rewrite Nat.add_0_r in Hdone.
    destruct (poll_loop_done fuel s data Hdone) as (s1 & H1 & H2 & H3).
    exists s1. now rewrite H1, H2, H3.
  - destruct fuel as [|fuel]; [lia|].
    destruct (poll_loop_pending fuel s) as (s1 & H1 & H2 & H3 & H4).
    { specialize (Hpend 0%nat). rewrite Nat.add_0_r in Hpend. apply Hpend. lia. }
    destruct (IH fuel s1 data) as (s' & H5 & H6 & H7).
    + intros k Hk. rewrite H3.
      replace (S (base s) + k)%nat with (base s + S k)%nat by lia.
      apply Hpend. lia.
    + rewrite H3. now replace (S (base s) + n)%nat with (base s + S n)%nat by lia.
    + lia.
    + exists s'. rewrite H1, H5, H6, H2, H7, H4. split; [reflexivity|].
      split; [reflexivity|]. simpl. now rewrite <- !app_assoc.
Qed.

Lemma poll_loop_forever fuel : forall s,
  (forall k, poll_pending L job_id (base s + k)) ->
  exists s',
    poll_loop L fuel job_id interval s = (OutOfFuel, s')
    /\ schedule (trace s')
       = schedule (trace s) ++ List.concat (replicate fuel round).
Proof.
  induction fuel as [|fuel IH]; intros s Hpend.
  - exists s. split; [reflexivity|]. simpl. now rewrite app_nil_r.
  - destruct (poll_loop_pending fuel s) as (s1 & H1 & H2 & H3 & H4).
    { specialize (Hpend 0%nat). now rewrite Nat.add_0_r in Hpend. }
    destruct (IH s1) as (s' & H5 & H6).
    + intros k. rewrite H3.
      replace (S (base s) + k)%nat with (base s + S k)%nat by lia. apply Hpend.
    + exists s'. rewrite H1, H5, H6, H4. split; [reflexivity|].
      simpl. now rewrite <- !app_assoc.
Qed.

Lemma poll_loop_sound fuel : forall s data s',
  poll_loop L fuel job_id interval s = (Ret data, s') ->
  exists i, poll_done L job_id i data.
Proof.
  induction fuel as [|fuel IH]; intros s data s' H; [discriminate|].
  cbn [poll_loop] in H. unfold bind at 1, requests in H.
  destruct (http L (length (http_calls (trace s))) (GetBatchJob job_id))
    as [resp|e] eqn:Hhttp; [|discriminate].
  unfold bind at 1 in H.
  destruct (resp_json resp) as [d|e] eqn:Hjson; [|discriminate].
  cbn [lift ret] in H. unfold bind at 1 in H.
  destruct (py_getitem_str d (lit "status")) as [st|e] eqn:Hst; [|discriminate].
  cbn [lift ret] in H. unfold bind at 1, print, emit in H.
  destruct (is_terminal st) eqn:Hterm.
  - injection H as <- _. exists (length (http_calls (trace s))), st.
    split; [|exact Hterm]. unfold poll_answer, rbind. now rewrite Hhttp, Hjson, Hst.
  - unfold bind at 1, sleep, emit in H. eapply IH. exact H.
Qed.
End Polling.

(** C6: [wait_for_job] returns a job object only from a poll whose answer
    carries a terminal status; when the first [n] polls see a status
    outside the terminal set and the next one a terminal status, it
    returns that job object after exactly [n + 1] polls with one sleep of
    [interval] between consecutive polls; and when every poll sees a
    non-terminal status it never returns: whatever the number [fuel] of
    iterations unfolded, the loop is still running after [fuel] polls. *)
Theorem wait_for_job_spec (L : library) (job_id : pyval) (interval : Z) (s : state) :
  let base := length (http_calls (trace s)) in
  let round := [inl (GetBatchJob job_id); inr interval] in
  (forall fuel data s',
      wait_for_job L fuel job_id interval s = (Ret data, s') ->
      exists i, poll_done L job_id i data)
  /\ (forall n data fuel,
        (forall k, (k < n)%nat -> poll_pending L job_id (base + k)) ->
        poll_done L job_id (base + n) data ->
        (n < fuel)%nat ->
        exists s',
          wait_for_job L fuel job_id interval s = (Ret data, s')
          /\ schedule (trace s')
             = schedule (trace s) ++ List.concat (replicate n round)
               ++ [inl (GetBatchJob job_id)])
  /\ ((forall k, poll_pending L job_id (base + k)) ->
      forall fuel,
      exists s',
        wait_for_job L fuel job_id interval s = (OutOfFuel, s')
        /\ schedule (trace s')
           = schedule (trace s) ++ List.concat (replicate fuel round)).
Proof.
  intros base round.
  set (s1 := {| fs := fs s; trace := trace s ++ [EvPrint MsgWaiting] |}).
  assert (Hstep : forall fuel,
             wait_for_job L fuel job_id interval s
             = poll_loop L fuel job_id interval s1) by reflexivity.
  assert (Hbase : length (http_calls (trace s1)) = base).
  { subst s1 base. cbn [trace]. rewrite http_calls_app. simpl. now rewrite app_nil_r. }
  assert (Hsched : schedule (trace s1) = schedule (trace s)).
  { subst s1. cbn [trace]. rewrite schedule_app. simpl. now rewrite app_nil_r. }
  split; [|split].
  - intros fuel data s' H. rewrite Hstep in H.
    eapply poll_loop_sound. exact H.
  - intros n data fuel Hpend Hdone Hfuel.
    destruct (poll_loop_returns L job_id interval n fuel s1 data) as (s' & H1 & _ & H2).
    + now rewrite Hbase.
    + now rewrite Hbase.
    + exact Hfuel.
    + exists s'. now rewrite Hstep, H1, H2, Hsched.
  - intros Hpend fuel.
    destruct (poll_loop_forever L job_id interval fuel s1) as (s' & H1 & H2).
    + now rewrite Hbase.
    + exists s'. now rewrite Hstep, H1, H2, Hsched.
Qed.

(** ** Parsing the results (C4) *)

Lemma truthy_VStr (t : str) : truthy (VStr t) = match t with [] => false | _ => true end.
Proof. now destruct t. Qed.

Lemma result_text_record (L : library) (line : str) (record : list (str * pyval)) :
  json_loads L line = Ok (VDict record) ->
  well_formed_record record = true ->
  result_text L line = Ok (record_text record).
Proof.
  intros Hload Hwf. unfold result_text, rbind. rewrite Hload.
  unfold well_formed_record in Hwf.
  apply andb_true_iff in Hwf as [Hwf Htext].
  apply andb_true_iff in Hwf as [Hresp Hout].
  unfold record_text. unfold response_field in *. cbn [py_get].
  destruct (dict_lookup record (lit "response")) as [[ | | | | | |r]|];
    try discriminate; cbn [py_get].
  - destruct (dict_lookup r (lit "output_text")) as [out|]; cbn [field_text].
    + destruct out as [ | | | | t| | ]; cbn [field_ok] in Hout;
        try (apply negb_true_iff in Hout; rewrite Hout);
        try (destruct (dict_lookup r (lit "text")) as [[ | | | |t'| | ]|];
             cbn [field_ok] in Htext; unfold py_or;
             try (apply negb_true_iff in Htext; rewrite Htext);
             try rewrite truthy_VStr; try reflexivity;
             destruct t'; reflexivity).
      rewrite truthy_VStr. destruct t as [|c t]; [|reflexivity].
      destruct (dict_lookup r (lit "text")) as [[ | | | |t'| | ]|];
        cbn [field_ok] in Htext; unfold py_or;
        try (apply negb_true_iff in Htext; rewrite Htext);
        try rewrite truthy_VStr; try reflexivity;
        destruct t'; reflexivity.
    + cbn [truthy].
      destruct (dict_lookup r (lit "text")) as [[ | | | |t'| | ]|];
        cbn [field_ok] in Htext; unfold py_or;
        try (apply negb_true_iff in Htext; rewrite Htext);
        try rewrite truthy_VStr; try reflexivity;
        destruct t'; reflexivity.
  - reflexivity.
Qed.

Lemma for_fold_lift {A B} (g : A -> result B) (xs : list A) (ys : list B) :
  Forall2 (fun x y => g x = Ok y) xs ys ->
  forall (acc : list B) s,
    for_fold xs acc (fun acc x => let* y := lift (g x) in ret (acc ++ [y])) s
    = (Ret (acc ++ ys), s).
Proof.
  induction 1 as [|x y xs ys Hxy _ IH]; intros acc s; simpl.
  - now rewrite app_nil_r.
  - rewrite Hxy. unfold bind at 1. cbn. rewrite IH. now rewrite <- app_assoc.
Qed.

Lemma raise_for_status_ok (r : response) s :
  status_code r < 400 \/ 600 <= status_code r ->
  raise_for_status r s = (Ret tt, s).
Proof.
  intros H. unfold raise_for_status.
  destruct (Z.leb_spec 400 (status_code r)); [|reflexivity].
  destruct (Z.ltb_spec (status_code r) 600); [lia|reflexivity].
Qed.

Lemma raise_for_status_error (r : response) s :
  400 <= status_code r < 600 ->
  raise_for_status r s = (Raise (HTTPError (status_code r)), s).
Proof.
  intros H. unfold raise_for_status.
  destruct (Z.leb_spec 400 (status_code r)); [|lia].
  destruct (Z.ltb_spec (status_code r) 600); [reflexivity|lia].
Qed.

(** C4 (amended): when the download succeeds and every line of the file
    is a JSON object whose [response] is absent or an object and whose two
    text fields are absent, strings or empty values, [download_results]
    returns one text per line, in the order of the lines; each text is the
    first non-empty of the record's [response.output_text] and
    [response.text], or the empty string when there is neither, stripped;
    a record with neither field yields the empty string at its position
    and raises nothing. *)
Theorem download_results_spec (L : library) (output_file_id : pyval)
    (save_path : str) (s : state) (r : response) (f : str)
    (records : list (list (str * pyval))) :
  http L (length (http_calls (trace s))) (GetFileContent output_file_id) = Ok r ->
  status_code r < 400 \/ 600 <= status_code r ->
  locale_decode L (resp_content r) = Ok f ->
  Forall2 (fun line record =>
             json_loads L line = Ok (VDict record)
             /\ well_formed_record record = true)
          (readlines f) records ->
  (exists s',
      download_results L output_file_id save_path s
      = (Ret (List.map record_text records), s'))
  /\ length (List.map record_text records) = length (readlines f)
  /\ (forall record,
        response_field record (lit "output_text") = None ->
        response_field record (lit "text") = None ->
        record_text record = []).
Proof.
  intros Hhttp Hstatus Hdecode Hlines.
  split; [|split].
  - unfold download_results.
    unfold bind at 1, requests. rewrite Hhttp.
    unfold bind at 1. rewrite raise_for_status_ok by exact Hstatus.
    unfold bind at 1, write_file. cbn [fs trace].
    unfold bind at 1, print, emit. cbn [fs trace].
    unfold bind at 1, read_text, bind at 1, open_read. cbn [fs trace].
    rewrite lookup_insert_eq. rewrite Hdecode. cbn [lift ret].
    eexists.
    apply (for_fold_lift (result_text L) (readlines f) (List.map record_text records)).
    clear -Hlines. induction Hlines as [|line record ls rs [H1 H2] _ IH]; simpl.
    + constructor.
    + constructor; [|exact IH]. now apply result_text_record.
  - rewrite length_map. symmetry. eapply Forall2_length. exact Hlines.
  - intros record H1 H2. unfold record_text. now rewrite H1, H2.
Qed.

(** ** Unreadable and empty documents (C8) *)

(** C8 (amended): [split_pdf] fails with the reader's error whenever
    PyPDF2 cannot parse the source, and then writes no chunk; a document
    that parses with zero pages raises nothing: for every non-zero chunk
    size the result is the empty chunk list and no file is written. *)
Theorem split_pdf_read_failure (L : library) (input_pdf output_dir : str)
    (chunk_size : Z) (s : state) (file : content) :
  fs s !! input_pdf = Some file ->
  (forall e, pypdf_pages L file = Err e ->
     split_pdf L input_pdf chunk_size output_dir s
     = (Raise e, {| fs := fs s; trace := trace s ++ [EvMkdir output_dir] |}))
  /\ (pypdf_pages L file = Ok [] -> chunk_size <> 0 ->
      exists s',
        split_pdf L input_pdf chunk_size output_dir s = (Ret [], s')
        /\ fs s' = fs s).
Proof.
  intros Hfile. split.
  - intros e Hparse. unfold split_pdf.
    unfold bind at 1, makedirs, emit.
    unfold bind at 1, open_read. cbn [fs trace]. rewrite Hfile.
    unfold bind at 1. now rewrite Hparse.
  - intros Hparse Hc. unfold split_pdf.
    unfold bind at 1, makedirs, emit.
    unfold bind at 1, open_read. cbn [fs trace]. rewrite Hfile.
    unfold bind at 1. rewrite Hparse. cbn [lift ret length Z.of_nat].
    unfold py_truediv. destruct (Z.eqb_spec chunk_size 0); [contradiction|].
    cbn. eexists. split; reflexivity.
Qed.

(** ** Classification and direct extraction *)

Lemma is_text_page_pure (L : library) (path : str) (s : state) :
  is_text_page L path s = (Ret (has_text L (fs s) path), s).
Proof.
  unfold is_text_page, try_except, extract_text, bind, open_read, has_text.
  destruct (fs s !! path) as [data|]; [|reflexivity].
  now destruct (pdfminer L data (Some 1)).
Qed.

Lemma classify_from (L : library) (files : list str) (s : state) :
  forall text_pages scanned_pages,
    for_fold files (text_pages, scanned_pages) (fun acc path =>
      let* is_text := is_text_page L path in
      if is_text then ret (fst acc ++ [path], snd acc)
      else ret (fst acc, snd acc ++ [path])) s
    = (Ret (text_pages ++ List.filter (has_text L (fs s)) files,
            scanned_pages
            ++ List.filter (fun p => negb (has_text L (fs s) p)) files), s).
Proof.
  induction files as [|p files IH]; intros tp sp.
  - cbn. now rewrite !app_nil_r.
  - cbn [for_fold List.filter]. unfold bind at 1, bind at 1.
    rewrite is_text_page_pure.
    destruct (has_text L (fs s) p); cbn [negb fst snd ret]; rewrite IH;
      now rewrite <- ?app_assoc.
Qed.

Lemma classify_run (L : library) (files : list str) (s : state) :
  classify L files s
  = (Ret (List.filter (has_text L (fs s)) files,
          List.filter (fun p => negb (has_text L (fs s) p)) files), s).
Proof. unfold classify. now rewrite classify_from. Qed.

Lemma extract_all_from (L : library) (s : state) (paths : list str)
    (texts : list str) :
  Forall2 (fun p t => exists data,
             fs s !! p = Some data /\ pdfminer L data None = Ok t) paths texts ->
  forall merged,
    for_fold paths merged (fun merged_text path =>
      let* text := extract_text L path None in
      ret (merged_text ++ [strip text])) s
    = (Ret (merged ++ List.map strip texts), s).
Proof.
  induction 1 as [|p t paths texts (data & Hp & Ht) _ IH]; intros merged.
  - cbn. now rewrite app_nil_r.
  - cbn [for_fold List.map]. unfold bind at 1, bind at 1, extract_text, bind at 1, open_read.
    rewrite Hp, Ht. cbn [lift ret]. rewrite IH. now rewrite <- app_assoc.
Qed.

Lemma extract_all_run (L : library) (s : state) (paths : list str)
    (texts : list str) :
  Forall2 (fun p t => exists data,
             fs s !! p = Some data /\ pdfminer L data None = Ok t) paths texts ->
  extract_all L paths s = (Ret (List.map strip texts), s).
Proof. intros H. unfold extract_all. now rewrite (extract_all_from L s paths texts H). Qed.

Lemma filter_all {A} (f : A -> bool) (l : list A) :
  Forall (fun x => f x = true) l ->
  List.filter f l = l /\ List.filter (fun x => negb (f x)) l = [].
Proof.
  induction 1 as [|x l Hx _ [IH1 IH2]]; [now split|].
  cbn. rewrite Hx. cbn. now rewrite IH1, IH2.
Qed.

(** ** The run up to the OCR branch *)

Lemma prepare_run (L : library) (s : state) (file : content) (pages : list page)
    (texts : list str) :
  fs s !! input_path = Some file ->
  pypdf_pages L file = Ok pages ->
  Z.of_nat (length pages) < 2 ^ 53 ->
  let n := Z.to_nat (ceil_div (Z.of_nat (length pages)) 5) in
  let files := List.map (chunk_path chunk_dir) (seq 0 n) in
  let s1 := store_chunks chunk_dir pages 5 (seq 0 n)
              {| fs := fs s;
                 trace := (trace s ++ [EvPrint (MsgStart input_path)])
                          ++ [EvMkdir chunk_dir] |} in
  let text_pages := List.filter (has_text L (fs s1)) files in
  let scanned_pages := List.filter (fun p => negb (has_text L (fs s1) p)) files in
  Forall2 (fun p t => exists data,
             fs s1 !! p = Some data /\ pdfminer L data None = Ok t)
          text_pages texts ->
  prepare L s
  = (Ret (scanned_pages, List.map strip texts),
     {| fs := fs s1;
        trace := (((trace s1 ++ [EvPrint (MsgSplit (Z.of_nat n) 5)])
                   ++ [EvPrint MsgDetecting])
                  ++ [EvPrint (MsgTextOnly (Z.of_nat (length text_pages)))])
                 ++ [EvPrint (MsgScanned (Z.of_nat (length scanned_pages)))] |}).
Proof.
  intros Hfile Hparse Hlen n files s1 text_pages scanned_pages Htexts.
  unfold prepare. unfold bind at 1, print, emit.
  unfold bind at 1.
  rewrite (split_pdf_run L input_path chunk_dir 5
             {| fs := fs s; trace := trace s ++ [EvPrint (MsgStart input_path)] |}
             file pages Hfile Hparse ltac:(lia) Hlen).
  fold n. cbv zeta. fold s1.
  unfold bind at 1. cbn [fs trace].
  unfold bind at 1. rewrite classify_run. cbn [fs trace fst snd].
  fold files. fold text_pages. fold scanned_pages.
  unfold bind at 1. unfold bind at 1.
  unfold bind at 1. erewrite extract_all_run; [|exact Htexts].
  reflexivity.
Qed.

Lemma http_calls_chunk_writes (output_dir : str) (pages : list page)
    (chunk_size : nat) (indices : list nat) :
  http_calls (List.map (chunk_write output_dir pages chunk_size) indices) = [].
Proof. induction indices; auto. Qed.

(** ** The merge *)

(** The merge when the text can be encoded: the file is written and the
    two closing messages are printed. *)
Lemma finish_run (L : library) (merged : list str) (s : state) (bytes : list N) :
  locale_encode L (str_join (newline ++ newline) merged) = Ok bytes ->
  finish L merged s
  = (Ret tt,
     {| fs := <[final_path := TextData (str_join (newline ++ newline) merged)]> (fs s);
        trace := trace s
                 ++ [EvWrite final_path
                       (TextData (str_join (newline ++ newline) merged));
                     EvPrint MsgDone; EvPrint MsgSaved] |}).
Proof.
  intros Henc. unfold finish, bind, write_text. rewrite Henc.
  unfold write_file, print, emit. cbn [fs trace]. now rewrite <- !app_assoc.
Qed.

(** The merge when it cannot: the file has been truncated and stays
    empty, and nothing more is printed. *)
Lemma finish_unencodable (L : library) (merged : list str) (s : state) (e : exn) :
  locale_encode L (str_join (newline ++ newline) merged) = Err e ->
  finish L merged s
  = (Raise e,
     {| fs := <[final_path := TextData []]> (fs s);
        trace := trace s ++ [EvWrite final_path (TextData [])] |}).
Proof.
  intros Henc. unfold finish, bind, write_text. now rewrite Henc.
Qed.

(** C7 (amended): when every chunk is classified as text-bearing, its
    full extraction succeeds and the joined text can be encoded with the
    encoding of the locale, [main] returns normally, the final output
    file holds the stripped texts of the chunks in chunk order joined by
    a blank line, and no HTTP request is sent. *)
Theorem main_text_only (L : library) (fuel : nat) (s : state) (file : content)
    (pages : list page) (texts : list str) (bytes : list N) :
  fs s !! input_path = Some file ->
  pypdf_pages L file = Ok pages ->
  Z.of_nat (length pages) < 2 ^ 53 ->
  let n := Z.to_nat (ceil_div (Z.of_nat (length pages)) 5) in
  length texts = n ->
  (forall i t, texts !! i = Some t ->
     (exists probe,
         pdfminer L (PdfData (chunk_pages pages 5 i)) (Some 1) = Ok probe
         /\ strip probe <> [])
     /\ pdfminer L (PdfData (chunk_pages pages 5 i)) None = Ok t) ->
  locale_encode L (str_join (newline ++ newline) (List.map strip texts)) = Ok bytes ->
  exists s',
    main L fuel s = (Ret tt, s')
    /\ fs s' !! final_path
       = Some (TextData (str_join (newline ++ newline) (List.map strip texts)))
    /\ http_calls (trace s') = http_calls (trace s).
Proof.
  intros Hfile Hparse Hlen n Htexts Hchunks Hencode.
  set (files := List.map (chunk_path chunk_dir) (seq 0 n)).
  set (s1 := store_chunks chunk_dir pages 5 (seq 0 n)
               {| fs := fs s;
                  trace := (trace s ++ [EvPrint (MsgStart input_path)])
                           ++ [EvMkdir chunk_dir] |}).
  assert (Hlookup : forall i, (i < n)%nat ->
             fs s1 !! chunk_path chunk_dir i = Some (PdfData (chunk_pages pages 5 i))).
  { intros i Hi. apply store_chunks_lookup. apply in_seq. lia. }
  assert (Hall : Forall (fun p => has_text L (fs s1) p = true) files).
  { apply List.Forall_forall. intros p Hp. apply in_map_iff in Hp as (i & <- & Hi).
    apply in_seq in Hi. unfold has_text. rewrite Hlookup by lia.
    destruct (lookup_lt_is_Some_2 texts i) as [t Ht]; [lia|].
    destruct (Hchunks i t Ht) as [(probe & Hprobe & Hne) _]. rewrite Hprobe.
    rewrite truthy_VStr. now destruct (strip probe). }
  destruct (filter_all (has_text L (fs s1)) files Hall) as [Htp Hsp].
  assert (Hextract : Forall2 (fun p t => exists data,
                        fs s1 !! p = Some data /\ pdfminer L data None = Ok t)
                       (List.filter (has_text L (fs s1)) files) texts).
  { rewrite Htp. apply Forall2_same_length_lookup_2.
    - unfold files. now rewrite length_map, length_seq.
    - intros i p t Hp Ht. unfold files in Hp.
      change (List.map ?f ?l) with (f <$> l) in Hp.
      rewrite list_lookup_fmap in Hp.
      destruct (seq 0 n !! i) as [j|] eqn:Hj; [|discriminate].
      apply lookup_seq in Hj as [-> Hi]. injection Hp as <-.
      exists (PdfData (chunk_pages pages 5 i)). split; [now apply Hlookup|].
      now apply (Hchunks i t Ht). }
  eexists. split; [|split].
  - unfold main. unfold bind at 1.
    rewrite (prepare_run L s file pages texts Hfile Hparse Hlen Hextract).
    cbv zeta. cbn [fst snd]. fold n. fold files. fold s1. rewrite Hsp.
    unfold bind at 1, ret at 1. apply (finish_run L _ _ bytes Hencode).
  - cbn [fs]. apply lookup_insert_eq.
  - cbn [trace]. unfold s1, store_chunks. cbn [trace].
    rewrite !http_calls_app, http_calls_chunk_writes. cbn. now rewrite !app_nil_r.
Qed.

(** ** Uploads and the manifest (C10) *)

Lemma upload_file_inv (L : library) (p : str) (s : state) (id : pyval) (s' : state) :
  upload_file L p s = (Ret id, s') ->
  exists data,
    fs s !! p = Some data
    /\ uploaded_id (http L (length (http_calls (trace s)))
                      (PostFiles p data (lit "batch"))) = Ok id
    /\ s' = {| fs := fs s;
               trace := trace s
                        ++ [EvHttp (PostFiles p data (lit "batch"))
                              (http L (length (http_calls (trace s)))
                                 (PostFiles p data (lit "batch")))] |}.
Proof.
  unfold upload_file. unfold bind at 1, open_read.
  destruct (fs s !! p) as [data|]; [|discriminate].
  intros H. exists data. split; [reflexivity|]. revert H.
  unfold bind at 1, requests. unfold uploaded_id, rbind.
  destruct (http L (length (http_calls (trace s))) (PostFiles p data (lit "batch")))
    as [r|e]; [|discriminate].
  unfold bind at 1, raise_for_status.
  destruct ((400 <=? status_code r) && (status_code r <? 600)); [discriminate|].
  cbn [ret]. unfold bind at 1.
  destruct (resp_json r) as [body|e]; [|discriminate]. cbn [lift ret].
  destruct (py_getitem_str body (lit "id")) as [v|e]; [|discriminate].
  cbn [lift ret]. intros [= <- <-]. now split.
Qed.

Lemma upload_all_from (L : library) (scanned : list str) :
  forall (acc : list pyval) (s : state) (ids : list pyval) (s' : state),
    for_fold scanned acc (fun ids p =>
      let* id := upload_file L p in ret (ids ++ [id])) s = (Ret ids, s') ->
    exists (new : list pyval) (reqs : list request),
      ids = acc ++ new
      /\ fs s' = fs s
      /\ http_calls (trace s') = http_calls (trace s) ++ reqs
      /\ length new = length scanned
      /\ length reqs = length scanned
      /\ forall k p, scanned !! k = Some p ->
           exists data id,
             fs s !! p = Some data
             /\ new !! k = Some id
             /\ reqs !! k = Some (PostFiles p data (lit "batch"))
             /\ uploaded_id (http L (length (http_calls (trace s)) + k)
                               (PostFiles p data (lit "batch"))) = Ok id.
Proof.
  induction scanned as [|p scanned IH]; intros acc s ids s' H.
  - cbn in H. injection H as <- <-. exists [], [].
    rewrite !app_nil_r. repeat split; try reflexivity. intros k p Hk. discriminate.
  - cbn [for_fold] in H. unfold bind at 1, bind at 1 in H.
    destruct (upload_file L p s) as [[id| |] s1] eqn:Hup; try discriminate.
    cbn [ret] in H.
    apply upload_file_inv in Hup as (data & Hdata & Hid & ->).
    apply IH in H as (new & reqs & -> & Hfs & Hcalls & Hlen1 & Hlen2 & Hk).
    cbn [fs trace] in *. rewrite http_calls_app in Hcalls, Hk. cbn [http_calls] in Hcalls, Hk.
    exists (id :: new), (PostFiles p data (lit "batch") :: reqs).
    split; [now rewrite <- app_assoc|]. split; [exact Hfs|].
    split; [now rewrite Hcalls, <- app_assoc|].
    split; [cbn; now rewrite Hlen1|]. split; [cbn; now rewrite Hlen2|].
    intros [|k] q Hq.
    + injection Hq as <-. exists data, id. rewrite Nat.add_0_r. now repeat split.
    + destruct (Hk k q Hq) as (data' & id' & H1 & H2 & H3 & H4).
      exists data', id'. repeat split; try assumption.
      rewrite length_app in H4. cbn [length] in H4.
      now replace (length (http_calls (trace s)) + S k)%nat
        with (length (http_calls (trace s)) + 1 + k)%nat by lia.
Qed.

Lemma create_ndjson_run (L : library) (ids : list pyval) (output_path : str)
    (s : state) :
  create_ndjson L ids output_path s
  = (Ret output_path,
     {| fs := <[output_path := TextData (manifest_text L ids)]> (fs s);
        trace := (trace s ++ [EvWrite output_path (TextData (manifest_text L ids))])
                 ++ [EvPrint (MsgNdjson (Z.of_nat (length ids)))] |}).
Proof.
  unfold create_ndjson.
  erewrite bind_Ret; [|apply (for_fold_concat
    (fun ix => json_dumps (float_repr L) (ndjson_line (fst ix) (snd ix)) ++ newline))].
  reflexivity.
Qed.



(** ** After polling (C9) *)

Lemma bind_Ret_inv {A B} (m : M A) (k : A -> M B) s b s' :
  bind m k s = (Ret b, s') ->
  exists a s1, m s = (Ret a, s1) /\ k a s1 = (Ret b, s').
Proof.
  unfold bind. destruct (m s) as [[a| |] s1]; try discriminate.
  intros H. now exists a, s1.
Qed.

Lemma wait_for_job_terminal (L : library) (fuel : nat) (job_id : pyval)
    (interval : Z) (s : state) (job_info : pyval) (s' : state) :
  wait_for_job L fuel job_id interval s = (Ret job_info, s') ->
  exists status,
    py_getitem_str job_info (lit "status") = Ok status
    /\ is_terminal status = true.
Proof.
  intros H. unfold wait_for_job in H.
  apply bind_Ret_inv in H as (u & s1 & _ & H).
  apply poll_loop_sound in H as (i & status & Hans & Hterm).
  apply poll_answer_inv in Hans as (resp & _ & _ & Hst).
  now exists status.
Qed.

Lemma ocr_submit_terminal (L : library) (fuel : nat) (scanned : list str)
    (s : state) (job_info : pyval) (s' : state) :
  ocr_submit L fuel scanned s = (Ret job_info, s') ->
  exists status,
    py_getitem_str job_info (lit "status") = Ok status
    /\ is_terminal status = true.
Proof.
  intros H. unfold ocr_submit in H.
  apply bind_Ret_inv in H as (? & ? & _ & H).
  apply bind_Ret_inv in H as (? & ? & _ & H).
  apply bind_Ret_inv in H as (? & ? & _ & H).
  apply bind_Ret_inv in H as (? & ? & _ & H).
  apply bind_Ret_inv in H as (? & ? & _ & H).
  eapply wait_for_job_terminal. exact H.
Qed.

Lemma py_get_output_files (job_info status : pyval) :
  py_getitem_str job_info (lit "status") = Ok status ->
  py_get job_info (lit "output_files") VNone = Ok (output_files job_info).
Proof. destruct job_info; try discriminate. reflexivity. Qed.

Lemma py_getitem_output_files (job_info status : pyval) :
  py_getitem_str job_info (lit "status") = Ok status ->
  truthy (output_files job_info) = true ->
  py_getitem_str job_info (lit "output_files") = Ok (output_files job_info).
Proof.
  destruct job_info as [ | | | | | |d]; try discriminate. intros _.
  unfold output_files, py_getitem_str.
  now destruct (dict_lookup d (lit "output_files")).
Qed.

(** A download that is answered without an error status, decodes, and
    whose lines all parse: the bytes are saved, and the texts of the
    lines are returned in order. *)
Lemma download_results_run (L : library) (output_file_id : pyval)
    (save_path : str) (s : state) (r : response) (f : str) (texts : list str) :
  http L (length (http_calls (trace s))) (GetFileContent output_file_id) = Ok r ->
  status_code r < 400 \/ 600 <= status_code r ->
  locale_decode L (resp_content r) = Ok f ->
  Forall2 (fun line t => result_text L line = Ok t) (readlines f) texts ->
  download_results L output_file_id save_path s
  = (Ret texts,
     {| fs := <[save_path := RawData (resp_content r)]> (fs s);
        trace := trace s
                 ++ [EvHttp (GetFileContent output_file_id) (Ok r);
                     EvWrite save_path (RawData (resp_content r));
                     EvPrint (MsgDownloaded save_path)] |}).
Proof.
  intros Hhttp Hstatus Hdecode Hlines. unfold download_results.
  unfold bind at 1, requests. rewrite Hhttp.
  unfold bind at 1. rewrite raise_for_status_ok by exact Hstatus.
  unfold bind at 1, write_file. cbn [fs trace].
  unfold bind at 1, print, emit. cbn [fs trace].
  unfold bind at 1, read_text, bind at 1, open_read. cbn [fs trace].
  rewrite lookup_insert_eq. rewrite Hdecode. cbn [lift ret].
  rewrite (for_fold_lift (result_text L) (readlines f) texts Hlines).
  now rewrite <- !app_assoc.
Qed.

(** C9 (amended): once polling has ended, whatever terminal status the
    job object carries, [main] looks only at its [output_files] entry.
    When the entry is absent or empty, [main] prints the warning and,
    the joined direct-extraction texts being encodable, writes the final
    output file with them alone and reports success.  When the entry is
    a non-empty list, the next request of [main] is the download of its
    first element; when that is answered without an error status, the
    content decodes, every line parses to a text and the joined texts
    are encodable, [main] saves the download, writes the direct texts
    followed by the texts of the lines to the final output file and
    reports success.  Two job objects with the same [output_files] entry
    are treated alike. *)
Theorem main_after_polling (L : library) (fuel : nat) (s s1 s2 : state)
    (scanned merged : list str) (job_info : pyval) :
  prepare L s = (Ret (scanned, merged), s1) ->
  scanned <> [] ->
  ocr_submit L fuel scanned s1 = (Ret job_info, s2) ->
  (exists status,
      py_getitem_str job_info (lit "status") = Ok status
      /\ is_terminal status = true)
  /\ (forall bytes,
        truthy (output_files job_info) = false ->
        locale_encode L (str_join (newline ++ newline) merged) = Ok bytes ->
        main L fuel s
        = (Ret tt,
           {| fs := <[final_path
                      := TextData (str_join (newline ++ newline) merged)]> (fs s2);
              trace := trace s2
                       ++ [EvPrint MsgNoOutput;
                           EvWrite final_path
                             (TextData (str_join (newline ++ newline) merged));
                           EvPrint MsgDone; EvPrint MsgSaved] |}))
  /\ (forall id rest r f ocr_texts bytes,
        output_files job_info = VList (id :: rest) ->
        http L (length (http_calls (trace s2))) (GetFileContent id) = Ok r ->
        status_code r < 400 \/ 600 <= status_code r ->
        locale_decode L (resp_content r) = Ok f ->
        Forall2 (fun line t => result_text L line = Ok t) (readlines f) ocr_texts ->
        locale_encode L (str_join (newline ++ newline) (merged ++ ocr_texts))
        = Ok bytes ->
        main L fuel s
        = (Ret tt,
           {| fs := <[final_path
                      := TextData (str_join (newline ++ newline)
                                     (merged ++ ocr_texts))]>
                      (<[lit "ocr_results.ndjson" := RawData (resp_content r)]>
                         (fs s2));
              trace := trace s2
                       ++ [EvHttp (GetFileContent id) (Ok r);
                           EvWrite (lit "ocr_results.ndjson")
                             (RawData (resp_content r));
                           EvPrint (MsgDownloaded (lit "ocr_results.ndjson"));
                           EvWrite final_path
                             (TextData (str_join (newline ++ newline)
                                          (merged ++ ocr_texts)));
                           EvPrint MsgDone; EvPrint MsgSaved] |}))
  /\ (forall d d' m,
        dict_lookup d (lit "output_files") = dict_lookup d' (lit "output_files") ->
        ocr_collect L (VDict d) m = ocr_collect L (VDict d') m).
Proof.
  intros Hprep Hne Hsub.
  destruct (ocr_submit_terminal L fuel scanned s1 job_info s2 Hsub)
    as (status & Hstatus & Hterm).
  assert (Hmain : main L fuel s
                  = (let* m := ocr_collect L job_info merged in finish L m) s2).
  { unfold main. unfold bind at 1. rewrite Hprep. cbn [fst snd].
    destruct scanned as [|p scanned]; [contradiction|].
    unfold bind at 1. unfold bind at 1. rewrite Hsub. reflexivity. }
  split; [now exists status|]. split; [|split].
  - intros bytes Hfalsy Hencode. rewrite Hmain. unfold ocr_collect.
    unfold bind at 1. unfold bind at 1.
    rewrite (py_get_output_files job_info status Hstatus). cbn [lift ret].
    rewrite Hfalsy. unfold bind at 1, print, emit. unfold ret.
    rewrite (finish_run L _ _ bytes Hencode). cbn [fs trace].
    now rewrite <- !app_assoc.
  - intros id rest r f ocr_texts bytes Hfiles Hhttp Hcode Hdecode Hlines Hencode.
    rewrite Hmain. unfold ocr_collect.
    unfold bind at 1. unfold bind at 1.
    rewrite (py_get_output_files job_info status Hstatus). cbn [lift ret].
    assert (Htruthy : truthy (output_files job_info) = true)
      by now rewrite Hfiles.
    rewrite Htruthy. unfold bind at 1.
    rewrite (py_getitem_output_files job_info status Hstatus Htruthy).
    cbn [lift ret]. unfold bind at 1. rewrite Hfiles. cbn [py_getitem_0 lift ret].
    unfold bind at 1.
    rewrite (download_results_run L id (lit "ocr_results.ndjson") s2 r f ocr_texts
               Hhttp Hcode Hdecode Hlines).
    unfold ret. rewrite (finish_run L _ _ bytes Hencode). cbn [fs trace].
    now rewrite <- !app_assoc.
  - intros d d' m Hd. unfold ocr_collect, py_get, py_getitem_str. now rewrite Hd.
Qed.

(** ** HTTP errors (C3) *)

(** An upload that is answered with an error status raises [HTTPError]
    at once: the only request in the rest of the trace is the upload. *)
Lemma upload_file_http_error (L : library) (path : str) (s : state)
    (data : content) (r : response) :
  fs s !! path = Some data ->
  http L (length (http_calls (trace s))) (PostFiles path data (lit "batch")) = Ok r ->
  400 <= status_code r < 600 ->
  upload_file L path s
  = (Raise (HTTPError (status_code r)),
     {| fs := fs s;
        trace := trace s ++ [EvHttp (PostFiles path data (lit "batch")) (Ok r)] |}).
Proof.
  intros Hdata Hhttp Hstatus. unfold upload_file.
  unfold bind at 1, open_read. rewrite Hdata.
  unfold bind at 1, requests. rewrite Hhttp.
  unfold bind at 1. now rewrite raise_for_status_error.
Qed.

(** The same for the creation of the batch job. *)
Lemma create_batch_job_http_error (L : library) (batch_file_id : pyval)
    (s : state) (r : response) :
  let req := PostBatchJobs
               (json_dumps (float_repr L)
                  (VDict [(lit "input_files", VList [batch_file_id]);
                          (lit "endpoint", VStr (lit "/v1/ocr"));
                          (lit "model", VStr (lit "mistral-ocr"))])) in
  http L (length (http_calls (trace s))) req = Ok r ->
  400 <= status_code r < 600 ->
  create_batch_job L batch_file_id s
  = (Raise (HTTPError (status_code r)),
     {| fs := fs s; trace := trace s ++ [EvHttp req (Ok r)] |}).
Proof.
  intros req Hhttp Hstatus. unfold create_batch_job.
  unfold bind at 1, requests. fold req. rewrite Hhttp.
  unfold bind at 1. now rewrite raise_for_status_error.
Qed.

(** ** Concrete runs *)

(** C1, counterexample: with a one-page document and the chunk size
    [2 ^ 1080] the quotient underflows to 0.0, so [split_pdf] returns no
    chunk and writes no file, although the ceiling of the exact quotient
    is 1. *)
Lemma split_pdf_underflow :
  1 <= 2 ^ 1080
  /\ ceil_div 1 (2 ^ 1080) = 1
  /\ fst (split_pdf (sample_library offline) input_path (2 ^ 1080) chunk_dir
            (disk (PdfData (pages_of [1%N]))))
     = Ret []
  /\ fs (snd (split_pdf (sample_library offline) input_path (2 ^ 1080) chunk_dir
                (disk (PdfData (pages_of [1%N])))))
     = fs (disk (PdfData (pages_of [1%N]))).
Proof.
  split; [now vm_compute|]. split; [now vm_compute|].
  split; now vm_compute.
Qed.

Lemma split_pdf_chunks_witness :
  exists s',
    split_pdf (sample_library offline) input_path 5 chunk_dir
      (disk (PdfData (pages_of [1; 2; 3; 4; 5; 6; 7; 8; 9; 10; 11; 12]%N)))
    = (Ret (List.map (chunk_path chunk_dir) (seq 0 3)), s')
    /\ List.concat
         (List.map (chunk_pages (pages_of [1; 2; 3; 4; 5; 6; 7; 8; 9; 10; 11; 12]%N) 5)
            (seq 0 3))
       = pages_of [1; 2; 3; 4; 5; 6; 7; 8; 9; 10; 11; 12]%N.
Proof.
  destruct (split_pdf_chunks (sample_library offline) input_path chunk_dir 5
              (disk (PdfData (pages_of [1; 2; 3; 4; 5; 6; 7; 8; 9; 10; 11; 12]%N)))
              (PdfData (pages_of [1; 2; 3; 4; 5; 6; 7; 8; 9; 10; 11; 12]%N))
              (pages_of [1; 2; 3; 4; 5; 6; 7; 8; 9; 10; 11; 12]%N))
    as (s' & Hrun & _ & _ & _ & _ & Hconcat).
  - reflexivity.
  - reflexivity.
  - lia.
  - vm_compute. reflexivity.
  - exists s'. split; [exact Hrun|exact Hconcat].
Defined.

(** C8, counterexample: a document that parses with zero pages makes
    [split_pdf] return the empty chunk list; nothing is raised. *)
Lemma split_pdf_zero_pages :
  sample_pypdf (PdfData []) = Ok []
  /\ fst (split_pdf (sample_library offline) input_path 5 chunk_dir
            (disk (PdfData [])))
     = Ret []
  /\ ~ (exists e,
          fst (split_pdf (sample_library offline) input_path 5 chunk_dir
                 (disk (PdfData [])))
          = Raise e).
Proof.
  split; [reflexivity|]. split; [now vm_compute|].
  intros [e He]. vm_compute in He. discriminate.
Qed.

Lemma split_pdf_read_failure_witness :
  split_pdf (sample_library offline) input_path 5 chunk_dir
    (disk (RawData (lit "not a pdf")))
  = (Raise (LibraryError 1),
     {| fs := fs (disk (RawData (lit "not a pdf")));
        trace := [EvMkdir chunk_dir] |})
  /\ exists s',
       split_pdf (sample_library offline) input_path 5 chunk_dir (disk (PdfData []))
       = (Ret [], s')
       /\ fs s' = fs (disk (PdfData [])).
Proof.
  split.
  - apply (proj1 (split_pdf_read_failure (sample_library offline) input_path
                    chunk_dir 5 (disk (RawData (lit "not a pdf")))
                    (RawData (lit "not a pdf")) eq_refl)).
    reflexivity.
  - apply (proj2 (split_pdf_read_failure (sample_library offline) input_path
                    chunk_dir 5 (disk (PdfData [])) (PdfData []) eq_refl)).
    + reflexivity.
    + lia.
Defined.

Lemma create_ndjson_spec_witness :
  exists (records : list pyval) (text : str) (s' : state),
    create_ndjson (sample_library offline)
      [VStr (lit "file-a"); VStr (lit "file-b")] (lit "ocr_batch.ndjson")
      (disk (PdfData []))
    = (Ret (lit "ocr_batch.ndjson"), s')
    /\ length records = 2%nat
    /\ fs s' !! lit "ocr_batch.ndjson" = Some (TextData text)
    /\ length (readlines text) = 2%nat.
Proof.
  destruct (create_ndjson_spec (sample_library offline)
              [VStr (lit "file-a"); VStr (lit "file-b")] (lit "ocr_batch.ndjson")
              (disk (PdfData [])))
    as (records & text & s' & Hrun & Hlen & _ & Hfile & _ & Hlines).
  - intros f. now apply lit_printable.
  - exists records, text, s'. split; [exact Hrun|]. split; [exact Hlen|].
    split; [exact Hfile|]. now rewrite Hlines, length_map.
Defined.

(** C3, at a failing input: the first status poll is answered with HTTP
    503 and a JSON body; [wait_for_job] raises nothing, sleeps, polls a
    second time and returns the job object of the second answer. *)
Theorem wait_for_job_ignores_http_error :
  (exists r,
      http (sample_library flaky_service) 0 (GetBatchJob (VStr (lit "job-1"))) = Ok r
      /\ 400 <= status_code r < 600)
  /\ exists s',
       wait_for_job (sample_library flaky_service) 2 (VStr (lit "job-1")) 15
         (disk (PdfData []))
       = (Ret (VDict [(lit "status", VStr (lit "completed"))]), s')
       /\ schedule (trace s')
          = [inl (GetBatchJob (VStr (lit "job-1"))); inr 15;
             inl (GetBatchJob (VStr (lit "job-1")))].
Proof.
  split.
  - eexists. split; [reflexivity|]. cbn. lia.
  - eexists. split; [vm_compute; reflexivity|]. vm_compute. reflexivity.
Qed.

Lemma wait_for_job_spec_witness :
  (exists s',
      wait_for_job (sample_library (ocr_service 2 (lit "failed") []))
        5 (VStr (lit "job-1")) 15 (disk (PdfData []))
      = (Ret (VDict [(lit "status", VStr (lit "failed"))]), s')
      /\ schedule (trace s')
         = [inl (GetBatchJob (VStr (lit "job-1"))); inr 15;
            inl (GetBatchJob (VStr (lit "job-1"))); inr 15;
            inl (GetBatchJob (VStr (lit "job-1")))])
  /\ (exists s',
        wait_for_job (sample_library pending_service) 7 (VStr (lit "job-1")) 15
          (disk (PdfData []))
        = (OutOfFuel, s')).
Proof.
  split.
  - destruct (proj1 (proj2 (wait_for_job_spec
                (sample_library (ocr_service 2 (lit "failed") []))
                (VStr (lit "job-1")) 15 (disk (PdfData []))))
              2%nat (VDict [(lit "status", VStr (lit "failed"))]) 5%nat)
      as (s' & Hrun & Hsched).
    + intros [|[|k]] Hk; [| |lia];
        (eexists; eexists; split; [reflexivity|reflexivity]).
    + eexists. split; [reflexivity|reflexivity].
    + lia.
    + exists s'. split; [exact Hrun|exact Hsched].
  - destruct (proj2 (proj2 (wait_for_job_spec (sample_library pending_service)
                (VStr (lit "job-1")) 15 (disk (PdfData []))))) with (fuel := 7%nat)
      as (s' & Hrun & _).
    + intros k. eexists. eexists. split; [reflexivity|reflexivity].
    + exists s'. exact Hrun.
Defined.

(** C4, counterexample: a record whose response is null has neither text
    field, and [download_results] raises [AttributeError] on it. *)
Lemma download_results_null_response :
  sample_json_loads (lit "N" ++ newline) = Ok (VDict record_null)
  /\ response_field record_null (lit "output_text") = None
  /\ response_field record_null (lit "text") = None
  /\ fst (download_results (sample_library null_response_service)
            (VStr (lit "out-1")) (lit "ocr_results.ndjson") (disk (PdfData [])))
     = Raise AttributeError.
Proof. repeat split; now vm_compute. Qed.

Lemma download_results_spec_witness :
  exists s',
    download_results (sample_library (ocr_service 0 (lit "completed") []))
      (VStr (lit "out-1")) (lit "ocr_results.ndjson") (disk (PdfData []))
    = (Ret [lit "first"; []; lit "third"], s').
Proof.
  apply (proj1 (download_results_spec
           (sample_library (ocr_service 0 (lit "completed") []))
           (VStr (lit "out-1")) (lit "ocr_results.ndjson") (disk (PdfData []))
           {| status_code := 200; resp_json := Ok VNone;
              resp_content := lit "A" ++ newline ++ lit "B" ++ newline
                              ++ lit "C" ++ newline |}
           (lit "A" ++ newline ++ lit "B" ++ newline ++ lit "C" ++ newline)
           [record_a; record_b; record_c]
           eq_refl ltac:(left; cbn; lia) eq_refl
           ltac:(vm_compute; repeat constructor))).
Defined.

(** C7, counterexamples: runs in which every chunk is classified as
    text-bearing and the final output is not the joined texts.  In the
    first the extraction of the whole chunk raises on a page after the
    first one, and no output file is written; in the second the text has
    a character that the encoding of the locale lacks: [main] raises at
    the final write and leaves the output file empty.  No request is
    sent in either. *)
Lemma main_text_only_unwritten :
  (classify (library_reading fragile_pdfminer offline) [chunk_path chunk_dir 0]
     (snd (split_pdf (library_reading fragile_pdfminer offline) input_path 5
             chunk_dir (disk (PdfData (pages_of [1; 0; 3]%N)))))
   = (Ret ([chunk_path chunk_dir 0], []),
      snd (split_pdf (library_reading fragile_pdfminer offline) input_path 5
             chunk_dir (disk (PdfData (pages_of [1; 0; 3]%N)))))
   /\ fst (main (library_reading fragile_pdfminer offline) 0
             (disk (PdfData (pages_of [1; 0; 3]%N))))
      = Raise (LibraryError 2)
   /\ fs (snd (main (library_reading fragile_pdfminer offline) 0
                 (disk (PdfData (pages_of [1; 0; 3]%N)))))
      !! final_path = None)
  /\ (classify (library_reading ligature_pdfminer offline) [chunk_path chunk_dir 0]
        (snd (split_pdf (library_reading ligature_pdfminer offline) input_path 5
                chunk_dir (disk (PdfData (pages_of [1; 3]%N)))))
      = (Ret ([chunk_path chunk_dir 0], []),
         snd (split_pdf (library_reading ligature_pdfminer offline) input_path 5
                chunk_dir (disk (PdfData (pages_of [1; 3]%N)))))
      /\ fst (main (library_reading ligature_pdfminer offline) 0
                (disk (PdfData (pages_of [1; 3]%N))))
         = Raise (LibraryError 5)
      /\ fs (snd (main (library_reading ligature_pdfminer offline) 0
                    (disk (PdfData (pages_of [1; 3]%N)))))
         !! final_path = Some (TextData [])).
Proof. repeat split; now vm_compute. Qed.

Lemma main_text_only_witness :
  exists s',
    main (sample_library offline) 0
      (disk (PdfData (pages_of [1; 3; 5; 7; 9; 11; 13]%N)))
    = (Ret tt, s')
    /\ fs s' !! final_path
       = Some (TextData
                 (lit "page 1" ++ newline ++ lit "page 3" ++ newline
                  ++ lit "page 5" ++ newline ++ lit "page 7" ++ newline
                  ++ lit "page 9" ++ newline ++ newline
                  ++ lit "page 11" ++ newline ++ lit "page 13"))
    /\ http_calls (trace s') = [].
Proof.
  apply (main_text_only (sample_library offline) 0
           (disk (PdfData (pages_of [1; 3; 5; 7; 9; 11; 13]%N)))
           (PdfData (pages_of [1; 3; 5; 7; 9; 11; 13]%N))
           (pages_of [1; 3; 5; 7; 9; 11; 13]%N)
           (List.map
              (fun i => List.concat
                          (List.map page_text
                             (chunk_pages (pages_of [1; 3; 5; 7; 9; 11; 13]%N) 5 i)))
              (seq 0 2))
           (lit "page 1" ++ newline ++ lit "page 3" ++ newline
            ++ lit "page 5" ++ newline ++ lit "page 7" ++ newline
            ++ lit "page 9" ++ newline ++ newline
            ++ lit "page 11" ++ newline ++ lit "page 13")).
  - reflexivity.
  - reflexivity.
  - vm_compute. reflexivity.
  - reflexivity.
  - intros [|[|i]] t Ht; try discriminate; injection Ht as <-.
    + split; [|reflexivity]. eexists. split; [reflexivity|]. now vm_compute.
    + split; [|reflexivity]. eexists. split; [reflexivity|]. now vm_compute.
  - vm_compute. reflexivity.
Defined.

(** C9, counterexamples: a failed job that is followed by no final
    output.  In the first run the job lists no output file and the
    direct text has a character that the encoding of the locale lacks:
    [main] raises at the final write, and the output file is left empty.
    In the second the job lists an output file whose second record has a
    null response: [main] raises [AttributeError] while parsing it and
    writes no final output. *)
Lemma main_after_polling_unwritten :
  (fst (ocr_submit (library_reading ligature_pdfminer
                      (ocr_service 5 (lit "failed") [])) 10
          [chunk_path chunk_dir 1]
          (snd (prepare (library_reading ligature_pdfminer
                           (ocr_service 5 (lit "failed") []))
                  (disk (PdfData (pages_of [1; 2; 3; 4; 5; 6; 8]%N))))))
   = Ret (VDict [(lit "status", VStr (lit "failed"))])
   /\ fst (main (library_reading ligature_pdfminer
                   (ocr_service 5 (lit "failed") [])) 10
             (disk (PdfData (pages_of [1; 2; 3; 4; 5; 6; 8]%N))))
      = Raise (LibraryError 5)
   /\ fs (snd (main (library_reading ligature_pdfminer
                       (ocr_service 5 (lit "failed") [])) 10
                 (disk (PdfData (pages_of [1; 2; 3; 4; 5; 6; 8]%N)))))
      !! final_path = Some (TextData []))
  /\ (fst (ocr_submit (sample_library failed_job_service) 10
             [chunk_path chunk_dir 1]
             (snd (prepare (sample_library failed_job_service)
                     (disk (PdfData (pages_of [1; 2; 3; 4; 5; 6; 8]%N))))))
      = Ret (VDict [(lit "status", VStr (lit "failed"));
                    (lit "output_files", VList [VStr (lit "out-1")])])
      /\ fst (main (sample_library failed_job_service) 10
                (disk (PdfData (pages_of [1; 2; 3; 4; 5; 6; 8]%N))))
         = Raise AttributeError
      /\ fs (snd (main (sample_library failed_job_service) 10
                    (disk (PdfData (pages_of [1; 2; 3; 4; 5; 6; 8]%N)))))
         !! final_path = None).
Proof. repeat split; now vm_compute. Qed.

Lemma main_after_polling_witness :
  main (sample_library
          (ocr_service 5 (lit "failed")
             [(lit "output_files", VList [VStr (lit "out-1")])])) 10
    (disk (PdfData (pages_of [1; 2; 3; 4; 5; 6; 8]%N)))
  = (Ret tt,
     snd (main (sample_library
                  (ocr_service 5 (lit "failed")
                     [(lit "output_files", VList [VStr (lit "out-1")])])) 10
            (disk (PdfData (pages_of [1; 2; 3; 4; 5; 6; 8]%N)))))
  /\ fs (snd (main (sample_library
                      (ocr_service 5 (lit "failed")
                         [(lit "output_files", VList [VStr (lit "out-1")])])) 10
                (disk (PdfData (pages_of [1; 2; 3; 4; 5; 6; 8]%N)))))
     !! final_path
     = Some (TextData (lit "page 1" ++ newline ++ lit "page 3" ++ newline
                       ++ lit "page 5" ++ newline ++ newline
                       ++ lit "first" ++ newline ++ newline
                       ++ newline ++ newline ++ lit "third"))
  /\ fs (snd (main (sample_library
                      (ocr_service 5 (lit "failed")
                         [(lit "output_files", VList [VStr (lit "out-1")])])) 10
                (disk (PdfData (pages_of [1; 2; 3; 4; 5; 6; 8]%N)))))
     !! lit "ocr_results.ndjson"
     = Some (RawData (lit "A" ++ newline ++ lit "B" ++ newline
                      ++ lit "C" ++ newline)).
Proof.
  pose proof (proj1 (proj2 (proj2 (main_after_polling
      (sample_library
         (ocr_service 5 (lit "failed")
            [(lit "output_files", VList [VStr (lit "out-1")])])) 10
      (disk (PdfData (pages_of [1; 2; 3; 4; 5; 6; 8]%N)))
      (snd (prepare (sample_library
                       (ocr_service 5 (lit "failed")
                          [(lit "output_files", VList [VStr (lit "out-1")])]))
              (disk (PdfData (pages_of [1; 2; 3; 4; 5; 6; 8]%N)))))
      (snd (ocr_submit (sample_library
                          (ocr_service 5 (lit "failed")
                             [(lit "output_files", VList [VStr (lit "out-1")])])) 10
              [chunk_path chunk_dir 1]
              (snd (prepare (sample_library
                               (ocr_service 5 (lit "failed")
                                  [(lit "output_files",
                                    VList [VStr (lit "out-1")])]))
                      (disk (PdfData (pages_of [1; 2; 3; 4; 5; 6; 8]%N)))))))
      [chunk_path chunk_dir 1]
      [lit "page 1" ++ newline ++ lit "page 3" ++ newline ++ lit "page 5"]
      (VDict [(lit "status", VStr (lit "failed"));
              (lit "output_files", VList [VStr (lit "out-1")])])
      ltac:(vm_compute; reflexivity)
      ltac:(discriminate)
      ltac:(vm_compute; reflexivity))))
    (VStr (lit "out-1")) []
    {| status_code := 200; resp_json := Ok VNone;
       resp_content := lit "A" ++ newline ++ lit "B" ++ newline
                       ++ lit "C" ++ newline |}
    (lit "A" ++ newline ++ lit "B" ++ newline ++ lit "C" ++ newline)
    [lit "first"; []; lit "third"]
    (lit "page 1" ++ newline ++ lit "page 3" ++ newline
     ++ lit "page 5" ++ newline ++ newline
     ++ lit "first" ++ newline ++ newline
     ++ newline ++ newline ++ lit "third")
    eq_refl
    ltac:(vm_compute; reflexivity)
    ltac:(left; cbn; lia)
    eq_refl
    ltac:(vm_compute; repeat constructor)
    ltac:(vm_compute; reflexivity)) as Hmain.
  rewrite Hmain. split; [reflexivity|]. split; now vm_compute.
Defined.


(** * Further properties *)

(** ** Footprints *)

Lemma replay_app (t1 t2 : list event) (files : gmap str content) :
  replay (t1 ++ t2) files = replay t2 (replay t1 files).
Proof.
  revert files. induction t1 as [|[] t1 IH]; intros files; cbn; auto.
Qed.

Lemma replay_lookup (t : list event) (files : gmap str content) (path : str) :
  Forall (fun e => match e with EvWrite p _ => p <> path | _ => True end) t ->
  replay t files !! path = files !! path.
Proof.
  intros H. revert files. induction H as [|e t He _ IH]; intros files; [reflexivity|].
  destruct e; cbn; rewrite IH; try reflexivity. now apply lookup_insert_ne.
Qed.

Lemma extends_refl (P : event -> Prop) (s : state) : extends P s s.
Proof. exists []. now rewrite app_nil_r. Qed.

Lemma extends_trans (P : event -> Prop) (s1 s2 s3 : state) :
  extends P s1 s2 -> extends P s2 s3 -> extends P s1 s3.
Proof.
  intros (t1 & H1 & F1 & P1) (t2 & H2 & F2 & P2). exists (t1 ++ t2).
  split; [now rewrite H2, H1, app_assoc|].
  split; [now rewrite F2, F1, replay_app|]. now apply Forall_app.
Qed.

Lemma extends_weaken (P Q : event -> Prop) (s s' : state) :
  (forall e, P e -> Q e) -> extends P s s' -> extends Q s s'.
Proof.
  intros HPQ (t & H1 & H2 & H3). exists t. split; [exact H1|]. split; [exact H2|].
  eapply Forall_impl; eauto.
Qed.

Lemma emits_ret {A} (P : event -> Prop) (a : A) : emits P (ret a).
Proof. intros s. apply extends_refl. Qed.

Lemma emits_raise {A} (P : event -> Prop) (e : exn) : emits P (@raise A e).
Proof. intros s. apply extends_refl. Qed.

Lemma emits_lift {A} (P : event -> Prop) (r : result A) : emits P (lift r).
Proof. destruct r; [apply emits_ret|apply emits_raise]. Qed.

Lemma emits_bind {A B} (P : event -> Prop) (m : M A) (k : A -> M B) :
  emits P m -> (forall a, emits P (k a)) -> emits P (bind m k).
Proof.
  intros Hm Hk s. unfold bind. specialize (Hm s).
  destruct (m s) as [[a| |] s1]; cbn [snd] in *; try exact Hm.
  eapply extends_trans; [exact Hm|apply Hk].
Qed.

Lemma emits_try_except {A} (P : event -> Prop) (m : M A) (h : exn -> M A) :
  emits P m -> (forall e, emits P (h e)) -> emits P (try_except m h).
Proof.
  intros Hm Hh s. unfold try_except. specialize (Hm s).
  destruct (m s) as [[a| e|] s1]; cbn [snd] in *; try exact Hm.
  eapply extends_trans; [exact Hm|apply Hh].
Qed.

Lemma emits_for_fold {A B} (P : event -> Prop) (xs : list A) (body : B -> A -> M B) :
  (forall acc x, emits P (body acc x)) ->
  forall acc, emits P (for_fold xs acc body).
Proof.
  intros Hbody. induction xs as [|x xs IH]; intros acc; cbn [for_fold].
  - apply emits_ret.
  - apply emits_bind; [apply Hbody|]. intros a. apply IH.
Qed.

Lemma emits_print (P : event -> Prop) (m : msg) :
  P (EvPrint m) -> emits P (print m).
Proof.
  intros He s. exists [EvPrint m]. cbn. split; [reflexivity|].
  split; [reflexivity|]. now constructor.
Qed.

Lemma emits_sleep (P : event -> Prop) (secs : Z) :
  P (EvSleep secs) -> emits P (sleep secs).
Proof.
  intros He s. exists [EvSleep secs]. cbn. split; [reflexivity|].
  split; [reflexivity|]. now constructor.
Qed.

Lemma emits_makedirs (P : event -> Prop) (path : str) :
  P (EvMkdir path) -> emits P (makedirs path).
Proof.
  intros He s. exists [EvMkdir path]. cbn. split; [reflexivity|].
  split; [reflexivity|]. now constructor.
Qed.

Lemma emits_write_file (P : event -> Prop) (path : str) (data : content) :
  P (EvWrite path data) -> emits P (write_file path data).
Proof.
  intros He s. exists [EvWrite path data]. cbn. split; [reflexivity|].
  split; [reflexivity|]. now constructor.
Qed.

Lemma emits_open_read (P : event -> Prop) (path : str) : emits P (open_read path).
Proof.
  intros s. unfold open_read. destruct (fs s !! path); apply extends_refl.
Qed.

Lemma emits_requests (P : event -> Prop) (L : library) (req : request) :
  (forall r, P (EvHttp req r)) -> emits P (requests L req).
Proof.
  intros He s. unfold requests.
  exists [EvHttp req (http L (length (http_calls (trace s))) req)].
  destruct (http L (length (http_calls (trace s))) req); cbn;
    (split; [reflexivity|]; split; [reflexivity|]; now constructor).
Qed.

Lemma emits_raise_for_status (P : event -> Prop) (r : response) :
  emits P (raise_for_status r).
Proof.
  unfold raise_for_status.
  destruct ((400 <=? status_code r) && (status_code r <? 600));
    [apply emits_raise|apply emits_ret].
Qed.

Ltac footprint_step :=
  first
    [ apply emits_ret | apply emits_raise | apply emits_lift
    | apply emits_open_read | apply emits_raise_for_status
    | apply emits_bind | apply emits_for_fold | apply emits_try_except
    | apply emits_print | apply emits_sleep | apply emits_makedirs
    | apply emits_write_file | apply emits_requests
    | match goal with
      | |- emits _ (if ?b then _ else _) => destruct b
      | |- emits _ (match ?x with _ => _ end) => destruct x
      | |- forall _, _ => intro
      end ].

Ltac footprint := repeat footprint_step; cbn [within]; auto.

Lemma extract_text_emits (P : event -> Prop) (L : library) path maxpages :
  emits P (extract_text L path maxpages).
Proof. unfold extract_text. footprint. Qed.

Lemma is_text_page_emits (P : event -> Prop) (L : library) path :
  emits P (is_text_page L path).
Proof.
  unfold is_text_page. apply emits_try_except; [|footprint].
  apply emits_bind; [apply extract_text_emits|footprint].
Qed.

Lemma classify_emits (P : event -> Prop) (L : library) files :
  emits P (classify L files).
Proof.
  unfold classify. apply emits_for_fold. intros acc x.
  apply emits_bind; [apply is_text_page_emits|footprint].
Qed.

Lemma extract_all_emits (P : event -> Prop) (L : library) paths :
  emits P (extract_all L paths).
Proof.
  unfold extract_all. apply emits_for_fold. intros acc x.
  apply emits_bind; [apply extract_text_emits|footprint].
Qed.

Lemma split_pdf_emits (W : str -> Prop) (net : Prop) (L : library)
    (input_pdf output_dir : str) (chunk_size : Z) :
  (forall i : Z, W (path_join output_dir (lit "chunk_" ++ dec (i + 1) ++ lit ".pdf"))) ->
  emits (within W net) (split_pdf L input_pdf chunk_size output_dir).
Proof. intros HW. unfold split_pdf. footprint. Qed.

Lemma upload_file_emits (W : str -> Prop) (L : library) path :
  emits (within W True) (upload_file L path).
Proof. unfold upload_file. footprint. Qed.

Lemma upload_all_emits (W : str -> Prop) (L : library) paths :
  emits (within W True) (upload_all L paths).
Proof.
  unfold upload_all. apply emits_for_fold. intros acc x.
  apply emits_bind; [apply upload_file_emits|footprint].
Qed.

Lemma create_ndjson_emits (W : str -> Prop) (net : Prop) (L : library) ids path :
  W path -> emits (within W net) (create_ndjson L ids path).
Proof. intros HW. unfold create_ndjson. footprint. Qed.

Lemma upload_batch_file_emits (W : str -> Prop) (L : library) path :
  emits (within W True) (upload_batch_file L path).
Proof. unfold upload_batch_file. footprint. Qed.

Lemma create_batch_job_emits (W : str -> Prop) (L : library) id :
  emits (within W True) (create_batch_job L id).
Proof. unfold create_batch_job. footprint. Qed.

Lemma poll_loop_emits (W : str -> Prop) (L : library) fuel job_id interval :
  emits (within W True) (poll_loop L fuel job_id interval).
Proof.
  induction fuel as [|fuel IH]; cbn [poll_loop].
  - intros s. apply extends_refl.
  - repeat footprint_step; cbn [within]; auto.
Qed.

Lemma wait_for_job_emits (W : str -> Prop) (L : library) fuel job_id interval :
  emits (within W True) (wait_for_job L fuel job_id interval).
Proof.
  unfold wait_for_job. apply emits_bind; [footprint|].
  intros _. apply poll_loop_emits.
Qed.

Lemma download_results_emits (W : str -> Prop) (L : library) id path :
  W path -> emits (within W True) (download_results L id path).
Proof. intros HW. unfold download_results, read_text. footprint. Qed.

(** The paths [split_pdf] writes in [main]. *)
Lemma chunk_file_not_final (i : Z) :
  path_join chunk_dir (lit "chunk_" ++ dec (i + 1) ++ lit ".pdf") <> final_path.
Proof. discriminate. Qed.

Lemma prepare_emits (L : library) :
  emits (within (is_chunk_file chunk_dir) False) (prepare L).
Proof.
  unfold prepare.
  apply emits_bind; [footprint|]. intros _.
  apply emits_bind; [apply split_pdf_emits; intros i; now exists i|].
  intros chunk_files.
  apply emits_bind; [footprint|]. intros _.
  apply emits_bind; [apply classify_emits|]. intros lists.
  apply emits_bind; [footprint|]. intros _.
  apply emits_bind; [footprint|]. intros _.
  apply emits_bind; [apply extract_all_emits|]. footprint.
Qed.

Lemma ocr_submit_emits (L : library) (fuel : nat) (scanned : list str) :
  emits (within (fun p => p = lit "ocr_batch.ndjson") True)
    (ocr_submit L fuel scanned).
Proof.
  unfold ocr_submit.
  apply emits_bind; [footprint|]. intros _.
  apply emits_bind; [apply upload_all_emits|]. intros ids.
  apply emits_bind; [now apply create_ndjson_emits|]. intros path.
  apply emits_bind; [apply upload_batch_file_emits|]. intros batch_file_id.
  apply emits_bind; [apply create_batch_job_emits|]. intros job_id.
  apply wait_for_job_emits.
Qed.

Lemma ocr_collect_emits (L : library) (job_info : pyval) (merged : list str) :
  emits (within (fun p => p = lit "ocr_results.ndjson") True)
    (ocr_collect L job_info merged).
Proof.
  unfold ocr_collect.
  apply emits_bind; [footprint|]. intros output_files.
  destruct (truthy output_files); [|footprint].
  apply emits_bind; [footprint|]. intros files.
  apply emits_bind; [footprint|]. intros id.
  apply emits_bind; [now apply download_results_emits|]. footprint.
Qed.

Lemma within_offline (W : str -> Prop) (t : list event) :
  Forall (within W False) t -> http_calls t = [] /\ schedule t = [].
Proof.
  induction 1 as [|e t He _ [IH1 IH2]]; [now split|].
  destruct e; cbn in *; try contradiction; now split.
Qed.

Lemma within_other_path (W : str -> Prop) (net : Prop) (t : list event) (path : str) :
  ~ W path -> Forall (within W net) t ->
  Forall (fun e => match e with EvWrite p _ => p <> path | _ => True end) t.
Proof.
  intros HW H. eapply Forall_impl; [exact H|].
  intros [] He; cbn in *; auto. intros ->. contradiction.
Qed.

(** X1: splitting, classification and direct extraction stay on the local
    machine.  Whatever their outcome, they send no request and never
    sleep, and the only files they write are chunk files of the staging
    directory; when they raise, [main] ends with the same error in the
    same state, so nothing was sent. *)
Theorem prepare_stays_local (L : library) (s : state) :
  http_calls (trace (snd (prepare L s))) = http_calls (trace s)
  /\ schedule (trace (snd (prepare L s))) = schedule (trace s)
  /\ (forall path, ~ is_chunk_file chunk_dir path ->
        fs (snd (prepare L s)) !! path = fs s !! path)
  /\ (forall fuel e, fst (prepare L s) = Raise e ->
        main L fuel s = (Raise e, snd (prepare L s))).
Proof.
  destruct (prepare_emits L s) as (t & Ht & Hfs & HP).
  destruct (within_offline _ t HP) as [Hcalls Hsched].
  split; [|split; [|split]].
  - now rewrite Ht, http_calls_app, Hcalls, app_nil_r.
  - now rewrite Ht, schedule_app, Hsched, app_nil_r.
  - intros path Hpath. rewrite Hfs. apply replay_lookup.
    now apply (within_other_path (is_chunk_file chunk_dir) False).
  - intros fuel e He. unfold main, bind.
    destruct (prepare L s) as [[x| |] s1]; cbn in He; try discriminate.
    now injection He as ->.
Qed.

Lemma prepare_stays_local_witness :
  fst (prepare (sample_library offline) (disk (RawData (lit "not a pdf"))))
  = Raise (LibraryError 1)
  /\ main (sample_library offline) 3 (disk (RawData (lit "not a pdf")))
     = (Raise (LibraryError 1),
        snd (prepare (sample_library offline) (disk (RawData (lit "not a pdf"))))).
Proof.
  split; [reflexivity|].
  apply (proj2 (proj2 (proj2 (prepare_stays_local (sample_library offline)
                                (disk (RawData (lit "not a pdf"))))))).
  reflexivity.
Defined.

(** Everything [main] does before the merge leaves the final output
    file alone. *)
Lemma before_merge_prepare (L : library) (s : state) :
  extends (within (fun p => p <> final_path) True) s (snd (prepare L s)).
Proof.
  eapply extends_weaken; [|apply prepare_emits].
  intros [] He; cbn in *; auto. destruct He as [i ->]. apply chunk_file_not_final.
Qed.

Lemma before_merge_submit (L : library) (fuel : nat) (scanned : list str) (s : state) :
  extends (within (fun p => p <> final_path) True) s
    (snd (ocr_submit L fuel scanned s)).
Proof.
  eapply extends_weaken; [|apply ocr_submit_emits].
  intros [] He; cbn in *; auto. now subst.
Qed.

Lemma before_merge_collect (L : library) (job_info : pyval) (merged : list str)
    (s : state) :
  extends (within (fun p => p <> final_path) True) s
    (snd (ocr_collect L job_info merged s)).
Proof.
  eapply extends_weaken; [|apply ocr_collect_emits].
  intros [] He; cbn in *; auto. now subst.
Qed.

(** What [ocr_collect] adds to the direct texts: nothing, or the texts
    that a call of [download_results] returned. *)
Lemma ocr_collect_inv (L : library) (job_info : pyval) (merged : list str)
    (s : state) (m : list str) (s' : state) :
  ocr_collect L job_info merged s = (Ret m, s') ->
  exists ocr,
    m = merged ++ ocr
    /\ (ocr = []
        \/ exists id,
             download_results L id (lit "ocr_results.ndjson") s = (Ret ocr, s')).
Proof.
  unfold ocr_collect. unfold bind at 1.
  destruct (py_get job_info (lit "output_files") VNone) as [files|e];
    cbn [lift ret raise]; [|discriminate].
  destruct (truthy files).
  - unfold bind at 1.
    destruct (py_getitem_str job_info (lit "output_files")) as [l|e];
      cbn [lift ret raise]; [|discriminate].
    unfold bind at 1.
    destruct (py_getitem_0 l) as [id|e]; cbn [lift ret raise]; [|discriminate].
    unfold bind.
    destruct (download_results L id (lit "ocr_results.ndjson") s)
      as [[ocr| |] s3] eqn:Hdown; try discriminate.
    unfold ret. intros [= <- <-]. exists ocr. split; [reflexivity|].
    right. now exists id.
  - unfold bind, print, emit, ret. intros [= <- <-]. exists [].
    split; [now rewrite app_nil_r|now left].
Qed.

(** [main] is the merge run after everything else, or it stops before.
    The texts that reach the merge are the direct texts followed by the
    OCR texts. *)
Lemma main_reaches_merge (L : library) (fuel : nat) (s : state) :
  (exists scanned direct s0 ocr s1,
      prepare L s = (Ret (scanned, direct), s0)
      /\ (scanned = [] -> ocr = [])
      /\ (ocr = []
          \/ exists id s2,
               download_results L id (lit "ocr_results.ndjson") s2 = (Ret ocr, s1))
      /\ main L fuel s = finish L (direct ++ ocr) s1
      /\ extends (within (fun p => p <> final_path) True) s s1)
  \/ (fst (main L fuel s) <> Ret tt
      /\ extends (within (fun p => p <> final_path) True) s (snd (main L fuel s))).
Proof.
  pose proof (before_merge_prepare L s) as H1.
  unfold main, bind.
  destruct (prepare L s) as [[[scanned merged]| |] s1]; cbn [fst snd] in *.
  2, 3: right; split; [discriminate|exact H1].
  destruct scanned as [|p scanned].
  - left. exists [], merged, s1, [], s1. rewrite app_nil_r.
    split; [reflexivity|]. split; [reflexivity|]. split; [now left|].
    split; [reflexivity|exact H1].
  - pose proof (before_merge_submit L fuel (p :: scanned) s1) as H2.
    destruct (ocr_submit L fuel (p :: scanned) s1) as [[job_info| |] s2];
      cbn [fst snd] in *.
    2, 3: right; split; [discriminate|eapply extends_trans; eauto].
    pose proof (before_merge_collect L job_info merged s2) as H3.
    destruct (ocr_collect L job_info merged s2) as [[merged'| |] s3] eqn:Hcollect;
      cbn [fst snd] in *.
    2, 3: right; split; [discriminate|];
      eapply extends_trans; [exact H1|]; eapply extends_trans; eauto.
    apply ocr_collect_inv in Hcollect as (ocr & -> & Hocr).
    left. exists (p :: scanned), merged, s1, ocr, s3.
    split; [reflexivity|]. split; [discriminate|]. split.
    { destruct Hocr as [Hocr|(id & Hocr)]; [now left|right; now exists id, s2]. }
    split; [reflexivity|].
    eapply extends_trans; [exact H1|]. eapply extends_trans; eauto.
Qed.

(** X2: [main] touches the final output file in its last step only.  A
    run that ends before the merge, with an error or still polling,
    leaves [final_smart_ocr_output.txt] as it was before the run.  A run
    that reaches the merge has collected the direct texts of the
    text-bearing chunks followed by the OCR texts, which are none when
    no chunk was scanned and otherwise none or the texts returned by
    [download_results]; when their join by blank lines can be encoded,
    [main] writes it as its last file operation, prints the two closing
    messages and returns; when it cannot, [main] raises the encoder's
    error with the output file truncated: the file is empty, whatever
    it held before. *)
Theorem main_final_output (L : library) (fuel : nat) (s : state) :
  exists t,
    Forall (fun e => match e with EvWrite p _ => p <> final_path | _ => True end) t
    /\ ((fst (main L fuel s) <> Ret tt
         /\ trace (snd (main L fuel s)) = trace s ++ t
         /\ fs (snd (main L fuel s)) !! final_path = fs s !! final_path)
        \/ (exists scanned direct s0 ocr,
               prepare L s = (Ret (scanned, direct), s0)
               /\ (scanned = [] -> ocr = [])
               /\ (ocr = []
                   \/ exists id s2 s3,
                        download_results L id (lit "ocr_results.ndjson") s2
                        = (Ret ocr, s3))
               /\ main L fuel s
                  = match locale_encode L
                            (str_join (newline ++ newline) (direct ++ ocr)) with
                    | Ok _ =>
                        (Ret tt,
                         {| fs := <[final_path
                                    := TextData (str_join (newline ++ newline)
                                                   (direct ++ ocr))]>
                                    (replay t (fs s));
                            trace := trace s ++ t
                                     ++ [EvWrite final_path
                                           (TextData (str_join (newline ++ newline)
                                                        (direct ++ ocr)));
                                         EvPrint MsgDone; EvPrint MsgSaved] |})
                    | Err e =>
                        (Raise e,
                         {| fs := <[final_path := TextData []]> (replay t (fs s));
                            trace := trace s ++ t
                                     ++ [EvWrite final_path (TextData [])] |})
                    end)).
Proof.
  destruct (main_reaches_merge L fuel s)
    as [(scanned & direct & s0 & ocr & s1 & Hprep & Hnone & Hocr & Hmain
         & t & Ht & Hfs & HP)
       |(Hne & t & Ht & Hfs & HP)].
  - exists t. split; [now apply (within_other_path (fun p => p <> final_path) True); auto|].
    right. exists scanned, direct, s0, ocr.
    split; [exact Hprep|]. split; [exact Hnone|]. split.
    { destruct Hocr as [Hocr|(id & s2 & Hocr)]; [now left|right; now exists id, s2, s1]. }
    rewrite Hmain.
    destruct (locale_encode L (str_join (newline ++ newline) (direct ++ ocr)))
      as [bytes|e] eqn:Hencode.
    + rewrite (finish_run L _ _ bytes Hencode), Ht, Hfs. now rewrite <- !app_assoc.
    + rewrite (finish_unencodable L _ _ e Hencode), Ht, Hfs. now rewrite <- !app_assoc.
  - exists t. split; [now apply (within_other_path (fun p => p <> final_path) True); auto|].
    left. split; [exact Hne|]. split; [exact Ht|].
    rewrite Hfs. apply replay_lookup.
    now apply (within_other_path (fun p => p <> final_path) True); auto.
Qed.

(** ** Edge cases of [split_pdf] *)

(** X3: a chunk size of zero makes [split_pdf] raise [ZeroDivisionError]
    once the document is parsed; the staging directory has been created
    by then, and no chunk is written. *)
Theorem split_pdf_zero_chunk_size (L : library) (input_pdf output_dir : str)
    (s : state) (file : content) (pages : list page) :
  fs s !! input_pdf = Some file ->
  pypdf_pages L file = Ok pages ->
  split_pdf L input_pdf 0 output_dir s
  = (Raise ZeroDivisionError,
     {| fs := fs s; trace := trace s ++ [EvMkdir output_dir] |}).
Proof.
  intros Hfile Hparse. unfold split_pdf.
  unfold bind at 1, makedirs, emit.
  unfold bind at 1, open_read. cbn [fs trace]. rewrite Hfile.
  unfold bind at 1. rewrite Hparse. reflexivity.
Qed.

Lemma split_pdf_zero_chunk_size_witness :
  split_pdf (sample_library offline) input_path 0 chunk_dir
    (disk (PdfData (pages_of [1; 2; 3]%N)))
  = (Raise ZeroDivisionError,
     {| fs := fs (disk (PdfData (pages_of [1; 2; 3]%N)));
        trace := [EvMkdir chunk_dir] |}).
Proof.
  apply (split_pdf_zero_chunk_size (sample_library offline) input_path chunk_dir
           (disk (PdfData (pages_of [1; 2; 3]%N)))
           (PdfData (pages_of [1; 2; 3]%N)) (pages_of [1; 2; 3]%N)).
  - reflexivity.
  - reflexivity.
Defined.

(** The sign given to [binary_round_aux] only labels its result. *)
Lemma binary_round_aux_sign (sx : bool) (q e : Z) (l : location) :
  binary_round_aux prec emax sx q e l
  = match binary_round_aux prec emax false q e l with
    | S754_zero _ => S754_zero sx
    | S754_infinity _ => S754_infinity sx
    | S754_nan => S754_nan
    | S754_finite _ m e' => S754_finite sx m e'
    end.
Proof.
  unfold binary_round_aux.
  destruct (shr_fexp prec emax q e l) as [mrs' e'].
  destruct (shr_fexp prec emax _ e' loc_Exact) as [mrs'' e''].
  destruct (shr_m mrs''); [reflexivity| |reflexivity].
  now destruct (e'' <=? emax - prec).
Qed.

(** With a negative divisor the ceiling of the quotient is not
    positive. *)
Lemma truediv_negative (a b : Z) :
  0 <= a < 2 ^ 53 -> - 2 ^ 53 < b < 0 ->
  exists f c, py_truediv a b = Ok f /\ math_ceil f = Ok c /\ c <= 0.
Proof.
  intros Ha Hb. destruct (Z.eq_dec a 0) as [->|Hne].
  - unfold py_truediv. destruct (Z.eqb_spec b 0); [lia|]. cbn.
    eexists. exists 0. repeat split; lia.
  - destruct (ceil_truediv a (- b)) as (f & Hdiv & Hceil); [lia|lia|].
    unfold py_truediv in *.
    destruct (Z.eqb_spec b 0); [lia|]. destruct (Z.eqb_spec (- b) 0); [lia|].
    destruct (Z.eqb_spec a 0); [lia|].
    destruct (Z.ltb_spec a 0); [lia|]. destruct (Z.ltb_spec b 0); [|lia].
    destruct (Z.ltb_spec (- b) 0); [lia|]. cbn [xorb] in *.
    rewrite Z.abs_opp in Hdiv.
    destruct (SFdiv_core_binary prec emax (Z.abs a) 0 (Z.abs b) 0) as [[q e] l].
    rewrite binary_round_aux_sign.
    destruct (binary_round_aux prec emax false q e l) as [sz|sz| |sz m e'];
      try discriminate.
    + eexists. exists 0. repeat split; lia.
    + injection Hdiv as <-. discriminate Hceil.
    + eexists. eexists. split; [reflexivity|]. split; [reflexivity|].
      cbn [cond_Zopp]. destruct (Z.leb_spec 0 e').
      * pose proof (Z.pow_nonneg 2 e' ltac:(lia)). nia.
      * pose proof (Z.pow_pos_nonneg 2 (- e') ltac:(lia) ltac:(lia)).
        rewrite Z.opp_involutive.
        pose proof (Z.div_pos (Z.pos m) (2 ^ (- e')) ltac:(lia) ltac:(lia)). lia.
Qed.

(** X4: a negative chunk size is not rejected: [split_pdf] returns an
    empty list, writes no chunk and drops every page. *)
Theorem split_pdf_negative_chunk_size (L : library) (input_pdf output_dir : str)
    (chunk_size : Z) (s : state) (file : content) (pages : list page) :
  fs s !! input_pdf = Some file ->
  pypdf_pages L file = Ok pages ->
  - 2 ^ 53 < chunk_size < 0 ->
  Z.of_nat (length pages) < 2 ^ 53 ->
  split_pdf L input_pdf chunk_size output_dir s
  = (Ret [],
     {| fs := fs s;
        trace := trace s ++ [EvMkdir output_dir; EvPrint (MsgSplit 0 chunk_size)] |}).
Proof.
  intros Hfile Hparse Hc Hlen.
  destruct (truediv_negative (Z.of_nat (length pages)) chunk_size)
    as (f & c & Hdiv & Hceil & Hle); [lia|lia|].
  unfold split_pdf.
  unfold bind at 1, makedirs, emit.
  unfold bind at 1, open_read. cbn [fs trace]. rewrite Hfile.
  unfold bind at 1. rewrite Hparse. cbn [lift ret].
  unfold bind at 1. rewrite Hdiv. cbn [lift ret].
  unfold bind at 1. rewrite Hceil. cbn [lift ret].
  unfold range. replace (Z.to_nat c) with 0%nat by lia.
  cbn. now rewrite <- app_assoc.
Qed.

Lemma split_pdf_negative_chunk_size_witness :
  split_pdf (sample_library offline) input_path (-5) chunk_dir
    (disk (PdfData (pages_of [1; 2; 3]%N)))
  = (Ret [],
     {| fs := fs (disk (PdfData (pages_of [1; 2; 3]%N)));
        trace := [EvMkdir chunk_dir; EvPrint (MsgSplit 0 (-5))] |}).
Proof.
  apply (split_pdf_negative_chunk_size (sample_library offline) input_path chunk_dir
           (-5) (disk (PdfData (pages_of [1; 2; 3]%N)))
           (PdfData (pages_of [1; 2; 3]%N)) (pages_of [1; 2; 3]%N)).
  - reflexivity.
  - reflexivity.
  - lia.
  - vm_compute. reflexivity.
Defined.

Lemma store_chunks_other (output_dir : str) (pages : list page)
    (chunk_size : nat) (indices : list nat) (s : state) (path : str) :
  ~ In path (List.map (chunk_path output_dir) indices) ->
  fs (store_chunks output_dir pages chunk_size indices s) !! path = fs s !! path.
Proof.
  unfold store_chunks. cbn [fs]. generalize (fs s) as m.
  induction indices as [|i indices IH]; intros m Hpath; [reflexivity|].
  cbn [foldl]. rewrite IH.
  - apply lookup_insert_ne. intros Heq. apply Hpath. now left.
  - intros Hin. apply Hpath. now right.
Qed.

(** X5: [split_pdf] gives every chunk a path of its own and touches no
    other file: whatever else is on disk, stale chunk files of an earlier
    run with higher numbers included, is left as it was. *)
Theorem split_pdf_frame (L : library) (input_pdf output_dir : str)
    (chunk_size : Z) (s : state) (file : content) (pages : list page) :
  fs s !! input_pdf = Some file ->
  pypdf_pages L file = Ok pages ->
  1 <= chunk_size < 2 ^ 53 ->
  Z.of_nat (length pages) < 2 ^ 53 ->
  exists paths s',
    split_pdf L input_pdf chunk_size output_dir s = (Ret paths, s')
    /\ NoDup paths
    /\ (forall path, ~ In path paths -> fs s' !! path = fs s !! path).
Proof.
  intros Hfile Hparse Hc Hlen.
  eexists. eexists. split; [|split].
  - apply (split_pdf_run L input_pdf output_dir chunk_size s file pages);
      try assumption; lia.
  - change (List.map ?f ?l) with (f <$> l). apply NoDup_fmap_2; [|apply NoDup_seq].
    intros i j Hij. now apply chunk_path_inj in Hij.
  - intros path Hpath. cbn [fs]. now rewrite store_chunks_other.
Qed.

Lemma split_pdf_frame_witness :
  exists paths s',
    split_pdf (sample_library offline) input_path 2 chunk_dir
      (disk (PdfData (pages_of [1; 2; 3]%N)))
    = (Ret paths, s')
    /\ NoDup paths
    /\ fs s' !! input_path = Some (PdfData (pages_of [1; 2; 3]%N)).
Proof.
  destruct (split_pdf_frame (sample_library offline) input_path chunk_dir 2
              (disk (PdfData (pages_of [1; 2; 3]%N)))
              (PdfData (pages_of [1; 2; 3]%N)) (pages_of [1; 2; 3]%N))
    as (paths & s' & Hrun & Hnodup & Hframe).
  - reflexivity.
  - reflexivity.
  - lia.
  - vm_compute. reflexivity.
  - exists paths, s'. split; [exact Hrun|]. split; [exact Hnodup|].
    rewrite Hframe; [reflexivity|].
    intros Hin. vm_compute in Hrun. injection Hrun as <- _.
    repeat (destruct Hin as [Hin|Hin]; [discriminate|]). exact Hin.
Defined.

(** ** Classification *)

Lemma lstrip_nil (s : str) : lstrip s = [] <-> forallb isspace s = true.
Proof.
  induction s as [|c s IH]; cbn; [easy|].
  destruct (isspace c); cbn; [exact IH|]. split; discriminate.
Qed.

Lemma lstrip_cases (s : str) :
  lstrip s = []
  \/ exists c s', lstrip s = c :: s' /\ isspace c = false.
Proof.
  induction s as [|c s IH]; cbn; [now left|].
  destruct (isspace c) eqn:Hc; [exact IH|]. right. now exists c, s.
Qed.

Lemma forallb_rev {A} (f : A -> bool) (l : list A) :
  forallb f (rev l) = forallb f l.
Proof.
  induction l as [|x l IH]; [reflexivity|].
  cbn. rewrite forallb_app, IH. cbn. rewrite andb_true_r. apply andb_comm.
Qed.

(** [strip] leaves nothing exactly of the strings made of whitespace. *)
Lemma strip_nil (s : str) : strip s = [] <-> forallb isspace s = true.
Proof.
  unfold strip, rstrip. split.
  - intros H. apply (f_equal (@rev N)) in H. rewrite rev_involutive in H. cbn in H.
    apply lstrip_nil in H. rewrite forallb_rev in H.
    destruct (lstrip_cases s) as [Hs|(c & s' & Hs & Hc)].
    + now apply lstrip_nil.
    + rewrite Hs in H. cbn in H. rewrite Hc in H. discriminate.
  - intros H. apply lstrip_nil in H. now rewrite H.
Qed.

(** X6: [is_text_page] answers [True] exactly when the text extracted
    from the first page has a character that is not whitespace; a page of
    whitespace only, like an empty one, counts as scanned. *)
Theorem is_text_page_nonblank (L : library) (path : str) (s : state) :
  is_text_page L path s = (Ret true, s)
  <-> exists data text c,
        fs s !! path = Some data
        /\ pdfminer L data (Some 1) = Ok text
        /\ In c text /\ isspace c = false.
Proof.
  rewrite is_text_page_pure. unfold has_text. split.
  - intros H. injection H as H.
    destruct (fs s !! path) as [data|] eqn:Hdata; [|discriminate].
    destruct (pdfminer L data (Some 1)) as [text|] eqn:Htext; [|discriminate].
    assert (Hne : forallb isspace text <> true).
    { intros Hall. apply strip_nil in Hall. rewrite Hall in H. discriminate. }
    apply not_true_is_false in Hne.
    assert (Hex : existsb (fun c => negb (isspace c)) text = true).
    { clear -Hne. induction text as [|c text IH]; [discriminate|].
      cbn in *. destruct (isspace c); cbn in *; auto. }
    apply existsb_exists in Hex as (c & Hin & Hc).
    exists data, text, c. repeat split; auto. now destruct (isspace c).
  - intros (data & text & c & Hdata & Htext & Hin & Hc).
    rewrite Hdata, Htext, truthy_VStr.
    destruct (strip text) eqn:Hstrip; [|reflexivity].
    apply strip_nil in Hstrip.
    rewrite forallb_forall in Hstrip. rewrite (Hstrip c Hin) in Hc. discriminate.
Qed.

Lemma filter_permutation {A} (f : A -> bool) (l : list A) :
  Permutation (List.filter f l ++ List.filter (fun x => negb (f x)) l) l.
Proof.
  induction l as [|x l IH]; [constructor|].
  cbn. destruct (f x); cbn.
  - now constructor.
  - rewrite <- Permutation_middle. now constructor.
Qed.

Lemma filter_sublist {A} (f : A -> bool) (l : list A) :
  sublist (List.filter f l) l.
Proof.
  induction l as [|x l IH]; [constructor|].
  cbn. destruct (f x); now constructor.
Qed.

(** X7: classification never fails and changes nothing; it puts every
    chunk in exactly one of the two lists, the chunks with text in the
    first and the others in the second, each list in chunk order. *)
Theorem classify_partition (L : library) (chunk_files : list str) (s : state) :
  exists text_pages scanned_pages,
    classify L chunk_files s = (Ret (text_pages, scanned_pages), s)
    /\ Permutation (text_pages ++ scanned_pages) chunk_files
    /\ sublist text_pages chunk_files
    /\ sublist scanned_pages chunk_files
    /\ Forall (fun p => is_text_page L p s = (Ret true, s)) text_pages
    /\ Forall (fun p => is_text_page L p s = (Ret false, s)) scanned_pages.
Proof.
  eexists. eexists. split; [apply classify_run|].
  split; [apply filter_permutation|].
  split; [apply filter_sublist|]. split; [apply filter_sublist|].
  split; apply List.Forall_forall; intros p Hp; apply filter_In in Hp as [_ Hp];
    rewrite is_text_page_pure; now destruct (has_text L (fs s) p).
Qed.

(** ** Direct extraction *)

Lemma for_fold_app {A B} (xs ys : list A) (acc : B) body s :
  for_fold (xs ++ ys) acc body s
  = bind (for_fold xs acc body) (fun acc' => for_fold ys acc' body) s.
Proof.
  revert acc s. induction xs as [|x xs IH]; intros acc s; cbn [app for_fold].
  - reflexivity.
  - unfold bind. destruct (body acc x s) as [[a| |] s1]; try reflexivity.
    rewrite IH. reflexivity.
Qed.

(** X8: unlike the classifier, direct extraction does not absorb errors:
    when the texts of the first chunks are extracted and the extraction
    of the next one raises, [extract_all] raises that error, the later
    chunks are not read and the texts already extracted are lost. *)
Theorem extract_all_first_error (L : library) (s : state) (before : list str)
    (texts : list str) (p : str) (after : list str) (e : exn) :
  Forall2 (fun q t => extract_text L q None s = (Ret t, s)) before texts ->
  extract_text L p None s = (Raise e, s) ->
  extract_all L (before ++ p :: after) s = (Raise e, s).
Proof.
  intros Hbefore Hp. unfold extract_all. rewrite for_fold_app.
  assert (Hrun : forall merged,
             for_fold before merged (fun merged_text path =>
               let* text := extract_text L path None in
               ret (merged_text ++ [strip text])) s
             = (Ret (merged ++ List.map strip texts), s)).
  { induction Hbefore as [|q t before texts Hq _ IH]; intros merged.
    - cbn. now rewrite app_nil_r.
    - cbn [for_fold List.map]. unfold bind at 1, bind at 1. rewrite Hq.
      cbn [ret]. rewrite IH. now rewrite <- app_assoc. }
  unfold bind at 1. rewrite Hrun. cbn [for_fold]. unfold bind. now rewrite Hp.
Qed.

Lemma extract_all_first_error_witness :
  extract_all (sample_library offline)
    ([chunk_path chunk_dir 0] ++ lit "missing.pdf" :: [chunk_path chunk_dir 1])
    (snd (split_pdf (sample_library offline) input_path 2 chunk_dir
            (disk (PdfData (pages_of [1; 3; 5]%N)))))
  = (Raise (FileNotFoundError (lit "missing.pdf")),
     snd (split_pdf (sample_library offline) input_path 2 chunk_dir
            (disk (PdfData (pages_of [1; 3; 5]%N))))).
Proof.
  apply (extract_all_first_error (sample_library offline) _
           [chunk_path chunk_dir 0]
           [lit "page 1" ++ newline ++ lit "page 3" ++ newline]).
  - repeat constructor.
  - reflexivity.
Defined.

(** ** Failures of the OCR branch *)

Lemma upload_all_stops (L : library) (before : list str) (p : str)
    (after : list str) (s s1 : state) (ids : list pyval) (data : content)
    (r : response) :
  upload_all L before s = (Ret ids, s1) ->
  fs s1 !! p = Some data ->
  http L (length (http_calls (trace s1))) (PostFiles p data (lit "batch")) = Ok r ->
  400 <= status_code r < 600 ->
  upload_all L (before ++ p :: after) s
  = (Raise (HTTPError (status_code r)),
     {| fs := fs s1;
        trace := trace s1 ++ [EvHttp (PostFiles p data (lit "batch")) (Ok r)] |}).
Proof.
  intros Hbefore Hdata Hhttp Hstatus. unfold upload_all in *.
  rewrite for_fold_app. unfold bind at 1. rewrite Hbefore.
  cbn [for_fold]. unfold bind at 1, bind at 1.
  now rewrite (upload_file_http_error L p s1 data r Hdata Hhttp Hstatus).
Qed.

(** X9: when the upload of a scanned chunk is answered with an error
    status, [main] raises [HTTPError] at once: the failed upload is the
    last thing the run does, the chunks after it are not uploaded, and
    neither the manifest nor the final output file is written. *)
Theorem main_upload_failure (L : library) (fuel : nat) (s s1 s2 : state)
    (before : list str) (p : str) (after : list str) (merged : list str)
    (ids : list pyval) (data : content) (r : response) :
  prepare L s = (Ret (before ++ p :: after, merged), s1) ->
  upload_all L before
    {| fs := fs s1; trace := trace s1 ++ [EvPrint MsgUploading] |}
  = (Ret ids, s2) ->
  fs s2 !! p = Some data ->
  http L (length (http_calls (trace s2))) (PostFiles p data (lit "batch")) = Ok r ->
  400 <= status_code r < 600 ->
  main L fuel s
  = (Raise (HTTPError (status_code r)),
     {| fs := fs s1;
        trace := trace s2 ++ [EvHttp (PostFiles p data (lit "batch")) (Ok r)] |}).
Proof.
  intros Hprep Hbefore Hdata Hhttp Hstatus.
  assert (Hfs : fs s2 = fs s1).
  { unfold upload_all in Hbefore.
    now apply upload_all_from in Hbefore as (? & ? & _ & Hfs & _). }
  unfold main. unfold bind at 1. rewrite Hprep. cbn [fst snd].
  destruct (before ++ p :: after) as [|q rest] eqn:Hlist.
  { now destruct before. }
  rewrite <- Hlist.
  unfold bind at 1. unfold bind at 1. unfold ocr_submit.
  unfold bind at 1, print, emit.
  unfold bind at 1.
  rewrite (upload_all_stops L before p after _ s2 ids data r Hbefore Hdata Hhttp Hstatus).
  now rewrite Hfs.
Qed.

Lemma main_upload_failure_witness :
  fst (main (sample_library (failing_service 1)) 5
         (disk (PdfData (pages_of [2; 4; 6; 8; 10; 12; 14]%N))))
  = Raise (HTTPError 500)
  /\ http_calls
       (trace (snd (main (sample_library (failing_service 1)) 5
                      (disk (PdfData (pages_of [2; 4; 6; 8; 10; 12; 14]%N))))))
     = [PostFiles (chunk_path chunk_dir 0) (PdfData (pages_of [2; 4; 6; 8; 10]%N))
          (lit "batch");
        PostFiles (chunk_path chunk_dir 1) (PdfData (pages_of [12; 14]%N))
          (lit "batch")]
  /\ fs (snd (main (sample_library (failing_service 1)) 5
                (disk (PdfData (pages_of [2; 4; 6; 8; 10; 12; 14]%N)))))
     !! final_path = None.
Proof.
  pose proof (main_upload_failure (sample_library (failing_service 1)) 5
    (disk (PdfData (pages_of [2; 4; 6; 8; 10; 12; 14]%N)))
    (snd (prepare (sample_library (failing_service 1))
            (disk (PdfData (pages_of [2; 4; 6; 8; 10; 12; 14]%N)))))
    (snd (upload_all (sample_library (failing_service 1)) [chunk_path chunk_dir 0]
            {| fs := fs (snd (prepare (sample_library (failing_service 1))
                                (disk (PdfData (pages_of [2; 4; 6; 8; 10; 12; 14]%N)))));
               trace := trace (snd (prepare (sample_library (failing_service 1))
                                      (disk (PdfData
                                               (pages_of [2; 4; 6; 8; 10; 12; 14]%N)))))
                        ++ [EvPrint MsgUploading] |}))
    [chunk_path chunk_dir 0] (chunk_path chunk_dir 1) [] []
    [VStr (lit "file-0")] (PdfData (pages_of [12; 14]%N))
    {| status_code := 500;
       resp_json := Ok (VDict [(lit "message", VStr (lit "internal error"))]);
       resp_content := [] |}
    ltac:(vm_compute; reflexivity) ltac:(vm_compute; reflexivity)
    ltac:(vm_compute; reflexivity) ltac:(vm_compute; reflexivity)
    ltac:(cbn; lia)) as Hmain.
  rewrite Hmain. split; [reflexivity|]. split; now vm_compute.
Defined.

(** X10: the job is submitted exactly once.  Whatever the service
    answers, [create_batch_job] sends the creation request a single
    time, never sleeps and writes no file; it returns the [id] of the
    answer when the status is not an error status and the body is a JSON
    object with an ["id"] entry, raises [HTTPError] on a 4xx or 5xx
    status, and otherwise raises the error of the failed step. *)
Theorem create_batch_job_once (L : library) (batch_file_id : pyval) (s : state) :
  let req := PostBatchJobs
               (json_dumps (float_repr L)
                  (VDict [(lit "input_files", VList [batch_file_id]);
                          (lit "endpoint", VStr (lit "/v1/ocr"));
                          (lit "model", VStr (lit "mistral-ocr"))])) in
  let ans := http L (length (http_calls (trace s))) req in
  let out := create_batch_job L batch_file_id s in
  schedule (trace (snd out)) = schedule (trace s) ++ [inl req]
  /\ fs (snd out) = fs s
  /\ fst out
     = match ans with
       | Ok r =>
           if (400 <=? status_code r) && (status_code r <? 600)
           then Raise (HTTPError (status_code r))
           else match uploaded_id ans with
                | Ok id => Ret id
                | Err e => Raise e
                end
       | Err e => Raise e
       end.
Proof.
  intros req ans out.
  assert (Hone : forall t, schedule ((trace s ++ [EvHttp req t]))
                           = schedule (trace s) ++ [inl req])
    by (intros t; now rewrite schedule_app).
  assert (Htwo : forall t m, schedule ((trace s ++ [EvHttp req t]) ++ [EvPrint m])
                             = schedule (trace s) ++ [inl req])
    by (intros t m; rewrite !schedule_app; cbn; now rewrite app_nil_r).
  assert (Hout : out = create_batch_job L batch_file_id s) by reflexivity.
  clearbody out. unfold create_batch_job in Hout. fold req in Hout.
  unfold bind at 1, requests in Hout. fold ans in Hout.
  unfold uploaded_id, rbind.
  clearbody ans. destruct ans as [r|e].
  2: { subst out. cbn [fst snd fs trace]. now rewrite Hone. }
  unfold bind at 1, raise_for_status in Hout.
  destruct ((400 <=? status_code r) && (status_code r <? 600)).
  1: { subst out. cbn [raise fst snd fs trace]. now rewrite Hone. }
  cbn [ret] in Hout. unfold bind at 1 in Hout.
  destruct (resp_json r) as [job|e]; cbn [lift ret raise] in Hout.
  2: { subst out. cbn [fst snd fs trace]. now rewrite Hone. }
  unfold bind at 1 in Hout.
  destruct (py_getitem_str job (lit "id")) as [v|e]; cbn [lift ret raise] in Hout.
  2: { subst out. cbn [fst snd fs trace]. now rewrite Hone. }
  unfold bind, print, emit in Hout. cbn [lift ret fst snd fs trace] in Hout.
  subst out. unfold ret. cbn [fst snd fs trace]. now rewrite Htwo.
Qed.

(** ** The flow of ids through the submission *)

Lemma create_batch_job_inv (L : library) (batch_file_id : pyval) (s : state)
    (job_id : pyval) (s' : state) :
  create_batch_job L batch_file_id s = (Ret job_id, s') ->
  let req := PostBatchJobs
               (json_dumps (float_repr L)
                  (VDict [(lit "input_files", VList [batch_file_id]);
                          (lit "endpoint", VStr (lit "/v1/ocr"));
                          (lit "model", VStr (lit "mistral-ocr"))])) in
  uploaded_id (http L (length (http_calls (trace s))) req) = Ok job_id
  /\ s' = {| fs := fs s;
             trace := (trace s
                       ++ [EvHttp req (http L (length (http_calls (trace s))) req)])
                      ++ [EvPrint (MsgJobCreated job_id)] |}.
Proof.
  intros H req. revert H. unfold create_batch_job. fold req.
  unfold bind at 1, requests. unfold uploaded_id, rbind.
  destruct (http L (length (http_calls (trace s))) req) as [r|e]; [|discriminate].
  unfold bind at 1, raise_for_status.
  destruct ((400 <=? status_code r) && (status_code r <? 600)); [discriminate|].
  cbn [ret]. unfold bind at 1.
  destruct (resp_json r) as [job|e]; [|discriminate]. cbn [lift ret].
  unfold bind at 1.
  destruct (py_getitem_str job (lit "id")) as [v|e]; [|discriminate].
  cbn [lift ret]. unfold bind, print, emit. cbn [fs trace].
  intros [= <- <-]. now split.
Qed.

Lemma poll_loop_inv (L : library) (job_id : pyval) (interval : Z) (fuel : nat) :
  forall (s : state) (data : pyval) (s' : state),
    poll_loop L fuel job_id interval s = (Ret data, s') ->
    exists n,
      (forall k, (k < n)%nat ->
         poll_pending L job_id (length (http_calls (trace s)) + k))
      /\ poll_done L job_id (length (http_calls (trace s)) + n) data
      /\ http_calls (trace s')
         = http_calls (trace s) ++ replicate (S n) (GetBatchJob job_id)
      /\ fs s' = fs s.
Proof.
  induction fuel as [|fuel IH]; intros s data s' H; [discriminate|].
  cbn [poll_loop] in H. unfold bind at 1, requests in H.
  destruct (http L (length (http_calls (trace s))) (GetBatchJob job_id))
    as [resp|e] eqn:Hhttp; [|discriminate].
  unfold bind at 1 in H.
  destruct (resp_json resp) as [d|e] eqn:Hjson; [|discriminate].
  cbn [lift ret] in H. unfold bind at 1 in H.
  destruct (py_getitem_str d (lit "status")) as [st|e] eqn:Hst; [|discriminate].
  cbn [lift ret] in H. unfold bind at 1, print, emit in H.
  assert (Hans : poll_answer L job_id (length (http_calls (trace s))) = Ok (d, st))
    by (unfold poll_answer, rbind; now rewrite Hhttp, Hjson, Hst).
  destruct (is_terminal st) eqn:Hterm.
  - injection H as <- <-. exists 0%nat. cbn [fs trace].
    split; [intros k Hk; lia|]. rewrite Nat.add_0_r.
    split; [now exists st|].
    split; [|reflexivity]. rewrite !http_calls_app. cbn. now rewrite app_nil_r.
  - unfold bind at 1, sleep, emit in H. cbn [fs trace] in H.
    apply IH in H as (n & Hpend & Hdone & Hcalls & Hfs). cbn [fs trace] in *.
    rewrite !http_calls_app in Hpend, Hdone, Hcalls. cbn [http_calls] in *.
    rewrite !app_nil_r in Hpend, Hdone, Hcalls.
    rewrite length_app in Hpend, Hdone. cbn [length] in *.
    exists (S n). split; [|split; [|split]].
    + intros [|k] Hk.
      * rewrite Nat.add_0_r. now exists d, st.
      * replace (length (http_calls (trace s)) + S k)%nat
          with (length (http_calls (trace s)) + 1 + k)%nat by lia.
        apply Hpend. lia.
    + now replace (length (http_calls (trace s)) + S n)%nat
        with (length (http_calls (trace s)) + 1 + n)%nat by lia.
    + rewrite Hcalls, <- app_assoc. reflexivity.
    + exact Hfs.
Qed.

(** X11: in a run of the submission that returns, the ids flow as
    intended.  The requests are, in this order: one upload per scanned
    chunk, the upload of the manifest built from the ids these uploads
    returned, the creation of a job for the id the manifest upload
    returned, and status polls for the id the job creation returned; the
    job object returned is the answer to the last poll, and the only file
    written is the manifest. *)
Theorem ocr_submit_dataflow (L : library) (fuel : nat) (scanned : list str)
    (s : state) (job_info : pyval) (s' : state) :
  ocr_submit L fuel scanned s = (Ret job_info, s') ->
  let base := length (http_calls (trace s)) in
  let k := length scanned in
  exists (ids : list pyval) (uploads : list request)
         (batch_file_id job_id : pyval) (polls : nat),
    let manifest :=
      PostFiles (lit "ocr_batch.ndjson") (TextData (manifest_text L ids))
        (lit "batch") in
    let creation :=
      PostBatchJobs
        (json_dumps (float_repr L)
           (VDict [(lit "input_files", VList [batch_file_id]);
                   (lit "endpoint", VStr (lit "/v1/ocr"));
                   (lit "model", VStr (lit "mistral-ocr"))])) in
    length ids = k
    /\ length uploads = k
    /\ (forall i p, scanned !! i = Some p ->
          exists data id,
            fs s !! p = Some data
            /\ uploads !! i = Some (PostFiles p data (lit "batch"))
            /\ uploaded_id (http L (base + i) (PostFiles p data (lit "batch"))) = Ok id
            /\ ids !! i = Some id)
    /\ uploaded_id (http L (base + k) manifest) = Ok batch_file_id
    /\ uploaded_id (http L (base + k + 1) creation) = Ok job_id
    /\ poll_done L job_id (base + k + 2 + polls) job_info
    /\ http_calls (trace s')
       = http_calls (trace s) ++ uploads ++ [manifest; creation]
         ++ replicate (S polls) (GetBatchJob job_id)
    /\ fs s' = <[lit "ocr_batch.ndjson" := TextData (manifest_text L ids)]> (fs s).
Proof.
  intros H base k. unfold ocr_submit in H.
  apply bind_Ret_inv in H as (u & s0 & H0 & H).
  unfold print, emit in H0. injection H0 as _ <-.
  apply bind_Ret_inv in H as (ids & s1 & H1 & H).
  unfold upload_all in H1.
  apply upload_all_from in H1 as (new & uploads & Hids & Hfs1 & Hcalls1 & Hlen1 & Hlen2 & Hk).
  cbn [app] in Hids. subst new. cbn [fs trace] in *.
  rewrite http_calls_app in Hcalls1, Hk. cbn [http_calls] in Hcalls1, Hk.
  rewrite app_nil_r in Hcalls1, Hk.
  apply bind_Ret_inv in H as (path & s2 & H2 & H).
  rewrite create_ndjson_run in H2. injection H2 as <- <-.
  apply bind_Ret_inv in H as (batch_file_id & s3 & H3 & H).
  change (upload_batch_file L (lit "ocr_batch.ndjson"))
    with (upload_file L (lit "ocr_batch.ndjson")) in H3.
  apply upload_file_inv in H3 as (data & Hdata & Hbid & ->).
  cbn [fs trace] in *. rewrite lookup_insert_eq in Hdata. injection Hdata as <-.
  rewrite !http_calls_app in Hbid. cbn [http_calls] in Hbid.
  rewrite !app_nil_r, Hcalls1, length_app, Hlen2 in Hbid.
  apply bind_Ret_inv in H as (job_id & s4 & H4 & H).
  apply create_batch_job_inv in H4 as [Hjob Hs4].
  set (creation := PostBatchJobs _) in Hjob, Hs4. subst s4. cbn [fs trace] in *.
  rewrite !http_calls_app in Hjob. cbn [http_calls] in Hjob.
  rewrite !app_nil_r, Hcalls1, !length_app, Hlen2 in Hjob. cbn [length] in Hjob.
  unfold wait_for_job in H.
  apply bind_Ret_inv in H as (u' & s5 & H5 & H).
  unfold print, emit in H5. injection H5 as _ <-.
  apply poll_loop_inv in H as (polls & _ & Hdone & Hcalls & Hfs). cbn [fs trace] in *.
  rewrite !http_calls_app in Hdone, Hcalls. cbn [http_calls] in Hdone, Hcalls.
  rewrite !app_nil_r, Hcalls1 in Hdone, Hcalls.
  rewrite !length_app, Hlen2 in Hdone. cbn [length] in Hdone.
  exists ids, uploads, batch_file_id, job_id, polls. cbv zeta.
  split; [exact Hlen1|]. split; [exact Hlen2|].
  split.
  { intros i p Hp. destruct (Hk i p Hp) as (d & id & Hd & Hid & Hreq & Hup).
    exists d, id. now repeat split. }
  split; [exact Hbid|]. split; [exact Hjob|].
  split.
  { subst base k. now rewrite <- Nat.add_assoc with (m := 1%nat) (p := 1%nat) in Hdone. }
  split; [rewrite Hcalls, <- !app_assoc; reflexivity|].
  rewrite Hfs. now rewrite Hfs1.
Qed.

Lemma ocr_submit_dataflow_witness :
  exists (ids : list pyval) (job_id : pyval),
    length ids = 1%nat
    /\ fs (snd (ocr_submit (sample_library (ocr_service 5 (lit "completed") [])) 10
                  [chunk_path chunk_dir 0]
                  (snd (split_pdf (sample_library offline) input_path 5 chunk_dir
                          (disk (PdfData (pages_of [2; 4; 6]%N)))))))
       !! lit "ocr_batch.ndjson"
       = Some (TextData
                 (manifest_text (sample_library (ocr_service 5 (lit "completed") []))
                    ids))
    /\ poll_done (sample_library (ocr_service 5 (lit "completed") [])) job_id 5
         (VDict [(lit "status", VStr (lit "completed"))]).
Proof.
  destruct (ocr_submit_dataflow (sample_library (ocr_service 5 (lit "completed") []))
              10 [chunk_path chunk_dir 0]
              (snd (split_pdf (sample_library offline) input_path 5 chunk_dir
                      (disk (PdfData (pages_of [2; 4; 6]%N)))))
              (VDict [(lit "status", VStr (lit "completed"))])
              (snd (ocr_submit (sample_library (ocr_service 5 (lit "completed") [])) 10
                      [chunk_path chunk_dir 0]
                      (snd (split_pdf (sample_library offline) input_path 5 chunk_dir
                              (disk (PdfData (pages_of [2; 4; 6]%N)))))))
              ltac:(vm_compute; reflexivity))
    as (ids & uploads & batch_file_id & job_id & polls
        & Hlen & Hlen2 & _ & _ & _ & Hdone & Hcalls & Hfs).
  exists ids, job_id. split; [exact Hlen|].
  split; [rewrite Hfs; apply lookup_insert_eq|].
  assert (polls = 2%nat) as ->.
  { apply (f_equal (@length request)) in Hcalls.
    rewrite !length_app, length_replicate, Hlen2 in Hcalls.
    vm_compute in Hcalls. lia. }
  exact Hdone.
Defined.

(** ** The manifest and the results *)

(** X12: the correlation ids of a manifest are pairwise distinct, also
    when the same file id occurs twice: records at different positions
    have different [custom_id]s. *)
Theorem manifest_ids_distinct (ids : list pyval) (i j : nat) (r1 r2 : pyval) :
  List.map (fun ix => ndjson_line (fst ix) (snd ix)) (enumerate ids) !! i = Some r1 ->
  List.map (fun ix => ndjson_line (fst ix) (snd ix)) (enumerate ids) !! j = Some r2 ->
  i <> j ->
  py_getitem_str r1 (lit "custom_id") <> py_getitem_str r2 (lit "custom_id").
Proof.
  unfold enumerate. change (List.map ?f ?l) with (f <$> l).
  rewrite !list_lookup_fmap, !list_lookup_imap.
  destruct (ids !! i) as [a|]; [|discriminate].
  destruct (ids !! j) as [b|]; [|discriminate].
  cbn. intros [= <-] [= <-] Hij [= H]. apply dec_inj in H. lia.
Qed.

Lemma manifest_ids_distinct_witness :
  length (enumerate [VStr (lit "same"); VStr (lit "same")]) = 2%nat
  /\ py_getitem_str (ndjson_line 0 (VStr (lit "same"))) (lit "custom_id")
     <> py_getitem_str (ndjson_line 1 (VStr (lit "same"))) (lit "custom_id").
Proof.
  split; [reflexivity|].
  apply (manifest_ids_distinct [VStr (lit "same"); VStr (lit "same")] 0 1).
  - reflexivity.
  - reflexivity.
  - lia.
Defined.

(** X13: the choice between the two text fields is made before the
    whitespace is removed: an [output_text] that is a non-empty string
    is the text of the record, whatever [text] holds; when it consists of
    whitespace only, the record yields the empty string. *)
Theorem result_text_prefers_output_text (L : library) (line : str)
    (record response : list (str * pyval)) (c : N) (t : str) :
  json_loads L line = Ok (VDict record) ->
  dict_lookup record (lit "response") = Some (VDict response) ->
  dict_lookup response (lit "output_text") = Some (VStr (c :: t)) ->
  result_text L line = Ok (strip (c :: t))
  /\ (forallb isspace (c :: t) = true -> result_text L line = Ok []).
Proof.
  intros Hline Hresp Hout.
  assert (H : result_text L line = Ok (strip (c :: t))).
  { unfold result_text, rbind. rewrite Hline. cbn [py_get]. rewrite Hresp.
    cbn [py_get]. rewrite Hout. reflexivity. }
  split; [exact H|]. intros Hblank. rewrite H. f_equal. now apply strip_nil.
Qed.

Lemma result_text_prefers_output_text_witness :
  result_text (library_parsing_as (VDict record_blank)) (lit "line") = Ok [].
Proof.
  apply (proj2 (result_text_prefers_output_text
                  (library_parsing_as (VDict record_blank)) (lit "line")
                  record_blank
                  [(lit "output_text", VStr (lit "  "));
                   (lit "text", VStr (lit "real text"))]
                  32%N (lit " ") eq_refl eq_refl eq_refl)).
  reflexivity.
Defined.

(** X14: a record whose [response] entry is present but is not an object
    (null, a string, a number, a list) makes the parsing of its line
    raise [AttributeError]. *)
Theorem result_text_bad_response (L : library) (line : str)
    (record : list (str * pyval)) (v : pyval) :
  json_loads L line = Ok (VDict record) ->
  dict_lookup record (lit "response") = Some v ->
  (forall d, v <> VDict d) ->
  result_text L line = Err AttributeError.
Proof.
  intros Hline Hresp Hv. unfold result_text, rbind. rewrite Hline.
  cbn [py_get]. rewrite Hresp.
  destruct v; try reflexivity. now destruct (Hv d).
Qed.

Lemma result_text_bad_response_witness :
  result_text (sample_library offline) (lit "N" ++ newline) = Err AttributeError.
Proof.
  apply (result_text_bad_response (sample_library offline) (lit "N" ++ newline)
           record_null VNone).
  - reflexivity.
  - reflexivity.
  - discriminate.
Defined.

(** X15: when the download is answered with an error status,
    [download_results] raises [HTTPError] after that single request and
    writes no result file. *)
Theorem download_results_http_error (L : library) (output_file_id : pyval)
    (save_path : str) (s : state) (r : response) :
  http L (length (http_calls (trace s))) (GetFileContent output_file_id) = Ok r ->
  400 <= status_code r < 600 ->
  download_results L output_file_id save_path s
  = (Raise (HTTPError (status_code r)),
     {| fs := fs s;
        trace := trace s ++ [EvHttp (GetFileContent output_file_id) (Ok r)] |}).
Proof.
  intros Hhttp Hstatus. unfold download_results.
  unfold bind at 1, requests. rewrite Hhttp.
  unfold bind at 1. now rewrite raise_for_status_error.
Qed.

Lemma download_results_http_error_witness :
  download_results (sample_library (failing_service 0)) (VStr (lit "out-1"))
    (lit "ocr_results.ndjson") (disk (PdfData []))
  = (Raise (HTTPError 500),
     {| fs := fs (disk (PdfData []));
        trace := [EvHttp (GetFileContent (VStr (lit "out-1")))
                    (failing_service 0 0 (GetFileContent (VStr (lit "out-1"))))] |}).
Proof.
  apply (download_results_http_error (sample_library (failing_service 0))
           (VStr (lit "out-1")) (lit "ocr_results.ndjson") (disk (PdfData []))
           {| status_code := 500;
              resp_json := Ok (VDict [(lit "message", VStr (lit "internal error"))]);
              resp_content := [] |}
           eq_refl ltac:(cbn; lia)).
Defined.

(** X16: the downloaded bytes are saved before they are parsed.  When
    the first lines of the file parse and the next one raises,
    [download_results] raises that error and returns none of the texts,
    but the result file on disk holds the complete download. *)
Theorem download_results_parse_error (L : library) (output_file_id : pyval)
    (save_path : str) (s : state) (r : response) (f : str)
    (before : list str) (texts : list str) (line : str) (after : list str)
    (e : exn) :
  http L (length (http_calls (trace s))) (GetFileContent output_file_id) = Ok r ->
  status_code r < 400 \/ 600 <= status_code r ->
  locale_decode L (resp_content r) = Ok f ->
  readlines f = before ++ line :: after ->
  Forall2 (fun l t => result_text L l = Ok t) before texts ->
  result_text L line = Err e ->
  exists s',
    download_results L output_file_id save_path s = (Raise e, s')
    /\ fs s' = <[save_path := RawData (resp_content r)]> (fs s).
Proof.
  intros Hhttp Hstatus Hdecode Hlines Hbefore Hline.
  unfold download_results.
  unfold bind at 1, requests. rewrite Hhttp.
  unfold bind at 1. rewrite raise_for_status_ok by exact Hstatus.
  unfold bind at 1, write_file. cbn [fs trace].
  unfold bind at 1, print, emit. cbn [fs trace].
  unfold bind at 1, read_text, bind at 1, open_read. cbn [fs trace].
  rewrite lookup_insert_eq. rewrite Hdecode. cbn [lift ret].
  rewrite Hlines, for_fold_app. unfold bind at 1.
  rewrite (for_fold_lift (result_text L) before texts Hbefore).
  cbn [for_fold]. unfold bind. rewrite Hline. cbn [lift raise].
  eexists. split; reflexivity.
Qed.

Lemma download_results_parse_error_witness :
  exists s',
    download_results (sample_library null_response_service) (VStr (lit "out-1"))
      (lit "ocr_results.ndjson") (disk (PdfData []))
    = (Raise AttributeError, s')
    /\ fs s' !! lit "ocr_results.ndjson"
       = Some (RawData (lit "A" ++ newline ++ lit "N" ++ newline)).
Proof.
  destruct (download_results_parse_error (sample_library null_response_service)
              (VStr (lit "out-1")) (lit "ocr_results.ndjson") (disk (PdfData []))
              {| status_code := 200; resp_json := Ok VNone;
                 resp_content := lit "A" ++ newline ++ lit "N" ++ newline |}
              (lit "A" ++ newline ++ lit "N" ++ newline)
              [lit "A" ++ newline] [lit "first"] (lit "N" ++ newline) []
              AttributeError
              eq_refl ltac:(left; cbn; lia) eq_refl eq_refl
              ltac:(repeat constructor) eq_refl)
    as (s' & Hrun & Hfs).
  exists s'. split; [exact Hrun|]. rewrite Hfs. apply lookup_insert_eq.
Defined.

(** ** Errors while polling *)

Lemma poll_loop_fails (L : library) (job_id : pyval) (interval : Z) (fuel : nat)
    (s : state) (e : exn) :
  poll_answer L job_id (length (http_calls (trace s))) = Err e ->
  exists s1,
    poll_loop L (S fuel) job_id interval s = (Raise e, s1)
    /\ fs s1 = fs s
    /\ schedule (trace s1) = schedule (trace s) ++ [inl (GetBatchJob job_id)].
Proof.
  intros Hans. unfold poll_answer, rbind in Hans. cbn [poll_loop].
  unfold bind at 1, requests.
  destruct (http L (length (http_calls (trace s))) (GetBatchJob job_id)) as [resp|e'].
  - unfold bind at 1.
    destruct (resp_json resp) as [d|e'].
    + cbn [lift ret]. unfold bind at 1.
      destruct (py_getitem_str d (lit "status")) as [st|e']; [discriminate|].
      injection Hans as ->. eexists. split; [reflexivity|]. split; [reflexivity|].
      cbn [trace]. rewrite schedule_app. reflexivity.
    + injection Hans as ->. eexists. split; [reflexivity|]. split; [reflexivity|].
      cbn [trace]. rewrite schedule_app. reflexivity.
  - injection Hans as ->. eexists. split; [reflexivity|]. split; [reflexivity|].
    cbn [trace]. rewrite schedule_app. reflexivity.
Qed.

(** X17: an answer to a status poll that cannot be read ends the wait
    with an error.  After [n] polls that saw a non-terminal status, when
    the next request fails, or its body is not JSON, or the JSON has no
    ["status"] entry, [wait_for_job] raises that error: it has polled
    [n + 1] times and slept [n] times, and it does not poll again. *)
Theorem wait_for_job_poll_error (L : library) (job_id : pyval) (interval : Z)
    (s : state) (n fuel : nat) (e : exn) :
  (forall k, (k < n)%nat ->
     poll_pending L job_id (length (http_calls (trace s)) + k)) ->
  poll_answer L job_id (length (http_calls (trace s)) + n) = Err e ->
  (n < fuel)%nat ->
  exists s',
    wait_for_job L fuel job_id interval s = (Raise e, s')
    /\ fs s' = fs s
    /\ schedule (trace s')
       = schedule (trace s)
         ++ List.concat (replicate n [inl (GetBatchJob job_id); inr interval])
         ++ [inl (GetBatchJob job_id)].
Proof.
  intros Hpend Hfail Hfuel. unfold wait_for_job, bind at 1, print, emit.
  set (s0 := {| fs := fs s; trace := trace s ++ [EvPrint MsgWaiting] |}).
  assert (Hbase : length (http_calls (trace s0)) = length (http_calls (trace s))).
  { subst s0. cbn [trace]. rewrite http_calls_app. cbn. now rewrite app_nil_r. }
  assert (Hsched : schedule (trace s0) = schedule (trace s)).
  { subst s0. cbn [trace]. rewrite schedule_app. cbn. now rewrite app_nil_r. }
  change (fs s) with (fs s0). rewrite <- Hsched. rewrite <- Hbase in Hpend, Hfail.
  clear Hbase Hsched. generalize dependent s0. clear s.
  revert fuel Hfuel. induction n as [|n IH]; intros fuel Hfuel s Hpend Hfail.
  - destruct fuel as [|fuel]; [lia|]. rewrite Nat.add_0_r in Hfail.
    destruct (poll_loop_fails L job_id interval fuel s e Hfail) as (s1 & H1 & H2 & H3).
    exists s1. now rewrite H1, H2, H3.
  - destruct fuel as [|fuel]; [lia|].
    destruct (poll_loop_pending L job_id interval fuel s) as (s1 & H1 & H2 & H3 & H4).
    { specialize (Hpend 0%nat). rewrite Nat.add_0_r in Hpend. apply Hpend. lia. }
    destruct (IH fuel ltac:(lia) s1) as (s' & H5 & H6 & H7).
    + intros k Hk. rewrite H3.
      replace (S (length (http_calls (trace s))) + k)%nat
        with (length (http_calls (trace s)) + S k)%nat by lia.
      apply Hpend. lia.
    + rewrite H3.
      now replace (S (length (http_calls (trace s))) + n)%nat
        with (length (http_calls (trace s)) + S n)%nat by lia.
    + exists s'. rewrite H1, H5, H6, H2, H7, H4. split; [reflexivity|].
      split; [reflexivity|]. cbn. now rewrite <- !app_assoc.
Qed.

Lemma wait_for_job_poll_error_witness :
  exists s',
    wait_for_job (sample_library (dropping_service 2)) 5 (VStr (lit "job-1")) 15
      (disk (PdfData []))
    = (Raise (LibraryError 4), s')
    /\ fs s' = fs (disk (PdfData []))
    /\ schedule (trace s')
       = [inl (GetBatchJob (VStr (lit "job-1"))); inr 15;
          inl (GetBatchJob (VStr (lit "job-1"))); inr 15;
          inl (GetBatchJob (VStr (lit "job-1")))].
Proof.
  apply (wait_for_job_poll_error (sample_library (dropping_service 2))
           (VStr (lit "job-1")) 15 (disk (PdfData [])) 2 5 (LibraryError 4)).
  - intros k Hk. destruct k as [|[|k]]; [| |lia];
      (eexists; eexists; split; [reflexivity|vm_compute; reflexivity]).
  - reflexivity.
  - lia.
Defined.
